(** * Personal Library Manager (src/app.py): a shallow embedding

    The program is a Streamlit script: every user interaction re-runs the
    script against [st.session_state] and the file [library.txt].  The
    embedding below models

    - Python values as they come out of [json.load] (module [Py]);
    - the JSON text written by [json.dump(..., indent=4)] and read back by
      [json.load] (module [Json]);
    - the small part of pandas that [display_books] uses (module [Pd]);
    - the script itself, as a state-and-exception monad over the session
      state, the file system and the elements rendered on the page
      (module [App]).

    Module [Spec] holds the vocabulary of the properties; the modules
    [JsonFacts], [PdFacts] and [AppFacts] prove them.

    Modelling conventions.
    - A Python [str] is a Rocq [string]; a character is a code point in
      0..255.  Code points above 255 are outside the model.
    - A Python [int] is a [Z] (the interpreter's limit on the number of
      digits converted between [int] and [str] is not modelled).
    - A Python [dict] is an association list in insertion order, because
      [json.dump] and [pd.DataFrame] both depend on that order.
    - Python floats appear only in the percentage of [display_stats], where
      they are binary64 primitive floats; JSON documents holding a float
      literal are outside the model ([Unmodelled]).
    - An outcome is a normal return, a raised exception, or [Unmodelled]
      when the behaviour depends on library internals that are not embedded.
*)

From Stdlib Require Import ZArith NArith List String Ascii Bool Lia Arith.
From Stdlib Require Import Permutation.
From Stdlib Require Import Decimal DecimalString DecimalPos DecimalZ.
From Stdlib Require Import Floats Uint63.
Import ListNotations.

Local Open Scope string_scope.
Set Warnings "-register-all".

(* ================================================================== *)
(** * Python values and the operations the script applies to them *)
(* ================================================================== *)

Module Py.

(** The values [json.load] can build (floats excluded). *)
Inductive value : Type :=
| VNone
| VBool (b : bool)
| VInt (z : Z)
| VStr (s : string)
| VList (l : list value)
| VDict (d : list (string * value)).

Inductive exn : Type :=
| KeyError (k : value)
| IndexError
| TypeError
| AttributeError
| ValueError
| OSError (msg : string)
| JSONDecodeError.

Inductive result (A : Type) : Type :=
| Ok (a : A)
| Raise (e : exn)
| Unmodelled.

Arguments Ok {A} a.
Arguments Raise {A} e.
Arguments Unmodelled {A}.

Definition rbind {A B} (r : result A) (k : A -> result B) : result B :=
  match r with
  | Ok a => k a
  | Raise e => Raise e
  | Unmodelled => Unmodelled
  end.

(** [bool(v)], the test behind [if v] and [not v]. *)
Definition truthy (v : value) : bool :=
  match v with
  | VNone => false
  | VBool b => b
  | VInt z => negb (z =? 0)%Z
  | VStr s => negb (String.eqb s "")
  | VList l => match l with [] => false | _ => true end
  | VDict d => match d with [] => false | _ => true end
  end.

(** Strings of length one, as iteration over a [str] yields them. *)
Fixpoint chars (s : string) : list value :=
  match s with
  | EmptyString => []
  | String c s' => VStr (String c EmptyString) :: chars s'
  end.

(** [len(v)]. *)
Definition len (v : value) : result nat :=
  match v with
  | VStr s => Ok (String.length s)
  | VList l => Ok (List.length l)
  | VDict d => Ok (List.length d)
  | _ => Raise TypeError
  end.

(** [for x in v]: a list yields its elements, a dict its keys, a string
    its characters. *)
Definition iter (v : value) : result (list value) :=
  match v with
  | VList l => Ok l
  | VDict d => Ok (map (fun kv => VStr (fst kv)) d)
  | VStr s => Ok (chars s)
  | _ => Raise TypeError
  end.

(** Dictionary lookup by a string key. *)
Fixpoint dict_get {V} (d : list (string * V)) (k : string) : option V :=
  match d with
  | [] => None
  | (k', v) :: d' => if String.eqb k' k then Some v else dict_get d' k
  end.

(** [d[k] = v]: an existing key keeps its position, a new one goes last. *)
Fixpoint dict_set {V} (d : list (string * V)) (k : string) (v : V)
  : list (string * V) :=
  match d with
  | [] => [(k, v)]
  | (k', v') :: d' =>
      if String.eqb k' k then (k', v) :: d' else (k', v') :: dict_set d' k v
  end.

(** [v[k]] for a string literal [k], as in [book["title"]]. *)
Definition getitem (v : value) (k : string) : result value :=
  match v with
  | VDict d =>
      match dict_get d k with
      | Some x => Ok x
      | None => Raise (KeyError (VStr k))
      end
  | _ => Raise TypeError
  end.

(** [v[i]] for a natural number [i], as in [library[x]]. *)
Definition getindex (v : value) (i : nat) : result value :=
  match v with
  | VList l =>
      match nth_error l i with
      | Some x => Ok x
      | None => Raise IndexError
      end
  | VStr s =>
      match String.get i s with
      | Some c => Ok (VStr (String c EmptyString))
      | None => Raise IndexError
      end
  | VDict _ => Raise (KeyError (VInt (Z.of_nat i)))
  | _ => Raise TypeError
  end.

(** [l.append(x)], returning the list after the call. *)
Definition append (v x : value) : result value :=
  match v with
  | VList l => Ok (VList (l ++ [x]))
  | _ => Raise AttributeError
  end.

(** [l.pop(i)] for a natural number [i]: the removed element and the list
    after the call. *)
Definition pop (v : value) (i : nat) : result (value * value) :=
  match v with
  | VList l =>
      match nth_error l i with
      | Some x => Ok (x, VList (firstn i l ++ skipn (S i) l))
      | None => Raise IndexError
      end
  | VDict _ => Raise (KeyError (VInt (Z.of_nat i)))
  | _ => Raise AttributeError
  end.

(** [str.lower()] on one character of the range 0..255: A-Z and the
    capital letters of Latin-1 (0xC0-0xDE but for the multiplication sign)
    move up by 32. *)
Definition lower_char (c : ascii) : ascii :=
  let n := N_of_ascii c in
  if ((65 <=? n) && (n <=? 90))%N
     || ((192 <=? n) && (n <=? 222) && negb (n =? 215))%N
  then ascii_of_N (n + 32)
  else c.

Fixpoint lower_str (s : string) : string :=
  match s with
  | EmptyString => EmptyString
  | String c s' => String (lower_char c) (lower_str s')
  end.

(** [v.lower()]. *)
Definition lower (v : value) : result string :=
  match v with
  | VStr s => Ok (lower_str s)
  | _ => Raise AttributeError
  end.

(** [s.startswith(word)]. *)
Fixpoint starts_with (word s : string) : bool :=
  match word with
  | EmptyString => true
  | String a word' =>
      match s with
      | String b s' => Ascii.eqb a b && starts_with word' s'
      | EmptyString => false
      end
  end.

(** [needle in hay] on strings. *)
Fixpoint str_in (needle hay : string) : bool :=
  if starts_with needle hay then true
  else match hay with
       | EmptyString => false
       | String _ hay' => str_in needle hay'
       end.

(** Whether the strings of a list are pairwise different. *)
Fixpoint distinct (l : list string) : bool :=
  match l with
  | [] => true
  | k :: l' => negb (existsb (String.eqb k) l') && distinct l'
  end.

(** The association lists that stand for a Python value: a dict has each
    key once, at every depth. *)
Fixpoint wf (v : value) : bool :=
  match v with
  | VList l => forallb wf l
  | VDict d =>
      distinct (map fst d) && forallb (fun kv : string * value => wf (snd kv)) d
  | _ => true
  end.

(** [str(int)]. *)
Definition int_str (z : Z) : string := NilEmpty.string_of_int (Z.to_int z).

(** The text an f-string puts for [{v}]; the [repr] of containers is not
    embedded. *)
Definition format (v : value) : result string :=
  match v with
  | VNone => Ok "None"
  | VBool true => Ok "True"
  | VBool false => Ok "False"
  | VInt z => Ok (int_str z)
  | VStr s => Ok s
  | VList _ | VDict _ => Unmodelled
  end.

End Py.

(* ================================================================== *)
(** * The JSON text of the persisted file *)
(* ================================================================== *)

Module Json.
Import Py.

Definition dquote : ascii := "034"%char.
Definition newline : ascii := "010"%char.

(** ** [json.dump(obj, file, indent=4)] *)

(** One lower-case hexadecimal digit. *)
Definition hex_digit (n : N) : ascii :=
  if (n <? 10)%N then ascii_of_N (48 + n) else ascii_of_N (87 + n).

(** The replacement [encode_basestring_ascii] makes for one character:
    the quote, the backslash and five control characters have a short
    escape, the printable ASCII characters stand for themselves, all others
    are written [\u00xx]. *)
Definition escape_char (c : ascii) : string :=
  let n := N_of_ascii c in
  if (n =? 34)%N then String "\" (String dquote EmptyString)
  else if (n =? 92)%N then "\\"
  else if (n =? 8)%N then "\b"
  else if (n =? 12)%N then "\f"
  else if (n =? 10)%N then "\n"
  else if (n =? 13)%N then "\r"
  else if (n =? 9)%N then "\t"
  else if ((32 <=? n) && (n <=? 126))%N then String c EmptyString
  else "\u00" ++ String (hex_digit (n / 16)) (String (hex_digit (n mod 16)) EmptyString).

Fixpoint escape (s : string) : string :=
  match s with
  | EmptyString => EmptyString
  | String c s' => escape_char c ++ escape s'
  end.

Definition encode_basestring_ascii (s : string) : string :=
  String dquote (escape s ++ String dquote EmptyString).

Fixpoint spaces (n : nat) : string :=
  match n with
  | O => EmptyString
  | S n' => String " " (spaces n')
  end.

(** ['\n' + _indent * _current_indent_level], with [_indent] four spaces. *)
Definition newline_indent (level : nat) : string :=
  String newline (spaces (4 * level)).

Section Items.
Context {A : Type} (item : A -> string) (separator : string).

(** The items after the first, each behind the separator. *)
Fixpoint more_items (l : list A) : string :=
  match l with
  | [] => EmptyString
  | y :: ys => separator ++ item y ++ more_items ys
  end.

End Items.

(** [_iterencode]: an empty container is written [[]] or [{}]; otherwise
    every item starts a line one level deeper, items are separated by a
    comma, a key from its value by a colon and a space, and the closing
    bracket is on a line of its own at the container's level. *)
Fixpoint encode (level : nat) (v : value) : string :=
  match v with
  | VNone => "null"
  | VBool true => "true"
  | VBool false => "false"
  | VInt z => int_str z
  | VStr s => encode_basestring_ascii s
  | VList [] => "[]"
  | VList (x :: xs) =>
      "[" ++ newline_indent (S level) ++ encode (S level) x
      ++ more_items (encode (S level)) ("," ++ newline_indent (S level)) xs
      ++ newline_indent level ++ "]"
  | VDict [] => "{}"
  | VDict ((k, x) :: kxs) =>
      "{" ++ newline_indent (S level)
      ++ encode_basestring_ascii k ++ ": " ++ encode (S level) x
      ++ more_items
           (fun kv : string * value =>
              let (k', y) := kv in
              encode_basestring_ascii k' ++ ": " ++ encode (S level) y)
           ("," ++ newline_indent (S level)) kxs
      ++ newline_indent level ++ "}"
  end.

Definition dumps (v : value) : string := encode 0 v.

(** ** [json.load(file)] *)

Definition is_ws (c : ascii) : bool :=
  let n := N_of_ascii c in
  ((n =? 32) || (n =? 9) || (n =? 10) || (n =? 13))%N.

Fixpoint skip_ws (s : string) : string :=
  match s with
  | EmptyString => s
  | String c s' => if is_ws c then skip_ws s' else s
  end.

Definition is_digit (c : ascii) : bool :=
  let n := N_of_ascii c in ((48 <=? n) && (n <=? 57))%N.

(** The value of a hexadecimal digit of either case. *)
Definition hex_value (c : ascii) : option N :=
  let n := N_of_ascii c in
  if ((48 <=? n) && (n <=? 57))%N then Some (n - 48)%N
  else if ((97 <=? n) && (n <=? 102))%N then Some (n - 87)%N
  else if ((65 <=? n) && (n <=? 70))%N then Some (n - 55)%N
  else None.

Definition hex4 (a b c d : ascii) : option N :=
  match hex_value a, hex_value b, hex_value c, hex_value d with
  | Some x, Some y, Some z, Some w => Some (((x * 16 + y) * 16 + z) * 16 + w)%N
  | _, _, _, _ => None
  end.

(** The character a one-letter escape stands for. *)
Definition unescape (e : ascii) : option ascii :=
  let n := N_of_ascii e in
  if (n =? 34)%N then Some dquote
  else if (n =? 92)%N then Some "\"%char
  else if (n =? 47)%N then Some "/"%char
  else if (n =? 98)%N then Some "008"%char
  else if (n =? 102)%N then Some "012"%char
  else if (n =? 110)%N then Some "010"%char
  else if (n =? 114)%N then Some "013"%char
  else if (n =? 116)%N then Some "009"%char
  else None.

Definition rcons (c : ascii) (r : result (string * string))
  : result (string * string) :=
  rbind r (fun p => Ok (String c (fst p), snd p)).

(** [scanstring] from just after the opening quote (strict mode): the
    decoded string and the text after the closing quote.  A [\uXXXX] escape
    above 255 leaves the model. *)
Fixpoint scanstring (s : string) : result (string * string) :=
  match s with
  | EmptyString => Raise JSONDecodeError
  | String c s1 =>
      if Ascii.eqb c dquote then Ok (EmptyString, s1)
      else if Ascii.eqb c "\" then
        match s1 with
        | EmptyString => Raise JSONDecodeError
        | String e s2 =>
            if Ascii.eqb e "u" then
              match s2 with
              | String h1 (String h2 (String h3 (String h4 s3))) =>
                  match hex4 h1 h2 h3 h4 with
                  | None => Raise JSONDecodeError
                  | Some n =>
                      if (n <=? 255)%N then rcons (ascii_of_N n) (scanstring s3)
                      else Unmodelled
                  end
              | _ => Raise JSONDecodeError
              end
            else
              match unescape e with
              | Some ch => rcons ch (scanstring s2)
              | None => Raise JSONDecodeError
              end
        end
      else if (N_of_ascii c <? 32)%N then Raise JSONDecodeError
      else rcons c (scanstring s1)
  end.

Definition digit_of (c : ascii) : option (uint -> uint) :=
  let n := N_of_ascii c in
  if (n =? 48)%N then Some D0 else if (n =? 49)%N then Some D1
  else if (n =? 50)%N then Some D2 else if (n =? 51)%N then Some D3
  else if (n =? 52)%N then Some D4 else if (n =? 53)%N then Some D5
  else if (n =? 54)%N then Some D6 else if (n =? 55)%N then Some D7
  else if (n =? 56)%N then Some D8 else if (n =? 57)%N then Some D9
  else None.

(** The longest run of decimal digits at the head of [s]. *)
Fixpoint scan_digits (s : string) : uint * string :=
  match s with
  | EmptyString => (Nil, s)
  | String c s' =>
      match digit_of c with
      | Some d => let (u, r) := scan_digits s' in (d u, r)
      | None => (Nil, s)
      end
  end.

Definition starts_with_digit (s : string) : bool :=
  match s with
  | String c _ => is_digit c
  | EmptyString => false
  end.

(** Whether the text after the integer digits makes the number a float: a
    point and a digit, or an exponent mark, an optional sign and a digit. *)
Definition float_tail (s : string) : bool :=
  match s with
  | String c s' =>
      if Ascii.eqb c "." then starts_with_digit s'
      else if Ascii.eqb c "e" || Ascii.eqb c "E" then
        match s' with
        | String g s'' =>
            if Ascii.eqb g "+" || Ascii.eqb g "-" then starts_with_digit s''
            else is_digit g
        | EmptyString => false
        end
      else false
  | EmptyString => false
  end.

Definition finish_number (neg : bool) (u : uint) (r : string)
  : result (value * string) :=
  if float_tail r then Unmodelled
  else Ok (VInt (if neg then Z.opp (Z.of_uint u) else Z.of_uint u), r).

(** [_match_number]: an optional minus sign, then a single [0] or a run of
    digits that does not start with [0]. *)
Definition match_number (s : string) : result (value * string) :=
  let (neg, s1) :=
    match s with
    | String c s' => if Ascii.eqb c "-" then (true, s') else (false, s)
    | EmptyString => (false, s)
    end in
  match s1 with
  | EmptyString => Raise JSONDecodeError
  | String c s2 =>
      if Ascii.eqb c "0" then finish_number neg (D0 Nil) s2
      else if is_digit c then
        let (u, r) := scan_digits s1 in finish_number neg u r
      else Raise JSONDecodeError
  end.

Fixpoint drop (n : nat) (s : string) : string :=
  match n, s with
  | S n', String _ s' => drop n' s'
  | _, _ => s
  end.

(** A literal: the whole word must be there. *)
Definition literal (word : string) (v : result value) (s : string)
  : result (value * string) :=
  if starts_with word s
  then rbind v (fun x => Ok (x, drop (String.length word) s))
  else Raise JSONDecodeError.

(** Successive [PyDict_SetItem] calls, first pair first. *)
Definition dict_of_pairs (l : list (string * value)) : list (string * value) :=
  fold_left (fun d kv => dict_set d (fst kv) (snd kv)) l [].

(** The text after [c] when [s] starts with the character [c]. *)
Definition peek (c : ascii) (s : string) : option string :=
  match s with
  | String c' r => if Ascii.eqb c' c then Some r else None
  | EmptyString => None
  end.

(** [scan_once] with its two loops.  [elements] and [members] start at the
    first character of an item; the fuel bounds the number of nested calls
    and is taken from the length of the text by [loads]. *)
Fixpoint scan_once (fuel : nat) (s : string) : result (value * string) :=
  match fuel with
  | O => Unmodelled
  | S n =>
      match s with
      | EmptyString => Raise JSONDecodeError
      | String c s' =>
          if Ascii.eqb c dquote then
            rbind (scanstring s') (fun p => Ok (VStr (fst p), snd p))
          else if Ascii.eqb c "{" then
            match peek "}" (skip_ws s') with
            | Some r => Ok (VDict [], r)
            | None =>
                rbind (members n (skip_ws s'))
                  (fun p => Ok (VDict (dict_of_pairs (fst p)), snd p))
            end
          else if Ascii.eqb c "[" then
            match peek "]" (skip_ws s') with
            | Some r => Ok (VList [], r)
            | None =>
                rbind (elements n (skip_ws s'))
                  (fun p => Ok (VList (fst p), snd p))
            end
          else if Ascii.eqb c "n" then literal "null" (Ok VNone) s
          else if Ascii.eqb c "t" then literal "true" (Ok (VBool true)) s
          else if Ascii.eqb c "f" then literal "false" (Ok (VBool false)) s
          else if Ascii.eqb c "N" then literal "NaN" Unmodelled s
          else if Ascii.eqb c "I" then literal "Infinity" Unmodelled s
          else if starts_with "-Infinity" s then Unmodelled
          else match_number s
      end
  end
with elements (fuel : nat) (s : string) : result (list value * string) :=
  match fuel with
  | O => Unmodelled
  | S n =>
      rbind (scan_once n s) (fun p =>
        match peek "]" (skip_ws (snd p)) with
        | Some r => Ok ([fst p], r)
        | None =>
            match peek "," (skip_ws (snd p)) with
            | Some r =>
                rbind (elements n (skip_ws r))
                  (fun q => Ok (fst p :: fst q, snd q))
            | None => Raise JSONDecodeError
            end
        end)
  end
with members (fuel : nat) (s : string)
  : result (list (string * value) * string) :=
  match fuel with
  | O => Unmodelled
  | S n =>
      match peek dquote s with
      | None => Raise JSONDecodeError
      | Some s1 =>
          rbind (scanstring s1) (fun k =>
            match peek ":" (skip_ws (snd k)) with
            | None => Raise JSONDecodeError
            | Some s2 =>
                rbind (scan_once n (skip_ws s2)) (fun p =>
                  match peek "}" (skip_ws (snd p)) with
                  | Some r => Ok ([(fst k, fst p)], r)
                  | None =>
                      match peek "," (skip_ws (snd p)) with
                      | Some r =>
                          rbind (members n (skip_ws r))
                            (fun q => Ok ((fst k, fst p) :: fst q, snd q))
                      | None => Raise JSONDecodeError
                      end
                  end)
            end)
      end
  end.

(** [json.loads]: white space, one value, white space, end of text. *)
Definition loads (s : string) : result value :=
  rbind (scan_once (2 * String.length s + 1) (skip_ws s)) (fun p =>
    match skip_ws (snd p) with
    | EmptyString => Ok (fst p)
    | _ => Raise JSONDecodeError
    end).

End Json.

(* ================================================================== *)
(** * The part of pandas used by the script *)
(* ================================================================== *)

Module Pd.
Import Py.

(** A cell is missing (pandas shows NaN), holds a Python value as the
    record has it, or holds what the dtype of its column makes of a value.
    pandas converts the values of some columns when it builds a frame: an
    integer beside a missing entry becomes a float (1815 is then shown as
    1815.0), and [None] beside other values may become a missing value.
    What a conversion yields is not determined here: [Coerced v] stands
    for the value [v] in a column that may be converted. *)
Inductive cell : Type :=
| NaN
| Cell (v : value)
| Coerced (v : value).

(** A frame: its column labels, and for each row one cell per column. *)
Record DataFrame : Type := mkDataFrame {
  columns : list string;
  rows : list (list cell)
}.

Definition mem (k : string) (l : list string) : bool :=
  existsb (String.eqb k) l.

(** The labels of [l] followed by those of [ks] not seen before. *)
Definition add_labels (l ks : list string) : list string :=
  fold_left (fun acc k => if mem k acc then acc else (acc ++ [k])%list) ks l.

Definition is_none (v : value) : bool :=
  match v with
  | VNone => true
  | _ => false
  end.

Definition is_int (v : value) : bool :=
  match v with
  | VInt _ => true
  | _ => false
  end.

(** Whether some record of [rs] has under the key [c] a value that
    satisfies [P]. *)
Definition some_value (P : value -> bool) (rs : list (list (string * value)))
  (c : string) : bool :=
  existsb (fun d => match dict_get d c with
                    | Some v => P v
                    | None => false
                    end) rs.

(** Whether some record of [rs] lacks the key [c]. *)
Definition some_gap (rs : list (list (string * value))) (c : string) : bool :=
  existsb (fun d => match dict_get d c with
                    | Some _ => false
                    | None => true
                    end) rs.

(** Whether the column [c] of the frame of [rs] holds the values as the
    records have them: none of them is [None], and none is an integer
    when some record lacks the key.  (Strings, booleans and containers
    beside a missing entry stay as they are.) *)
Definition keeps (rs : list (list (string * value))) (c : string) : bool :=
  negb (some_value is_none rs c)
  && negb (some_gap rs c && some_value is_int rs c).

(** The cell of the record [d] in the column [c] of the frame of [rs]. *)
Definition cell_of (rs : list (list (string * value)))
  (d : list (string * value)) (c : string) : cell :=
  match dict_get d c with
  | Some v => if keeps rs c then Cell v else Coerced v
  | None => NaN
  end.

(** The records of a list of dicts, if all its elements are dicts. *)
Fixpoint records (l : list value) : option (list (list (string * value))) :=
  match l with
  | [] => Some []
  | VDict d :: l' => option_map (cons d) (records l')
  | _ :: _ => None
  end.

(** [pd.DataFrame(data)] for a list of dicts: the columns are the keys in
    the order they are first met, and a record without a key has a missing
    cell in that column.  Other arguments are not embedded. *)
Definition of_records (rs : list (list (string * value))) : DataFrame :=
  let cols := fold_left add_labels (map (map fst) rs) [] in
  mkDataFrame cols (map (fun d => map (cell_of rs d) cols) rs).

Definition make (data : value) : result DataFrame :=
  match data with
  | VList l =>
      match records l with
      | Some rs => Ok (of_records rs)
      | None => Unmodelled
      end
  | _ => Unmodelled
  end.

(** [df.empty]: no row or no column. *)
Definition empty (df : DataFrame) : bool :=
  match columns df, rows df with
  | [], _ => true
  | _, [] => true
  | _, _ => false
  end.

(** The position of a label among the columns. *)
Fixpoint index_of (c : string) (cols : list string) : option nat :=
  match cols with
  | [] => None
  | c' :: cols' =>
      if String.eqb c' c then Some O else option_map S (index_of c cols')
  end.

Fixpoint set_nth (i : nat) (x : cell) (row : list cell) : list cell :=
  match i, row with
  | _, [] => []
  | O, _ :: row' => x :: row'
  | S i', y :: row' => y :: set_nth i' x row'
  end.

(** [df[c] = v] for a scalar [v]: fills the column, adding it last when
    it is new. *)
Definition set_scalar (df : DataFrame) (c : string) (v : value) : DataFrame :=
  match index_of c (columns df) with
  | Some i => mkDataFrame (columns df) (map (set_nth i (Cell v)) (rows df))
  | None =>
      mkDataFrame (columns df ++ [c])%list
        (map (fun r => (r ++ [Cell v])%list) (rows df))
  end.

Fixpoint indices (cs cols : list string) : result (list nat) :=
  match cs with
  | [] => Ok []
  | c :: cs' =>
      match index_of c cols with
      | Some i => rbind (indices cs' cols) (fun l => Ok (i :: l))
      | None => Raise (KeyError (VStr c))
      end
  end.

(** [df[[c1, ..., cn]]]: these columns, in this order. *)
Definition select (df : DataFrame) (cs : list string) : result DataFrame :=
  rbind (indices cs (columns df)) (fun ix =>
    Ok (mkDataFrame cs (map (fun r => map (fun i => nth i r NaN) ix) (rows df)))).

(** [df.columns = names]. *)
Definition rename (df : DataFrame) (names : list string) : result DataFrame :=
  if Nat.eqb (List.length names) (List.length (columns df))
  then Ok (mkDataFrame names (rows df))
  else Raise ValueError.

(** One cell through [.map({True: "Yes", False: "No"})]: a value that is
    not a key of the dict becomes missing.  A boolean, a string and [None]
    are mapped alike in every column they can stand in (a column with a
    boolean or a string is converted, if at all, only in its [None]
    entries, which become missing).  How pandas compares an integer or a
    container with the keys is not embedded. *)
Definition yes_no (c : cell) : result cell :=
  match c with
  | NaN => Ok NaN
  | Cell (VBool true) | Coerced (VBool true) => Ok (Cell (VStr "Yes"))
  | Cell (VBool false) | Coerced (VBool false) => Ok (Cell (VStr "No"))
  | Cell (VStr _) | Coerced (VStr _) => Ok NaN
  | Cell VNone | Coerced VNone => Ok NaN
  | Cell (VInt _) | Cell (VList _) | Cell (VDict _)
  | Coerced (VInt _) | Coerced (VList _) | Coerced (VDict _) => Unmodelled
  end.

Fixpoint map_result {A B} (f : A -> result B) (l : list A) : result (list B) :=
  match l with
  | [] => Ok []
  | x :: l' => rbind (f x) (fun y => rbind (map_result f l') (fun ys => Ok (y :: ys)))
  end.

(** [df[c] = df[c].map(f)]. *)
Definition map_column (df : DataFrame) (c : string) (f : cell -> result cell)
  : result DataFrame :=
  match index_of c (columns df) with
  | None => Raise (KeyError (VStr c))
  | Some i =>
      rbind (map_result (fun r => rbind (f (nth i r NaN))
                                    (fun x => Ok (set_nth i x r))) (rows df))
        (fun rs => Ok (mkDataFrame (columns df) rs))
  end.

End Pd.

(* ================================================================== *)
(** * The script *)
(* ================================================================== *)

Module App.
Import Py.

(** ** The world the script runs in *)

(** The file [library.txt]: its text if it exists, and whether opening it
    for reading or for writing fails (with the message of the [OSError]). *)
Record filesys : Type := mkFilesys {
  file : option string;
  read_fault : option string;
  write_fault : option string
}.

(** A number as [display_stats] formats it: an [int] or a [float]. *)
Inductive number : Type :=
| NInt (z : Z)
| NFloat (x : float).

(** The elements a run puts on the page that depend on the data; the page
    configuration, the title and the side bar are left out.  [Error] keeps
    the exception that the f-string interpolates. *)
Inductive event : Type :=
| Header (s : string)
| Subheader (s : string)
| Success (s : string)
| Info (s : string)
| Warning (s : string)
| Error (s : string) (e : exn)
| Metric (label : string) (v : value)
| Selectbox (label : string) (options : list string)
| Dataframe (df : Pd.DataFrame)
| BarChart (index : list string) (counts : list Z).

(** [session] is [st.session_state]: [None] until the key [library] is set. *)
Record world : Type := mkWorld {
  session : option value;
  disk : filesys;
  page : list event
}.

(** ** State and exceptions *)

Definition M (A : Type) : Type := world -> result A * world.

Definition ret {A} (a : A) : M A := fun w => (Ok a, w).

Definition bind {A B} (m : M A) (k : A -> M B) : M B :=
  fun w =>
    match m w with
    | (Ok a, w') => k a w'
    | (Raise e, w') => (Raise e, w')
    | (Unmodelled, w') => (Unmodelled, w')
    end.

Notation "x <- m ;; k" := (bind m (fun x => k))
  (at level 61, m at next level, right associativity).
Notation "m ;; k" := (bind m (fun _ => k))
  (at level 61, right associativity).

Definition lift {A} (r : result A) : M A := fun w => (r, w).

(** [try: body except Exception as e: handler(e)]. *)
Definition try_except {A} (body : M A) (handler : exn -> M A) : M A :=
  fun w =>
    match body w with
    | (Raise e, w') => handler e w'
    | other => other
    end.

Definition emit (e : event) : M unit :=
  fun w => (Ok tt, mkWorld (session w) (disk w) (page w ++ [e])).

(** [st.session_state.library] *)
Definition get_library : M value :=
  fun w =>
    match session w with
    | Some v => (Ok v, w)
    | None => (Raise AttributeError, w)
    end.

(** [st.session_state.library = v], and the effect of a method that
    changes the list in place. *)
Definition set_library (v : value) : M unit :=
  fun w => (Ok tt, mkWorld (Some v) (disk w) (page w)).

(** [os.path.exists(LIBRARY_FILE)] *)
Definition path_exists : M bool :=
  fun w => (Ok (match file (disk w) with Some _ => true | None => false end), w).

(** [open(LIBRARY_FILE, 'r')] and [file.read()]. *)
Definition read_file : M string :=
  fun w =>
    match read_fault (disk w), file (disk w) with
    | Some msg, _ => (Raise (OSError msg), w)
    | None, Some text => (Ok text, w)
    | None, None => (Raise (OSError "No such file or directory"), w)
    end.

(** [open(LIBRARY_FILE, 'w')]: creates the file or empties it. *)
Definition open_write : M unit :=
  fun w =>
    match write_fault (disk w) with
    | Some msg => (Raise (OSError msg), w)
    | None =>
        (Ok tt,
         mkWorld (session w)
           (mkFilesys (Some EmptyString) (read_fault (disk w))
              (write_fault (disk w)))
           (page w))
    end.

(** [file.write(text)] on the file just emptied. *)
Definition write_file (text : string) : M unit :=
  fun w =>
    (Ok tt,
     mkWorld (session w)
       (mkFilesys (Some text) (read_fault (disk w)) (write_fault (disk w)))
       (page w)).

Definition LIBRARY_FILE : string := "library.txt".

(** ** Lines 10-20: the load at the start of a session *)

Definition startup : M unit :=
  fun w =>
    match session w with
    | Some _ => ret tt w
    | None =>
        (set_library (VList []) ;;
         try_except
           (ex <- path_exists ;;
            if ex : bool then
              text <- read_file ;;
              v <- lift (Json.loads text) ;;
              set_library v ;;
              emit (Success ("Library loaded from " ++ LIBRARY_FILE))
            else ret tt)
           (fun e =>
              emit (Error "Error loading library: " e) ;;
              set_library (VList []))) w
    end.

(** ** Lines 23-29 *)

Definition save_library : M unit :=
  try_except
    (open_write ;;
     lib <- get_library ;;
     write_file (Json.dumps lib) ;;
     emit (Success ("Library saved to " ++ LIBRARY_FILE)))
    (fun e => emit (Error "Error saving library: " e)).

(** ** Lines 32-57 *)

(** What the widgets of the form return. *)
Record add_form : Type := mkAddForm {
  title : string;
  author : string;
  year : Z;
  genre : string;
  read_status : string;
  submitted : bool
}.

(** The dict of lines 45-51. *)
Definition new_book (f : add_form) : value :=
  VDict [("title", VStr (title f));
         ("author", VStr (author f));
         ("year", VInt (year f));
         ("genre", VStr (genre f));
         ("read", VBool (String.eqb (read_status f) "Yes"))].

Definition add_book (f : add_form) : M unit :=
  emit (Header "Add a Book") ;;
  if submitted f && truthy (VStr (title f)) && truthy (VStr (author f)) then
    let book := new_book f in
    lib <- get_library ;;
    lib' <- lift (append lib book) ;;
    set_library lib' ;;
    save_library ;;
    emit (Success ("'" ++ title f ++ "' by " ++ author f
                   ++ " added successfully!"))
  else if submitted f then
    emit (Warning "Title and author are required!")
  else ret tt.

(** ** Lines 60-80 *)

Fixpoint for_each {A B} (f : A -> M B) (l : list A) : M (list B) :=
  match l with
  | [] => ret []
  | x :: l' => y <- f x ;; ys <- for_each f l' ;; ret (y :: ys)
  end.

(** The label of option [x] of the select box (line 74). *)
Definition option_label (x : nat) : M string :=
  lib <- get_library ;;
  b <- lift (getindex lib x) ;;
  t <- lift (getitem b "title") ;;
  ts <- lift (format t) ;;
  lib <- get_library ;;
  b <- lift (getindex lib x) ;;
  a <- lift (getitem b "author") ;;
  az <- lift (format a) ;;
  ret (ts ++ " by " ++ az).

(** [book_to_remove] is the option the select box returns, one of
    [range(len(library))]; [clicked] is what the button returns. *)
Definition remove_book (book_to_remove : nat) (clicked : bool) : M unit :=
  emit (Header "Remove a Book") ;;
  lib <- get_library ;;
  if negb (truthy lib) then
    emit (Info "Your library is empty.")
  else
    _ <- lift (Pd.make lib) ;;
    lib <- get_library ;;
    n <- lift (len lib) ;;
    labels <- for_each option_label (seq 0 n) ;;
    emit (Selectbox "Select a book to remove:" labels) ;;
    if clicked then
      lib <- get_library ;;
      r <- lift (pop lib book_to_remove) ;;
      set_library (snd r) ;;
      save_library ;;
      t <- lift (getitem (fst r) "title") ;;
      ts <- lift (format t) ;;
      emit (Success ("'" ++ ts ++ "' removed successfully!"))
    else ret tt.

(** ** Lines 109-134 *)

Definition expected_columns : list string :=
  ["title"; "author"; "year"; "genre"; "read"].

Definition display_books (books_to_display : option value) : M unit :=
  books_list <- match books_to_display with
                | Some b => ret b
                | None => get_library
                end ;;
  if negb (truthy books_list) then
    emit (Info "No books to display.")
  else
    df <- lift (Pd.make books_list) ;;
    if negb (Pd.empty df) then
      let df :=
        fold_left
          (fun df col =>
             if negb (Pd.mem col (Pd.columns df))
             then Pd.set_scalar df col (VStr "")
             else df)
          expected_columns df in
      df <- lift (Pd.select df expected_columns) ;;
      df <- lift (Pd.rename df ["Title"; "Author"; "Year"; "Genre"; "Read"]) ;;
      df <- lift (Pd.map_column df "Read" Pd.yes_no) ;;
      emit (Dataframe df)
    else ret tt.

(** ** Lines 83-106 *)

(** The test of lines 98-99 for one book; [and] and [or] evaluate their
    right operand only when needed. *)
Definition matches (search_by search_term : string) (book : value) : M bool :=
  left <- (if String.eqb search_by "Title" then
             t <- lift (getitem book "title") ;;
             l <- lift (lower t) ;;
             ret (str_in search_term l)
           else ret false) ;;
  if left : bool then ret true
  else if String.eqb search_by "Author" then
    a <- lift (getitem book "author") ;;
    l <- lift (lower a) ;;
    ret (str_in search_term l)
  else ret false.

(** The loop of lines 97-100, from the books still to visit and the
    matches found so far. *)
Fixpoint search_loop (search_by search_term : string) (books : list value)
  (matching_books : list value) : M (list value) :=
  match books with
  | [] => ret matching_books
  | book :: books' =>
      m <- matches search_by search_term book ;;
      search_loop search_by search_term books'
        (if m : bool then matching_books ++ [book] else matching_books)
  end.

Definition search_book (search_by search_term : string) : M unit :=
  emit (Header "Search for Books") ;;
  lib <- get_library ;;
  if negb (truthy lib) then
    emit (Info "Your library is empty.")
  else if truthy (VStr search_term) then
    let search_term := lower_str search_term in
    lib <- get_library ;;
    books <- lift (iter lib) ;;
    matching_books <- search_loop search_by search_term books [] ;;
    if truthy (VList matching_books) then
      emit (Subheader "Matching Books:") ;;
      display_books (Some (VList matching_books))
    else emit (Info "No matching books found.")
  else ret tt.

(** ** Lines 137-175 *)

Definition float_of_nat (n : nat) : float :=
  PrimFloat.of_uint63 (Uint63.of_Z (Z.of_nat n)).

(** Line 146.  The division of two [int]s is the binary64 quotient of
    their conversions, which is exact for counts below 2^53. *)
Definition percentage_read (read_books total_books : nat) : number :=
  if (0 <? total_books)%nat
  then NFloat (PrimFloat.mul
                 (PrimFloat.div (float_of_nat read_books)
                                (float_of_nat total_books))
                 (float_of_nat 100))
  else NInt 0.

(** [num / den] rounded to the nearest integer, ties to even. *)
Definition round_half_even (num den : Z) : Z :=
  let q := (num / den)%Z in
  let r := (num mod den)%Z in
  if (2 * r <? den)%Z then q
  else if (den <? 2 * r)%Z then (q + 1)%Z
  else if Z.even q then q else (q + 1)%Z.

Definition fixed1 (neg : bool) (tenths : Z) : string :=
  (if neg then "-" else "")
  ++ int_str (tenths / 10) ++ "." ++ int_str (tenths mod 10).

(** [f"{x:.1f}"]: the exact value of [x], rounded to one decimal. *)
Definition format_1f (x : number) : string :=
  match x with
  | NInt z => fixed1 (z <? 0)%Z (Z.abs z * 10)
  | NFloat f =>
      match Prim2SF f with
      | S754_zero s => fixed1 s 0
      | S754_infinity s => if s then "-inf" else "inf"
      | S754_nan => "nan"
      | S754_finite s m e =>
          fixed1 s (if (0 <=? e)%Z
                    then (Zpos m * 2 ^ e * 10)%Z
                    else round_half_even (Zpos m * 10) (2 ^ (- e)))
      end
  end.

(** Line 145: [sum(1 for book in library if book["read"])]. *)
Fixpoint count_read (books : list value) : M nat :=
  match books with
  | [] => ret O
  | book :: books' =>
      r <- lift (getitem book "read") ;;
      n <- count_read books' ;;
      ret (if truthy r then S n else n)
  end.

(** A genre as a key of [genre_counts]: a list or a dict cannot be hashed;
    keys other than strings are not embedded. *)
Definition genre_key (g : value) : result string :=
  match g with
  | VStr s => Ok s
  | VList _ | VDict _ => Raise TypeError
  | VNone | VBool _ | VInt _ => Unmodelled
  end.

(** The loop of lines 163-168. *)
Fixpoint count_genres (books : list value) (genre_counts : list (string * Z))
  : M (list (string * Z)) :=
  match books with
  | [] => ret genre_counts
  | book :: books' =>
      g <- lift (getitem book "genre") ;;
      k <- lift (genre_key g) ;;
      count_genres books'
        (match dict_get genre_counts k with
         | Some n => dict_set genre_counts k (n + 1)%Z
         | None => dict_set genre_counts k 1%Z
         end)
  end.

Definition display_stats : M unit :=
  emit (Header "Library Statistics") ;;
  lib <- get_library ;;
  if negb (truthy lib) then
    emit (Info "Your library is empty.")
  else
    lib <- get_library ;;
    total_books <- lift (len lib) ;;
    lib <- get_library ;;
    books <- lift (iter lib) ;;
    read_books <- count_read books ;;
    let percentage := percentage_read read_books total_books in
    emit (Metric "Total Books" (VInt (Z.of_nat total_books))) ;;
    emit (Metric "Books Read" (VInt (Z.of_nat read_books))) ;;
    emit (Metric "Percentage Read" (VStr (format_1f percentage ++ "%"))) ;;
    if (0 <? total_books)%nat then
      emit (Subheader "Genre Distribution") ;;
      lib <- get_library ;;
      books <- lift (iter lib) ;;
      genre_counts <- count_genres books [] ;;
      emit (BarChart (map fst genre_counts) (map snd genre_counts))
    else ret tt.

(** ** Lines 178-216 and the script as a whole *)

(** What the widgets return in one run. *)
Record inputs : Type := mkInputs {
  nav : string;
  save_clicked : bool;
  form : add_form;
  book_to_remove : nat;
  remove_clicked : bool;
  search_by : string;
  search_term : string
}.

Definition main (i : inputs) : M unit :=
  if String.eqb (nav i) "View All Books" then
    emit (Header "Your Library") ;;
    display_books None ;;
    if save_clicked i then save_library else ret tt
  else if String.eqb (nav i) "Add a Book" then add_book (form i)
  else if String.eqb (nav i) "Remove a Book" then
    remove_book (book_to_remove i) (remove_clicked i)
  else if String.eqb (nav i) "Search for Books" then
    search_book (search_by i) (search_term i)
  else if String.eqb (nav i) "Statistics" then display_stats
  else ret tt.

(** One run of the script on a fresh page. *)
Definition script (i : inputs) (w : world) : result unit * world :=
  (startup ;; main i) (mkWorld (session w) (disk w) []).

End App.

(* ================================================================== *)
(** * Vocabulary of the properties *)
(* ================================================================== *)

Module Spec.
Import Py Json Pd App.

(** A Book record: a dict with the five fields of the data model, each of
    its type.  The key order is free and the title may be empty. *)
Definition is_book (v : value) : bool :=
  wf v &&
  match v with
  | VDict d =>
      match dict_get d "title", dict_get d "author", dict_get d "year",
            dict_get d "genre", dict_get d "read" with
      | Some (VStr _), Some (VStr _), Some (VInt _), Some (VStr _),
        Some (VBool _) => true
      | _, _, _, _, _ => false
      end
  | _ => false
  end.

Definition str_field (k : string) (v : value) : string :=
  match getitem v k with
  | Ok (VStr s) => s
  | _ => EmptyString
  end.

Definition book_title : value -> string := str_field "title".
Definition book_author : value -> string := str_field "author".
Definition book_genre : value -> string := str_field "genre".

Definition book_year (v : value) : Z :=
  match getitem v "year" with
  | Ok (VInt z) => z
  | _ => 0%Z
  end.

Definition book_read (v : value) : bool :=
  match getitem v "read" with
  | Ok (VBool b) => b
  | _ => false
  end.

(** [term] occurs in [s] when case is ignored. *)
Definition ci_contains (term s : string) : Prop :=
  exists pre post, lower_str s = pre ++ lower_str term ++ post.

(** [sub] is [l] with some elements left out, the others in order. *)
Inductive subsequence {A} : list A -> list A -> Prop :=
| sub_nil : subsequence [] []
| sub_skip x sub l : subsequence sub l -> subsequence sub (x :: l)
| sub_keep x sub l : subsequence sub l -> subsequence (x :: sub) (x :: l).

(** How many books of [l] carry the genre [g]. *)
Definition occurrences (g : string) (l : list value) : nat :=
  List.length (filter (String.eqb g) (map book_genre l)).

(** The counts after the genres [gs] are tallied into [counts], one after
    the other. *)
Fixpoint tally (gs : list string) (counts : list (string * Z))
  : list (string * Z) :=
  match gs with
  | [] => counts
  | g :: gs' =>
      tally gs'
        (match dict_get counts g with
         | Some n => dict_set counts g (n + 1)%Z
         | None => dict_set counts g 1%Z
         end)
  end.

(** Whether some record of [rs] has the key [c]. *)
Definition has_field (c : string) (rs : list (list (string * value))) : bool :=
  existsb (fun d => Pd.mem c (map fst d)) rs.

(** What the table shows for record [d] of [rs] under the field [c]: the
    cell of the record when some record has the field, the placeholder
    when none has. *)
Definition shown_cell (rs : list (list (string * value)))
  (d : list (string * value)) (c : string) : Pd.cell :=
  if has_field c rs then Pd.cell_of rs d c else Pd.Cell (VStr "").

Definition record_row (rs : list (list (string * value)))
  (d : list (string * value)) : result (list Pd.cell) :=
  rbind (Pd.yes_no (shown_cell rs d "read")) (fun x =>
    Ok [shown_cell rs d "title"; shown_cell rs d "author";
        shown_cell rs d "year"; shown_cell rs d "genre"; x]).

Definition table_rows (rs : list (list (string * value)))
  : result (list (list Pd.cell)) :=
  Pd.map_result (record_row rs) rs.

(** The row of the table for a Book. *)
Definition book_row (b : value) : list Pd.cell :=
  [Pd.Cell (VStr (book_title b)); Pd.Cell (VStr (book_author b));
   Pd.Cell (VInt (book_year b)); Pd.Cell (VStr (book_genre b));
   Pd.Cell (VStr (if book_read b then "Yes" else "No"))].

Definition table_columns : list string :=
  ["Title"; "Author"; "Year"; "Genre"; "Read"].

Definition books_table (l : list value) : Pd.DataFrame :=
  Pd.mkDataFrame table_columns (map book_row l).

(** A Book record with its keys in the order [add_book] writes them. *)
Definition mk_book (t a : string) (y : Z) (g : string) (r : bool) : value :=
  VDict [("title", VStr t); ("author", VStr a); ("year", VInt y);
         ("genre", VStr g); ("read", VBool r)].

Definition is_metric (e : App.event) : bool :=
  match e with
  | App.Metric _ _ => true
  | _ => false
  end.



(** Whether no record of [rs] has a null under [c], and none has an
    integer under [c] when some record lacks [c]: the condition on which
    pandas holds the values of the column as the records have them. *)
Definition plain_column (rs : list (list (string * value))) (c : string)
  : Prop :=
  (forall d, In d rs -> dict_get d c <> Some VNone)
  /\ ((exists d, In d rs /\ dict_get d c = None) ->
      forall d z, In d rs -> dict_get d c <> Some (VInt z)).



(** A JSON string literal without escapes. *)
Definition quoted (s : string) : string :=
  String Json.dquote (s ++ String Json.dquote EmptyString).

(** What the search page shows below its header for the store [l] and
    the matches [hits]. *)
Definition search_results (l hits : list value) : list App.event :=
  match l, hits with
  | [], _ => [App.Info "Your library is empty."]
  | _, [] => [App.Info "No matching books found."]
  | _, _ => [App.Subheader "Matching Books:"; App.Dataframe (books_table hits)]
  end.

(** The books of [l] whose title, or author, contains [term], case
    ignored. *)
Definition title_hits (term : string) (l : list value) : list value :=
  filter (fun b => str_in (lower_str term) (lower_str (book_title b))) l.

Definition author_hits (term : string) (l : list value) : list value :=
  filter (fun b => str_in (lower_str term) (lower_str (book_author b))) l.

(** ** The persisted file *)

(** The elements [save_library] adds to the page. *)
Definition save_report (d : filesys) : event :=
  match write_fault d with
  | None => Success "Library saved to library.txt"
  | Some msg => Error "Error saving library: " (OSError msg)
  end.

(** The file after [save_library] on the store [v]. *)
Definition saved (v : value) (d : filesys) : filesys :=
  match write_fault d with
  | None => mkFilesys (Some (Json.dumps v)) (read_fault d) None
  | Some _ => d
  end.

(** ** The select box and computations that only read *)

(** The label of a book in the select box. *)
Definition label (b : value) : string := book_title b ++ " by " ++ book_author b.

(** A computation that only reads. *)
Definition reads_only {A} (m : M A) : Prop := forall w, snd (m w) = w.

(** ** Counting *)

Definition count_str (g : string) (gs : list string) : nat :=
  List.length (filter (String.eqb g) gs).

(** ** The table, column by column *)

(** The cell of row [r] under the label [c]. *)
Definition cell_at (cols : list string) (r : list cell) (c : string) : cell :=
  match index_of c cols with
  | Some i => nth i r NaN
  | None => NaN
  end.

(** The labels of [cs] that [cols] lacks, each once, in the order of [cs]. *)
Fixpoint missing (cs cols : list string) : list string :=
  match cs with
  | [] => []
  | c :: cs' =>
      if mem c cols then missing cs' cols else c :: missing cs' (cols ++ [c])
  end.

Definition ensure (cs : list string) (df : DataFrame) : DataFrame :=
  fold_left
    (fun df col =>
       if negb (mem col (columns df)) then set_scalar df col (VStr "") else df)
    cs df.


(** ** The JSON text *)

(** The text after a number in what [encode] writes: nothing, a comma or
    a new line. *)
Definition delimited (rest : string) : Prop :=
  match rest with
  | EmptyString => True
  | String c _ => c = ","%char \/ c = newline
  end.

(** A normalised numeral is zero or starts with a digit other than 0. *)
Definition leading (u : uint) : Prop :=
  match u with
  | Nil | D0 _ => False
  | _ => True
  end.

(** Nested calls that parsing the text of [v] takes. *)
Fixpoint need (v : value) : nat :=
  match v with
  | VList l => S (fold_right (fun x acc => S (need x + acc)) 0 l)
  | VDict d =>
      S (fold_right (fun (kv : string * value) acc => S (need (snd kv) + acc)) 0 d)
  | _ => 1
  end.

(** The first character of the text of a value is not white space and not
    a closing bracket. *)
Definition starts_value (s : string) : Prop :=
  match s with
  | String c _ =>
      is_ws c = false /\ Ascii.eqb c "]" = false /\ Ascii.eqb c "}" = false
  | EmptyString => False
  end.

(** The text of [v] at any depth, followed by a delimiter, is scanned
    back to [v] and stops at the delimiter. *)
Definition loads_back (v : value) : Prop :=
  wf v = true ->
  forall level rest fuel, need v <= fuel -> delimited rest ->
  scan_once fuel (encode level v ++ rest) = Ok (v, rest).

Definition elements_need (l : list value) : nat :=
  fold_right (fun x acc => S (need x + acc)) 0 l.

Definition members_need (d : list (string * value)) : nat :=
  fold_right (fun (kv : string * value) acc => S (need (snd kv) + acc)) 0 d.

Definition member_text (level : nat) (kv : string * value) : string :=
  let (k, y) := kv in encode_basestring_ascii k ++ ": " ++ encode (S level) y.

End Spec.

(* ================================================================== *)
(** * Vocabulary of the properties of whole runs *)
(* ================================================================== *)

Module SpecMore.
Import Py App Spec.

(** A computation that may show things and fail, and leaves the store and
    the file as they are. *)
Definition shows_only {A} (m : M A) : Prop :=
  forall w, session (snd (m w)) = session w /\ disk (snd (m w)) = disk w.

(** A form that [add_book] accepts. *)
Definition valid_form (f : add_form) : bool :=
  submitted f && negb (String.eqb (title f) "")
  && negb (String.eqb (author f) "").

(** The add page run once for each form of [fs], in order. *)
Fixpoint add_all (fs : list add_form) : M unit :=
  match fs with
  | [] => ret tt
  | f :: fs' => add_book f ;; add_all fs'
  end.

(** Whether [v] is a dict with the key [k]. *)
Definition has_key (k : string) (v : value) : bool :=
  match v with
  | VDict d => match dict_get d k with Some _ => true | None => false end
  | _ => false
  end.

(** A computation that leaves the store as it is. *)
Definition keeps_store {A} (m : M A) : Prop :=
  forall w, session (snd (m w)) = session w.

(** Whether [v] is a dict. *)
Definition is_dict (v : value) : bool :=
  match v with
  | VDict _ => true
  | _ => false
  end.

(** The sum of the counts of a chart. *)
Definition total (counts : list Z) : Z := fold_right Z.add 0%Z counts.

(** Whether the record [v] counts as read: it has the field [read] and the
    value of the field is true in a condition. *)
Definition counts_as_read (v : value) : bool :=
  match getitem v "read" with
  | Ok r => truthy r
  | _ => false
  end.

(** Two worlds that a run cannot tell apart unless it reads the file: the
    same store, the same page, and the same answer to an attempt to open
    the file for writing. *)
Definition same_view (w1 w2 : world) : Prop :=
  session w1 = session w2 /\ page w1 = page w2
  /\ write_fault (disk w1) = write_fault (disk w2).

(** A computation whose result, store and page depend neither on what the
    file holds nor on whether it can be read. *)
Definition file_blind {A} (m : M A) : Prop :=
  forall w1 w2, same_view w1 w2 ->
    fst (m w1) = fst (m w2) /\ same_view (snd (m w1)) (snd (m w2)).

(** The file holds a text that loads to the store. *)
Definition in_step (w : world) : Prop :=
  exists text v,
    file (disk w) = Some text /\ session w = Some v /\ Json.loads text = Ok v.

End SpecMore.

(* ================================================================== *)
(** * Facts about the JSON text: what is dumped loads back *)
(* ================================================================== *)

Module JsonFacts.
Import Py Json Spec.

Lemma app_assoc_str (a b c : string) : (a ++ b) ++ c = a ++ (b ++ c).
Proof. induction a as [|x a IH]; simpl; [reflexivity | now rewrite IH]. Qed.

Lemma app_empty_l (a : string) : "" ++ a = a.
Proof. reflexivity. Qed.

Lemma length_app_str (a b : string) :
  String.length (a ++ b) = String.length a + String.length b.
Proof. induction a as [|x a IH]; simpl; [reflexivity | now rewrite IH]. Qed.

(** An induction principle that reaches the values inside containers. *)
Lemma value_nested_ind (P : value -> Prop) :
  P VNone ->
  (forall b, P (VBool b)) ->
  (forall z, P (VInt z)) ->
  (forall s, P (VStr s)) ->
  (forall l, Forall P l -> P (VList l)) ->
  (forall d, Forall (fun kv => P (snd kv)) d -> P (VDict d)) ->
  forall v, P v.
Proof.
  intros HN HB HI HS HL HD.
  fix IH 1.
  intros [ | b | z | s | l | d].
  - exact HN.
  - apply HB.
  - apply HI.
  - apply HS.
  - apply HL. induction l as [|x l IHl]; constructor; [apply IH | exact IHl].
  - apply HD. induction d as [|[k x] d IHd]; constructor; [apply IH | exact IHd].
Qed.

(** ** Strings *)

Lemma scanstring_escape_char (c : ascii) (t : string) :
  scanstring (escape_char c ++ t) = rcons c (scanstring t).
Proof.
  destruct c as [[] [] [] [] [] [] [] []]; reflexivity.
Qed.

Lemma scanstring_escape (s rest : string) :
  scanstring (escape s ++ String dquote rest) = Ok (s, rest).
Proof.
  induction s as [|c s IH]; simpl.
  - reflexivity.
  - rewrite app_assoc_str, scanstring_escape_char, IH. reflexivity.
Qed.

(** ** Integers *)

Lemma delimited_no_digit rest : delimited rest -> starts_with_digit rest = false.
Proof. destruct rest as [|c r]; simpl; [reflexivity | intros [-> | ->]; reflexivity]. Qed.

Lemma delimited_no_float rest : delimited rest -> float_tail rest = false.
Proof. destruct rest as [|c r]; simpl; [reflexivity | intros [-> | ->]; reflexivity]. Qed.

Lemma scan_digits_uint (u : uint) (rest : string) :
  starts_with_digit rest = false ->
  scan_digits (NilEmpty.string_of_uint u ++ rest) = (u, rest).
Proof.
  intros Hr. induction u; simpl; try (rewrite IHu; reflexivity).
  destruct rest as [|c r]; simpl in *; [reflexivity|].
  unfold digit_of. unfold is_digit in Hr.
  destruct c as [[] [] [] [] [] [] [] []]; try discriminate Hr; reflexivity.
Qed.

Lemma unorm_leading (u : uint) :
  unorm u = Decimal.zero \/ leading (unorm u).
Proof.
  induction u; simpl; auto.
Qed.

Lemma to_uint_leading (p : positive) : leading (Pos.to_uint p).
Proof.
  pose proof (DecimalPos.Unsigned.to_of (Pos.to_uint p)) as H.
  rewrite DecimalPos.Unsigned.of_to in H. simpl in H.
  destruct (unorm_leading (Pos.to_uint p)) as [E | L].
  - rewrite <- H in E. now apply DecimalPos.Unsigned.to_uint_nonzero in E.
  - now rewrite <- H in L.
Qed.

Lemma of_uint_to_uint (p : positive) : Z.of_uint (Pos.to_uint p) = Zpos p.
Proof.
  unfold Z.of_uint. now rewrite DecimalPos.Unsigned.of_to.
Qed.

Lemma number_leading (neg : bool) (u : uint) (rest : string) :
  leading u -> delimited rest ->
  match_number ((if neg then "-" else "") ++ NilEmpty.string_of_uint u ++ rest)
  = Ok (VInt (if neg then Z.opp (Z.of_uint u) else Z.of_uint u), rest).
Proof.
  intros L D.
  assert (S : scan_digits (NilEmpty.string_of_uint u ++ rest) = (u, rest))
    by (apply scan_digits_uint, delimited_no_digit, D).
  assert (F : finish_number neg u rest
              = Ok (VInt (if neg then Z.opp (Z.of_uint u) else Z.of_uint u), rest))
    by (unfold finish_number; now rewrite (delimited_no_float _ D)).
  destruct u; try contradiction;
    destruct neg; unfold match_number; simpl in *; rewrite S; exact F.
Qed.

Lemma match_number_int_str (z : Z) (rest : string) :
  delimited rest -> match_number (int_str z ++ rest) = Ok (VInt z, rest).
Proof.
  intros D. unfold int_str. destruct z as [|p|p].
  - unfold match_number; simpl. unfold finish_number.
    now rewrite (delimited_no_float _ D).
  - pose proof (number_leading false _ _ (to_uint_leading p) D) as H.
    rewrite of_uint_to_uint in H. exact H.
  - pose proof (number_leading true _ _ (to_uint_leading p) D) as H.
    rewrite of_uint_to_uint in H. exact H.
Qed.

(** ** Containers *)

Lemma uint_starts (u : uint) (rest : string) :
  leading u -> starts_value (NilEmpty.string_of_uint u ++ rest).
Proof. destruct u; simpl; intros L; try contradiction; repeat split. Qed.

Lemma encode_starts (level : nat) (v : value) (rest : string) :
  starts_value (encode level v ++ rest).
Proof.
  destruct v as [ | [] | [|p|p] | s | [|x l] | [|[k x] d]];
    simpl; repeat split.
  all: apply uint_starts, to_uint_leading.
Qed.

Lemma skip_ws_value (s : string) : starts_value s -> skip_ws s = s.
Proof. destruct s as [|c r]; simpl; [easy | intros (-> & _); reflexivity]. Qed.

Lemma peek_close_list (s : string) : starts_value s -> peek "]" s = None.
Proof. destruct s as [|c r]; simpl; [easy | intros (_ & -> & _); reflexivity]. Qed.

Lemma peek_close_dict (s : string) : starts_value s -> peek "}" s = None.
Proof. destruct s as [|c r]; simpl; [easy | intros (_ & _ & ->); reflexivity]. Qed.

Lemma skip_ws_spaces (n : nat) (s : string) : skip_ws (spaces n ++ s) = skip_ws s.
Proof. induction n as [|n IH]; simpl; [reflexivity | exact IH]. Qed.

Lemma skip_ws_newline_indent (level : nat) (s : string) :
  skip_ws (newline_indent level ++ s) = skip_ws s.
Proof. unfold newline_indent. simpl. apply skip_ws_spaces. Qed.

Lemma delimited_newline_indent (level : nat) (s : string) :
  delimited (newline_indent level ++ s).
Proof. simpl. now right. Qed.

Lemma skip_ws_comma (s : string) : skip_ws ("," ++ s) = "," ++ s.
Proof. reflexivity. Qed.

Lemma peek_comma (s : string) : peek "," ("," ++ s) = Some s.
Proof. reflexivity. Qed.

Lemma peek_comma_close_list (s : string) : peek "]" ("," ++ s) = None.
Proof. reflexivity. Qed.

Lemma peek_comma_close_dict (s : string) : peek "}" ("," ++ s) = None.
Proof. reflexivity. Qed.

Lemma elements_step (n : nat) (s : string) :
  elements (S n) s
  = rbind (scan_once n s) (fun p =>
      match peek "]" (skip_ws (snd p)) with
      | Some r => Ok ([fst p], r)
      | None =>
          match peek "," (skip_ws (snd p)) with
          | Some r =>
              rbind (elements n (skip_ws r)) (fun q => Ok (fst p :: fst q, snd q))
          | None => Raise JSONDecodeError
          end
      end).
Proof. reflexivity. Qed.

Lemma members_step (n : nat) (s : string) :
  members (S n) (String dquote s)
  = rbind (scanstring s) (fun k =>
      match peek ":" (skip_ws (snd k)) with
      | None => Raise JSONDecodeError
      | Some s2 =>
          rbind (scan_once n (skip_ws s2)) (fun p =>
            match peek "}" (skip_ws (snd p)) with
            | Some r => Ok ([(fst k, fst p)], r)
            | None =>
                match peek "," (skip_ws (snd p)) with
                | Some r =>
                    rbind (members n (skip_ws r))
                      (fun q => Ok ((fst k, fst p) :: fst q, snd q))
                | None => Raise JSONDecodeError
                end
            end)
      end).
Proof. reflexivity. Qed.

Lemma scan_once_list (n : nat) (s : string) :
  scan_once (S n) ("[" ++ s)
  = match peek "]" (skip_ws s) with
    | Some r => Ok (VList [], r)
    | None => rbind (elements n (skip_ws s)) (fun p => Ok (VList (fst p), snd p))
    end.
Proof. reflexivity. Qed.

Lemma scan_once_dict (n : nat) (s : string) :
  scan_once (S n) ("{" ++ s)
  = match peek "}" (skip_ws s) with
    | Some r => Ok (VDict [], r)
    | None =>
        rbind (members n (skip_ws s))
          (fun p => Ok (VDict (dict_of_pairs (fst p)), snd p))
    end.
Proof. reflexivity. Qed.

Lemma scan_once_str (n : nat) (s : string) :
  scan_once (S n) (String dquote s)
  = rbind (scanstring s) (fun p => Ok (VStr (fst p), snd p)).
Proof. reflexivity. Qed.

Lemma scan_once_int (n : nat) (z : Z) (rest : string) :
  scan_once (S n) (int_str z ++ rest) = match_number (int_str z ++ rest).
Proof.
  unfold int_str. destruct z as [|p|p].
  - reflexivity.
  - pose proof (to_uint_leading p) as L.
    change (NilEmpty.string_of_int (Z.to_int (Z.pos p)))
      with (NilEmpty.string_of_uint (Pos.to_uint p)).
    destruct (Pos.to_uint p); try contradiction; reflexivity.
  - pose proof (to_uint_leading p) as L.
    change (NilEmpty.string_of_int (Z.to_int (Z.neg p)))
      with (String "-" (NilEmpty.string_of_uint (Pos.to_uint p))).
    destruct (Pos.to_uint p); try contradiction; reflexivity.
Qed.

Lemma elements_encode (level : nat) (rest : string) (xs : list value) :
  Forall loads_back xs -> forallb wf xs = true ->
  forall x fuel, loads_back x -> wf x = true ->
  S (need x + elements_need xs) <= fuel ->
  elements fuel
    (encode (S level) x
     ++ more_items (encode (S level)) ("," ++ newline_indent (S level)) xs
     ++ newline_indent level ++ "]" ++ rest)
  = Ok (x :: xs, rest).
Proof.
  induction 1 as [|y ys Py Pys IH]; intros W x fuel Px Wx Hf;
    (destruct fuel as [|n]; [lia|]); rewrite elements_step.
  - cbn [more_items]. rewrite app_empty_l.
    rewrite (Px Wx); [| simpl in Hf; lia | apply delimited_newline_indent].
    cbn [rbind snd fst]. rewrite skip_ws_newline_indent. reflexivity.
  - simpl in W. apply andb_prop in W as [Wy Wys].
    cbn [more_items]. rewrite !app_assoc_str.
    rewrite (Px Wx); [| simpl in Hf; lia | simpl; now left].
    cbn [rbind snd fst]. rewrite skip_ws_comma, peek_comma_close_list, peek_comma.
    rewrite skip_ws_newline_indent, skip_ws_value by apply encode_starts.
    rewrite (IH Wys y n Py Wy); [reflexivity | simpl in Hf |- *; lia].
Qed.

Lemma basestring_app (k t : string) :
  encode_basestring_ascii k ++ t = String dquote (escape k ++ String dquote t).
Proof.
  unfold encode_basestring_ascii. simpl. now rewrite app_assoc_str.
Qed.

Lemma peek_colon (s : string) :
  peek ":" (skip_ws (": " ++ s)) = Some (String " " s).
Proof. reflexivity. Qed.

Lemma skip_ws_space (s : string) : skip_ws (String " " s) = skip_ws s.
Proof. reflexivity. Qed.

Lemma members_encode (level : nat) (rest : string) (kxs : list (string * value)) :
  Forall (fun kv => loads_back (snd kv)) kxs ->
  forallb (fun kv : string * value => wf (snd kv)) kxs = true ->
  forall k x fuel, loads_back x -> wf x = true ->
  S (need x + members_need kxs) <= fuel ->
  members fuel
    (member_text level (k, x)
     ++ more_items (member_text level) ("," ++ newline_indent (S level)) kxs
     ++ newline_indent level ++ "}" ++ rest)
  = Ok ((k, x) :: kxs, rest).
Proof.
  induction 1 as [|[k' y] ys Py Pys IH]; intros W k x fuel Px Wx Hf;
    (destruct fuel as [|n]; [lia|]);
    cbn [member_text more_items]; rewrite !app_assoc_str, basestring_app;
    rewrite members_step, scanstring_escape; cbn [rbind snd fst];
    rewrite peek_colon, skip_ws_space, skip_ws_value by apply encode_starts.
  - rewrite app_empty_l.
    rewrite (Px Wx); [| simpl in Hf; lia | apply delimited_newline_indent].
    cbn [rbind snd fst]. rewrite skip_ws_newline_indent. reflexivity.
  - simpl in W. apply andb_prop in W as [Wy Wys]. simpl in Py.
    rewrite (Px Wx); [| simpl in Hf; lia | simpl; now left].
    cbn [rbind snd fst]. rewrite skip_ws_comma, peek_comma_close_dict, peek_comma.
    rewrite skip_ws_newline_indent.
    pose proof (IH Wys k' y n Py Wy) as E. cbn [member_text] in E.
    rewrite !app_assoc_str in E.
    rewrite skip_ws_value
      by (rewrite basestring_app; simpl; repeat split).
    rewrite E; [reflexivity | simpl in Hf |- *; lia].
Qed.

(** Keys set one after the other stay as they are when all differ. *)
Lemma distinct_middle (a : list string) (k : string) (b : list string) :
  distinct (a ++ k :: b) = true -> existsb (String.eqb k) a = false.
Proof.
  induction a as [|x a IH]; simpl; [reflexivity|].
  intros H. apply andb_prop in H as [Hx Ha].
  rewrite (IH Ha), orb_false_r.
  rewrite negb_true_iff, existsb_app in Hx. apply orb_false_elim in Hx as [_ Hx].
  simpl in Hx. apply orb_false_elim in Hx as [Hx _].
  now rewrite String.eqb_sym.
Qed.

Lemma dict_set_new {V} (d : list (string * V)) (k : string) (v : V) :
  existsb (String.eqb k) (map fst d) = false -> dict_set d k v = (d ++ [(k, v)])%list.
Proof.
  induction d as [|[k' v'] d IH]; simpl; [reflexivity|].
  intros H. apply orb_false_elim in H as [Hk Hd].
  rewrite String.eqb_sym, Hk. now rewrite (IH Hd).
Qed.

Lemma set_pairs_distinct (l acc : list (string * value)) :
  distinct (map fst (acc ++ l)) = true ->
  fold_left (fun d kv => dict_set d (fst kv) (snd kv)) l acc = (acc ++ l)%list.
Proof.
  revert acc. induction l as [|[k v] l IH]; intros acc H; simpl.
  - now rewrite app_nil_r.
  - rewrite dict_set_new.
    + rewrite IH; rewrite <- app_assoc; [reflexivity | exact H].
    + rewrite map_app in H. simpl in H. exact (distinct_middle _ _ _ H).
Qed.

Lemma dict_of_pairs_distinct (d : list (string * value)) :
  distinct (map fst d) = true -> dict_of_pairs d = d.
Proof. intros H. unfold dict_of_pairs. now rewrite set_pairs_distinct. Qed.

Lemma scan_once_encode (v : value) : loads_back v.
Proof.
  induction v as [ | b | z | s | l IH | d IH] using value_nested_ind;
    intros W level rest fuel Hf D; (destruct fuel as [|n]; [simpl in Hf; lia|]).
  - reflexivity.
  - destruct b; reflexivity.
  - cbn [encode]. rewrite scan_once_int. now apply match_number_int_str.
  - cbn [encode]. rewrite basestring_app, scan_once_str, scanstring_escape.
    reflexivity.
  - destruct IH as [|x xs Px Pxs]; [reflexivity|].
    simpl in W. apply andb_prop in W as [Wx Wxs].
    cbn [encode]. rewrite !app_assoc_str, scan_once_list.
    rewrite skip_ws_newline_indent, skip_ws_value by apply encode_starts.
    rewrite peek_close_list by apply encode_starts.
    rewrite (elements_encode level rest xs Pxs Wxs x n Px Wx);
      [reflexivity | simpl in Hf |- *; unfold elements_need; lia].
  - destruct IH as [|[k x] kxs Px Pxs]; [reflexivity|].
    pose proof W as Wd.
    simpl in W. apply andb_prop in W as [_ W]. apply andb_prop in W as [Wx Wxs].
    apply andb_prop in Wd as [Wd _].
    cbn [encode]. rewrite !app_assoc_str, scan_once_dict.
    rewrite skip_ws_newline_indent.
    pose proof (members_encode level rest kxs Pxs Wxs k x n Px Wx) as E.
    cbn [member_text] in E. rewrite !app_assoc_str in E.
    rewrite skip_ws_value by (rewrite basestring_app; simpl; repeat split).
    rewrite peek_close_dict by (rewrite basestring_app; simpl; repeat split).
    change (fun kv : string * value =>
              let (k', y) := kv in
              encode_basestring_ascii k' ++ ": " ++ encode (S level) y)
      with (member_text level).
    rewrite E; [| simpl in Hf |- *; unfold members_need; lia].
    cbn [rbind fst snd]. now rewrite dict_of_pairs_distinct.
Qed.

(** ** The fuel [loads] takes is enough *)

Lemma starts_value_length (s : string) : starts_value s -> 1 <= String.length s.
Proof. destruct s; simpl; [easy | lia]. Qed.

Lemma app_empty_r (s : string) : s ++ "" = s.
Proof. induction s as [|c s IH]; simpl; [reflexivity | now rewrite IH]. Qed.

Lemma encode_length_pos (level : nat) (v : value) :
  1 <= String.length (encode level v).
Proof.
  apply starts_value_length. rewrite <- (app_empty_r (encode level v)).
  apply encode_starts.
Qed.

Lemma more_items_length {A} (item : A -> string) (cost : A -> nat)
  (sep : string) (l : list A) :
  1 <= String.length sep ->
  Forall (fun y => cost y <= String.length (item y)) l ->
  fold_right (fun y acc => S (cost y + acc)) 0 l
  <= String.length (more_items item sep l).
Proof.
  intros Hs. induction 1 as [|y ys Hy _ IH]; simpl; [lia|].
  rewrite !length_app_str. lia.
Qed.

Lemma need_le_length (v : value) :
  forall level, need v <= String.length (encode level v).
Proof.
  induction v as [ | b | z | s | l IH | d IH] using value_nested_ind;
    intros level; try apply encode_length_pos.
  - destruct IH as [|x xs Px Pxs]; [simpl; lia|].
    cbn [encode need fold_right]. rewrite !length_app_str.
    pose proof (more_items_length (encode (S level)) need
                  ("," ++ newline_indent (S level)) xs) as H.
    specialize (Px (S level)). simpl String.length at 1 3.
    assert (Forall (fun y => need y <= String.length (encode (S level) y)) xs)
      by (eapply Forall_impl; [|exact Pxs]; intros y Hy; apply Hy).
    specialize (H ltac:(simpl; lia) ltac:(assumption)).
    change (String.length "]") with 1. lia.
  - destruct IH as [|[k x] kxs Px Pxs]; [simpl; lia|].
    cbn [encode need fold_right snd]. rewrite !length_app_str.
    pose proof (more_items_length (member_text level)
                  (fun kv : string * value => need (snd kv))
                  ("," ++ newline_indent (S level)) kxs) as H.
    specialize (Px (S level)). simpl in Px. simpl String.length at 1 3.
    assert (Forall (fun kv : string * value =>
                      need (snd kv) <= String.length (member_text level kv)) kxs).
    { eapply Forall_impl; [|exact Pxs]. intros [k' y] Hy.
      cbn [member_text snd] in *.
      rewrite !length_app_str. specialize (Hy (S level)). lia. }
    specialize (H ltac:(simpl; lia) ltac:(assumption)).
    change (fun kv : string * value =>
              let (k', y) := kv in
              encode_basestring_ascii k' ++ ": " ++ encode (S level) y)
      with (member_text level).
    change (String.length "}") with 1. lia.
Qed.

(** What [json.dump] writes, [json.load] reads back. *)
Lemma loads_dumps (v : value) : wf v = true -> loads (dumps v) = Ok v.
Proof.
  intros W. unfold loads, dumps.
  pose proof (encode_starts 0 v "") as Hs. rewrite app_empty_r in Hs.
  rewrite (skip_ws_value _ Hs).
  pose proof (scan_once_encode v W 0 "" (2 * String.length (encode 0 v) + 1)) as E.
  rewrite app_empty_r in E. rewrite E; [reflexivity | | exact I].
  pose proof (need_le_length v 0). lia.
Qed.

(** ** The fuel of [loads] is always enough

    From [2 * length s + 1] on, more fuel does not change what [scan_once]
    returns on [s]: [Unmodelled] never stands for a lack of fuel. *)

Lemma starts_with_spec (word s : string) :
  starts_with word s = true <-> exists post, s = word ++ post.
Proof.
  revert s. induction word as [|a word IH]; intros s; simpl.
  - split; [intros _; now exists s | reflexivity].
  - destruct s as [|b s].
    + split; [discriminate | intros [post H]; discriminate H].
    + rewrite andb_true_iff, IH. split.
      * intros [E [post ->]]. apply Ascii.eqb_eq in E as ->. now exists post.
      * intros [post [= -> ->]]. split; [apply Ascii.eqb_refl | now exists post].
Qed.

Lemma skip_ws_length (s : string) : String.length (skip_ws s) <= String.length s.
Proof.
  induction s as [|c s IH]; simpl; [lia|]. destruct (is_ws c); simpl; lia.
Qed.

Lemma peek_length (c : ascii) (s r : string) :
  peek c s = Some r -> String.length s = S (String.length r).
Proof.
  destruct s as [|c' s]; simpl; [discriminate|].
  destruct (Ascii.eqb c' c); [now intros [= ->] | discriminate].
Qed.

Lemma rcons_ok (c : ascii) (x : result (string * string)) (k r : string) :
  rcons c x = Ok (k, r) -> exists k', x = Ok (k', r).
Proof.
  destruct x as [[k' r']| |]; simpl; [|discriminate|discriminate].
  intros [= _ <-]. now exists k'.
Qed.

Lemma scanstring_length (s : string) :
  forall k r, scanstring s = Ok (k, r) -> String.length r < String.length s.
Proof.
  remember (String.length s) as n eqn:En. revert s En.
  induction n as [n IH] using lt_wf_ind. intros s En k r.
  destruct s as [|c s1]; [discriminate|]. cbn [scanstring].
  destruct (Ascii.eqb c dquote); [intros [= _ <-]; simpl in *; lia|].
  destruct (Ascii.eqb c "\").
  - destruct s1 as [|e s2]; [discriminate|].
    destruct (Ascii.eqb e "u").
    + destruct s2 as [|h1 [|h2 [|h3 [|h4 s3]]]]; try discriminate.
      destruct (hex4 h1 h2 h3 h4) as [x|]; [|discriminate].
      destruct (x <=? 255)%N; [|discriminate].
      intros H. apply rcons_ok in H as [k' H].
      apply (IH (String.length s3)) in H; simpl in *; lia.
    + destruct (unescape e); [|discriminate].
      intros H. apply rcons_ok in H as [k' H].
      apply (IH (String.length s2)) in H; simpl in *; lia.
  - destruct (N_of_ascii c <? 32)%N; [discriminate|].
    intros H. apply rcons_ok in H as [k' H].
    apply (IH (String.length s1)) in H; simpl in *; lia.
Qed.

Lemma scan_digits_length (s : string) :
  String.length (snd (scan_digits s)) <= String.length s.
Proof.
  induction s as [|c s IH]; simpl; [lia|].
  destruct (digit_of c) as [dg|]; [|simpl; lia].
  destruct (scan_digits s) as [u r]. simpl in *. lia.
Qed.

Lemma digit_of_digit (c : ascii) : is_digit c = true -> digit_of c <> None.
Proof.
  destruct c as [[] [] [] [] [] [] [] []]; cbv; congruence.
Qed.

Lemma finish_number_rest (neg : bool) (u : uint) (r : string) (v : value)
  (r' : string) :
  finish_number neg u r = Ok (v, r') -> r' = r.
Proof.
  unfold finish_number. destruct (float_tail r); [discriminate|]. now intros [= _ <-].
Qed.

Lemma match_number_length (s : string) (v : value) (r : string) :
  match_number s = Ok (v, r) -> String.length r < String.length s.
Proof.
  unfold match_number.
  assert (G : forall neg s1,
            match s1 with
            | EmptyString => Raise JSONDecodeError
            | String c s2 =>
                if Ascii.eqb c "0" then finish_number neg (D0 Nil) s2
                else if is_digit c
                     then let (u, r0) := scan_digits s1 in finish_number neg u r0
                     else Raise JSONDecodeError
            end = Ok (v, r) -> String.length r < String.length s1).
  { intros neg [|c s2]; [discriminate|].
    destruct (Ascii.eqb c "0").
    - intros H. apply finish_number_rest in H as ->. simpl. lia.
    - destruct (is_digit c) eqn:D; [|discriminate].
      cbn [scan_digits]. destruct (digit_of c) as [dg|] eqn:E;
        [|now apply digit_of_digit in D].
      pose proof (scan_digits_length s2) as L.
      destruct (scan_digits s2) as [u' r0]. simpl in L.
      intros H. apply finish_number_rest in H as ->. simpl. lia. }
  destruct s as [|c s']; [discriminate|].
  destruct (Ascii.eqb c "-").
  - intros H. apply G in H. simpl. lia.
  - exact (G false (String c s')).
Qed.

Lemma drop_app (a b : string) : drop (String.length a) (a ++ b) = b.
Proof. induction a as [|c a IH]; simpl; [now destruct b | exact IH]. Qed.

Lemma literal_length (word : string) (x : result value) (s : string)
  (v : value) (r : string) :
  1 <= String.length word ->
  literal word x s = Ok (v, r) -> String.length r < String.length s.
Proof.
  intros Hw. unfold literal. destruct (starts_with word s) eqn:E; [|discriminate].
  apply starts_with_spec in E as [post ->].
  destruct x as [y| |]; simpl; [|discriminate|discriminate].
  intros [= _ <-]. rewrite drop_app, length_app_str. lia.
Qed.

Lemma rbind_ok {A B} (x : result A) (k : A -> result B) (b : B) :
  rbind x k = Ok b -> exists a, x = Ok a /\ k a = Ok b.
Proof.
  destruct x as [a| |]; simpl; [|discriminate|discriminate]. intros H. now exists a.
Qed.

(** Whatever is scanned, the text left is shorter. *)
Lemma scan_shorter (n : nat) :
  (forall s v r, scan_once n s = Ok (v, r) -> String.length r < String.length s)
  /\ (forall s vs r, elements n s = Ok (vs, r) -> String.length r < String.length s)
  /\ (forall s kvs r, members n s = Ok (kvs, r) -> String.length r < String.length s).
Proof.
  induction n as [|n (IHs & IHe & IHm)]; [repeat split; discriminate|].
  assert (Hs : forall s v r, scan_once (S n) s = Ok (v, r)
                             -> String.length r < String.length s).
  { intros [|c s'] v r; [discriminate|]. cbn [scan_once].
    destruct (Ascii.eqb c dquote).
    { intros H. apply rbind_ok in H as ([k r'] & E & [= _ <-]).
      apply scanstring_length in E. simpl. lia. }
    pose proof (skip_ws_length s') as L.
    destruct (Ascii.eqb c "{").
    { destruct (peek "}" (skip_ws s')) as [r0|] eqn:P.
      - intros [= _ <-]. apply peek_length in P. simpl. lia.
      - intros H. apply rbind_ok in H as ([kvs r'] & E & [= _ <-]).
        apply IHm in E. simpl in *. lia. }
    destruct (Ascii.eqb c "[").
    { destruct (peek "]" (skip_ws s')) as [r0|] eqn:P.
      - intros [= _ <-]. apply peek_length in P. simpl. lia.
      - intros H. apply rbind_ok in H as ([vs r'] & E & [= _ <-]).
        apply IHe in E. simpl in *. lia. }
    destruct (Ascii.eqb c "n"); [apply literal_length; simpl; lia|].
    destruct (Ascii.eqb c "t"); [apply literal_length; simpl; lia|].
    destruct (Ascii.eqb c "f"); [apply literal_length; simpl; lia|].
    destruct (Ascii.eqb c "N"); [apply literal_length; simpl; lia|].
    destruct (Ascii.eqb c "I"); [apply literal_length; simpl; lia|].
    destruct (starts_with "-Infinity" (String c s')); [discriminate|].
    apply match_number_length. }
  split; [exact Hs|]. split.
  - intros s vs r. rewrite elements_step. intros H.
    apply rbind_ok in H as ([v r0] & E & H). apply IHs in E. cbn [fst snd] in H.
    pose proof (skip_ws_length r0) as L.
    destruct (peek "]" (skip_ws r0)) as [r1|] eqn:P.
    + injection H as _ <-. apply peek_length in P. lia.
    + destruct (peek "," (skip_ws r0)) as [r1|] eqn:P'; [|discriminate].
      apply rbind_ok in H as ([vs' r2] & E' & [= _ <-]).
      apply IHe in E'. apply peek_length in P'.
      pose proof (skip_ws_length r1). lia.
  - intros s kvs r. cbn [members].
    destruct (peek dquote s) as [s1|] eqn:P0; [|discriminate].
    apply peek_length in P0. intros H.
    apply rbind_ok in H as ([k r1] & Ek & H). apply scanstring_length in Ek.
    cbn [fst snd] in H.
    destruct (peek ":" (skip_ws r1)) as [s2|] eqn:P1; [|discriminate].
    apply peek_length in P1. pose proof (skip_ws_length r1).
    apply rbind_ok in H as ([v r0] & E & H). apply IHs in E. cbn [fst snd] in H.
    pose proof (skip_ws_length s2). pose proof (skip_ws_length r0).
    destruct (peek "}" (skip_ws r0)) as [r3|] eqn:P.
    + injection H as _ <-. apply peek_length in P. lia.
    + destruct (peek "," (skip_ws r0)) as [r3|] eqn:P'; [|discriminate].
      apply rbind_ok in H as ([kvs' r4] & E' & [= _ <-]).
      apply IHm in E'. apply peek_length in P'.
      pose proof (skip_ws_length r3). lia.
Qed.

Lemma scan_fuel (n : nat) :
  (forall s m, 2 * String.length s + 1 <= n -> n <= m ->
               scan_once n s = scan_once m s)
  /\ (forall s m, 2 * String.length s + 2 <= n -> n <= m ->
                  elements n s = elements m s)
  /\ (forall s m, 2 * String.length s + 2 <= n -> n <= m ->
                  members n s = members m s).
Proof.
  induction n as [|n (IHs & IHe & IHm)]; [repeat split; intros; lia|].
  split; [|split]; intros s [|m] Hn Hm; try lia.
  - destruct s as [|c s']; [reflexivity|]. cbn [scan_once].
    pose proof (skip_ws_length s') as L. simpl in Hn.
    rewrite (IHm (skip_ws s') m) by lia.
    rewrite (IHe (skip_ws s') m) by lia.
    reflexivity.
  - rewrite !elements_step. rewrite (IHs s m) by lia.
    destruct (scan_once m s) as [[v r0]| |] eqn:E; [|reflexivity|reflexivity].
    apply (proj1 (scan_shorter m)) in E. cbn [rbind fst snd].
    pose proof (skip_ws_length r0) as L.
    destruct (peek "]" (skip_ws r0)); [reflexivity|].
    destruct (peek "," (skip_ws r0)) as [r1|] eqn:P; [|reflexivity].
    apply peek_length in P. pose proof (skip_ws_length r1).
    rewrite (IHe (skip_ws r1) m) by lia. reflexivity.
  - cbn [members].
    destruct (peek dquote s) as [s1|] eqn:P0; [|reflexivity].
    apply peek_length in P0.
    destruct (scanstring s1) as [[k r1]| |] eqn:Ek; [|reflexivity|reflexivity].
    apply scanstring_length in Ek. cbn [rbind fst snd].
    destruct (peek ":" (skip_ws r1)) as [s2|] eqn:P1; [|reflexivity].
    apply peek_length in P1. pose proof (skip_ws_length r1).
    pose proof (skip_ws_length s2).
    rewrite (IHs (skip_ws s2) m) by lia.
    destruct (scan_once m (skip_ws s2)) as [[v r0]| |] eqn:E;
      [|reflexivity|reflexivity].
    apply (proj1 (scan_shorter m)) in E. cbn [rbind fst snd].
    pose proof (skip_ws_length r0).
    destruct (peek "}" (skip_ws r0)); [reflexivity|].
    destruct (peek "," (skip_ws r0)) as [r3|] eqn:P; [|reflexivity].
    apply peek_length in P. pose proof (skip_ws_length r3).
    rewrite (IHm (skip_ws r3) m) by lia. reflexivity.
Qed.

(** [loads] with any larger amount of fuel gives what [loads] gives. *)
Lemma loads_fuel (s : string) (fuel : nat) :
  2 * String.length s + 1 <= fuel ->
  rbind (scan_once fuel (skip_ws s)) (fun p =>
    match skip_ws (snd p) with
    | EmptyString => Ok (fst p)
    | _ => Raise JSONDecodeError
    end)
  = loads s.
Proof.
  intros H. unfold loads. pose proof (skip_ws_length s) as L.
  rewrite <- (proj1 (scan_fuel (2 * String.length s + 1)) (skip_ws s) fuel)
    by lia.
  reflexivity.
Qed.

End JsonFacts.

(* ================================================================== *)
(** * Facts about the table *)
(* ================================================================== *)

Module PdFacts.
Import Py Pd Spec.
Local Open Scope list_scope.

Lemma mem_app (c : string) (a b : list string) :
  mem c (a ++ b) = mem c a || mem c b.
Proof. apply existsb_app. Qed.

Lemma mem_single (c k : string) : mem c [k] = String.eqb c k.
Proof. unfold mem. simpl. apply orb_false_r. Qed.

Lemma mem_add_labels (c : string) (ks l : list string) :
  mem c (add_labels l ks) = mem c l || mem c ks.
Proof.
  unfold add_labels. revert l. induction ks as [|k ks IH]; intros l; simpl.
  - now rewrite orb_false_r.
  - rewrite IH. destruct (mem k l) eqn:E.
    + destruct (String.eqb_spec c k) as [->|]; [now rewrite E | reflexivity].
    + rewrite mem_app, mem_single. now rewrite orb_assoc.
Qed.

Lemma mem_columns (c : string) (kss : list (list string)) (l : list string) :
  mem c (fold_left add_labels kss l) = mem c l || existsb (mem c) kss.
Proof.
  revert l. induction kss as [|ks kss IH]; intros l; simpl.
  - now rewrite orb_false_r.
  - rewrite IH, mem_add_labels. now rewrite orb_assoc.
Qed.

(** A column exists in the frame of [rs] exactly when a record has it. *)
Lemma mem_of_records (c : string) (rs : list (list (string * value))) :
  mem c (columns (of_records rs)) = has_field c rs.
Proof.
  unfold of_records, has_field. cbn [columns]. rewrite mem_columns. simpl.
  induction rs as [|d rs IH]; simpl; [reflexivity | now rewrite IH].
Qed.

Lemma index_of_none (c : string) (cols : list string) :
  mem c cols = false -> index_of c cols = None.
Proof.
  induction cols as [|k cols IH]; simpl; [reflexivity|].
  intros H. apply orb_false_elim in H as [Hk Hc].
  rewrite String.eqb_sym, Hk. now rewrite (IH Hc).
Qed.

Lemma index_of_some (c : string) (cols : list string) :
  mem c cols = true -> exists i, index_of c cols = Some i /\ i < List.length cols.
Proof.
  induction cols as [|k cols IH]; simpl; [discriminate|].
  intros H. destruct (String.eqb k c) eqn:E.
  - exists 0. split; [reflexivity | lia].
  - rewrite String.eqb_sym, E in H. simpl in H.
    destruct (IH H) as (i & -> & Hi). exists (S i). split; [reflexivity | lia].
Qed.

Lemma index_of_app (c : string) (a b : list string) :
  index_of c (a ++ b)
  = match index_of c a with
    | Some i => Some i
    | None => option_map (Nat.add (List.length a)) (index_of c b)
    end.
Proof.
  induction a as [|k a IH]; simpl.
  - now destruct (index_of c b).
  - destruct (String.eqb k c); [reflexivity|]. rewrite IH.
    destruct (index_of c a); [reflexivity|]. now destruct (index_of c b).
Qed.

Lemma nth_index_map {B} (f : string -> B) (c : string) (cols : list string)
  (i : nat) (dflt : B) :
  index_of c cols = Some i -> nth i (map f cols) dflt = f c.
Proof.
  revert i. induction cols as [|k cols IH]; intros i; simpl; [discriminate|].
  destruct (String.eqb_spec k c) as [->|].
  - now intros [= <-].
  - destruct (index_of c cols) as [j|]; [|discriminate].
    intros [= <-]. now apply IH.
Qed.

Lemma select_all (df : DataFrame) (cs : list string) :
  forallb (fun c => mem c (columns df)) cs = true ->
  select df cs
  = Ok (mkDataFrame cs (map (fun r => map (cell_at (columns df) r) cs) (rows df))).
Proof.
  intros H. unfold select.
  assert (E : exists ix, indices cs (columns df) = Ok ix
              /\ forall r, map (fun i => nth i r NaN) ix
                           = map (cell_at (columns df) r) cs).
  { induction cs as [|c cs IH]; simpl in *.
    - now exists [].
    - apply andb_prop in H as [Hc Hcs].
      destruct (IH Hcs) as (ix & -> & Hix).
      destruct (index_of_some c _ Hc) as (i & Ei & _).
      rewrite Ei. exists (i :: ix). split; [reflexivity|].
      intros r. simpl. rewrite Hix. unfold cell_at at 2. now rewrite Ei. }
  destruct E as (ix & -> & Hix). simpl. f_equal. f_equal.
  apply map_ext. exact Hix.
Qed.

Lemma ensure_columns (cs : list string) (df : DataFrame) :
  ensure cs df
  = mkDataFrame (columns df ++ missing cs (columns df))
      (map (fun r => r ++ map (fun _ => Cell (VStr "")) (missing cs (columns df)))
         (rows df)).
Proof.
  unfold ensure. revert df. induction cs as [|c cs IH]; intros [cols rws]; simpl.
  - rewrite app_nil_r. f_equal. rewrite <- (map_id rws) at 1.
    apply map_ext. intros r. now rewrite app_nil_r.
  - destruct (mem c cols) eqn:E; simpl.
    + now rewrite IH.
    + unfold set_scalar. cbn [columns rows]. rewrite (index_of_none _ _ E).
      rewrite IH. cbn [columns rows]. rewrite <- app_assoc. f_equal.
      rewrite map_map. apply map_ext. intros r. now rewrite <- app_assoc.
Qed.

Lemma mem_missing (c : string) (cs cols : list string) :
  mem c cs = true -> mem c cols = false -> mem c (missing cs cols) = true.
Proof.
  revert cols. induction cs as [|k cs IH]; intros cols; simpl; [discriminate|].
  intros H Hc. destruct (String.eqb_spec c k) as [->|N].
  - rewrite Hc. simpl. now rewrite String.eqb_refl.
  - simpl in H. destruct (mem k cols); [now apply IH|].
    simpl. apply orb_true_iff. right. apply IH; [exact H|].
    rewrite mem_app, Hc, mem_single. now apply String.eqb_neq.
Qed.

Lemma nth_map_const {A B} (x dflt : B) (l : list A) (j : nat) :
  j < List.length l -> nth j (map (fun _ => x) l) dflt = x.
Proof.
  revert j. induction l as [|a l IH]; intros [|j]; simpl; try lia; [reflexivity|].
  intros H. apply IH. lia.
Qed.

Lemma cell_at_ensure (cs cols : list string) (r : list cell) (c : string) :
  List.length r = List.length cols -> mem c cs = true ->
  cell_at (cols ++ missing cs cols)
    (r ++ map (fun _ => Cell (VStr "")) (missing cs cols)) c
  = if mem c cols then cell_at cols r c else Cell (VStr "").
Proof.
  intros Hr Hc. unfold cell_at. rewrite index_of_app.
  destruct (mem c cols) eqn:E.
  - destruct (index_of_some c cols E) as (i & -> & Hi).
    apply app_nth1. lia.
  - rewrite (index_of_none c cols E).
    destruct (index_of_some c _ (mem_missing c cs cols Hc E)) as (j & -> & Hj).
    simpl. rewrite app_nth2 by lia. rewrite <- Hr.
    replace (List.length r + j - List.length r) with j by lia.
    now apply nth_map_const.
Qed.

Lemma mem_ensure (c : string) (cs cols : list string) :
  mem c cs = true -> mem c (cols ++ missing cs cols) = true.
Proof.
  intros H. rewrite mem_app. destruct (mem c cols) eqn:E; [reflexivity|].
  now apply mem_missing.
Qed.

Lemma records_map (rs : list (list (string * value))) :
  records (map VDict rs) = Some rs.
Proof. induction rs as [|d rs IH]; simpl; [reflexivity | now rewrite IH]. Qed.

Lemma map_result_map {A B C} (f : B -> result C) (g : A -> B) (l : list A) :
  map_result f (map g l) = map_result (fun x => f (g x)) l.
Proof. induction l as [|x l IH]; simpl; [reflexivity | now rewrite IH]. Qed.

Lemma map_result_ext {A B} (f g : A -> result B) (l : list A) :
  (forall x, f x = g x) -> map_result f l = map_result g l.
Proof.
  intros H. induction l as [|x l IH]; simpl; [reflexivity | now rewrite H, IH].
Qed.

(** The rows of the frame after the missing columns are added and the
    five expected ones selected. *)
Lemma selected_rows (rs : list (list (string * value))) (cs : list string) :
  let df := of_records rs in
  map (fun r => map (cell_at (columns df ++ missing cs (columns df)) r) cs)
    (map (fun r => r ++ map (fun _ => Cell (VStr "")) (missing cs (columns df)))
       (rows df))
  = map (fun d => map (shown_cell rs d) cs) rs.
Proof.
  intros df. subst df.
  change (rows (of_records rs))
    with (map (fun d => map (cell_of rs d) (columns (of_records rs))) rs).
  rewrite !map_map. apply map_ext. intros d.
  apply map_ext_in. intros c Hc.
  rewrite cell_at_ensure.
  - unfold shown_cell. rewrite mem_of_records.
    destruct (has_field c rs) eqn:E; [|reflexivity].
    rewrite <- mem_of_records in E.
    destruct (index_of_some c _ E) as (i & Ei & _).
    unfold cell_at. rewrite Ei. now apply nth_index_map.
  - now rewrite length_map.
  - unfold mem. apply existsb_exists. exists c. split; [exact Hc | apply String.eqb_refl].
Qed.

(** *** Columns that pandas holds as they are *)

Lemma some_value_spec (P : value -> bool) (rs : list (list (string * value)))
  (c : string) :
  some_value P rs c = true
  <-> exists d v, In d rs /\ dict_get d c = Some v /\ P v = true.
Proof.
  unfold some_value. rewrite existsb_exists. split.
  - intros (d & Hd & H). destruct (dict_get d c) as [v|] eqn:E; [|discriminate].
    now exists d, v.
  - intros (d & v & Hd & E & H). exists d. split; [exact Hd|]. now rewrite E.
Qed.

Lemma some_gap_spec (rs : list (list (string * value))) (c : string) :
  some_gap rs c = true <-> exists d, In d rs /\ dict_get d c = None.
Proof.
  unfold some_gap. rewrite existsb_exists. split.
  - intros (d & Hd & H). exists d. split; [exact Hd|].
    now destruct (dict_get d c).
  - intros (d & Hd & E). exists d. split; [exact Hd|]. now rewrite E.
Qed.

Lemma keeps_spec (rs : list (list (string * value))) (c : string) :
  keeps rs c = true <-> plain_column rs c.
Proof.
  unfold keeps, plain_column.
  rewrite andb_true_iff, !negb_true_iff, andb_false_iff. split.
  - intros [Hn Hi]. split.
    + intros d Hd E.
      assert (T : some_value is_none rs c = true)
        by (apply some_value_spec; now exists d, VNone).
      congruence.
    + intros Hg d z Hd E. apply some_gap_spec in Hg.
      assert (T : some_value is_int rs c = true)
        by (apply some_value_spec; now exists d, (VInt z)).
      destruct Hi; congruence.
  - intros [Hn Hi]. split.
    + destruct (some_value is_none rs c) eqn:E; [|reflexivity].
      apply some_value_spec in E as (d & v & Hd & E & Hv).
      destruct v; try discriminate Hv. now destruct (Hn d Hd).
    + destruct (some_gap rs c) eqn:G; [right | now left].
      apply some_gap_spec in G.
      destruct (some_value is_int rs c) eqn:E; [|reflexivity].
      apply some_value_spec in E as (d & v & Hd & E & Hv).
      destruct v as [ | | z | | | ]; try discriminate Hv.
      now destruct (Hi G d z Hd).
Qed.


End PdFacts.

(* ================================================================== *)
(** * Facts about the script *)
(* ================================================================== *)

Module AppFacts.
Import Py App Spec.

(** ** Saving *)

Lemma save_library_writes (v : value) (d : filesys) (p : list event) :
  write_fault d = None ->
  save_library (mkWorld (Some v) d p)
  = (Ok tt,
     mkWorld (Some v) (mkFilesys (Some (Json.dumps v)) (read_fault d) None)
       (p ++ [Success "Library saved to library.txt"])).
Proof.
  intros H. unfold save_library, try_except, bind, open_write. simpl.
  rewrite H. reflexivity.
Qed.

Lemma save_library_fault (v : value) (d : filesys) (p : list event) (msg : string) :
  write_fault d = Some msg ->
  save_library (mkWorld (Some v) d p)
  = (Ok tt,
     mkWorld (Some v) d (p ++ [Error "Error saving library: " (OSError msg)])).
Proof.
  intros H. unfold save_library, try_except, bind, open_write. simpl.
  rewrite H. reflexivity.
Qed.

Lemma save_library_run (v : value) (d : filesys) (p : list event) :
  save_library (mkWorld (Some v) d p)
  = (Ok tt, mkWorld (Some v) (saved v d) (p ++ [save_report d])).
Proof.
  unfold saved, save_report. destruct (write_fault d) as [msg|] eqn:E.
  - now apply save_library_fault.
  - now apply save_library_writes.
Qed.

Lemma books_wf (l : list value) : forallb is_book l = true -> wf (VList l) = true.
Proof.
  intros H. simpl. apply forallb_forall. intros b Hb.
  rewrite forallb_forall in H. specialize (H b Hb).
  unfold is_book in H. now apply andb_prop in H.
Qed.

(** What [save_library] leaves in a file that can be written holds the
    store: the text loads back to the store, and the load of a new session
    installs it. *)
Lemma saved_persists (v : value) (d : filesys) :
  wf v = true -> write_fault d = None ->
  (exists text, file (saved v d) = Some text /\ Json.loads text = Ok v)
  /\ (read_fault d = None -> forall q,
      startup (mkWorld None (saved v d) q)
      = (Ok tt,
         mkWorld (Some v) (saved v d)
           (q ++ [Success "Library loaded from library.txt"]))).
Proof.
  intros W Hw. unfold saved. rewrite Hw. split.
  - exists (Json.dumps v). split; [reflexivity | now apply JsonFacts.loads_dumps].
  - intros Hr q. rewrite Hr.
    unfold startup, try_except, bind, set_library, path_exists, read_file, lift.
    cbn [session disk page file read_fault write_fault].
    now rewrite (JsonFacts.loads_dumps v W).
Qed.

Lemma wf_snoc (l : list value) (b : value) :
  wf (VList l) = true -> wf b = true -> wf (VList (l ++ [b])) = true.
Proof.
  cbn [wf]. intros Hl Hb. rewrite forallb_app, Hl. cbn [forallb]. now rewrite Hb.
Qed.

Lemma wf_without (l : list value) (i : nat) :
  wf (VList l) = true -> wf (VList (firstn i l ++ skipn (S i) l)) = true.
Proof.
  cbn [wf]. intros H. apply forallb_forall. intros b Hb.
  rewrite forallb_forall in H. apply H.
  apply in_app_or in Hb as [Hb | Hb].
  - rewrite <- (firstn_skipn i l). apply in_or_app. now left.
  - rewrite <- (firstn_skipn (S i) l). apply in_or_app. now right.
Qed.

Lemma truthy_str (s : string) : truthy (VStr s) = true <-> s <> "".
Proof.
  simpl. rewrite negb_true_iff. split.
  - intros H ->. discriminate.
  - intros H. destruct (String.eqb_spec s ""); congruence.
Qed.

(** ** Adding *)

Lemma add_book_valid (f : add_form) (l : list value) (d : filesys)
  (p : list event) :
  submitted f = true -> title f <> "" -> author f <> "" ->
  add_book f (mkWorld (Some (VList l)) d p)
  = (Ok tt,
     mkWorld (Some (VList (l ++ [new_book f])))
       (saved (VList (l ++ [new_book f])) d)
       (p ++ [Header "Add a Book"; save_report d;
              Success ("'" ++ title f ++ "' by " ++ author f
                       ++ " added successfully!")])).
Proof.
  intros Hs Ht Ha. apply truthy_str in Ht, Ha.
  unfold add_book, bind at 1. cbn [emit]. rewrite Hs, Ht, Ha. cbn [andb].
  unfold bind, get_library, lift, set_library, emit. cbn [session disk page append].
  rewrite save_library_run. cbn [session disk page].
  now rewrite <- !app_assoc.
Qed.

Lemma add_book_invalid (f : add_form) (w : world) :
  submitted f = true -> title f = "" \/ author f = "" ->
  add_book f w
  = (Ok tt,
     mkWorld (session w) (disk w)
       (page w ++ [Header "Add a Book";
                   Warning "Title and author are required!"])).
Proof.
  intros Hs H. unfold add_book, bind at 1. cbn [emit]. rewrite Hs.
  assert (E : truthy (VStr (title f)) && truthy (VStr (author f)) = false).
  { destruct H as [-> | ->]; [reflexivity | apply andb_false_r]. }
  cbn [andb]. rewrite E. unfold emit. cbn [session disk page].
  now rewrite <- app_assoc.
Qed.

(** C1.  A submitted form adds a book exactly when its title and its
    author are both non-empty.  Then the store is the old one followed by
    the one new record (one element longer, the earlier records in place);
    the new record is a Book whose title, author, year and genre are those
    of the form and whose read flag tells whether the form said Yes; and
    the store is saved: the file holds the JSON text of the new store when
    it can be opened for writing, and the failure is reported otherwise.
    The store is persisted by that: the text left in the file loads back
    to the new store, and a new session started on the file has the new
    store (the old records being well formed, that is without a key twice
    in a dict, as every Python value is).  When the title or the author is
    empty the run shows the warning and changes neither the store nor the
    file. *)
Theorem add_book_iff_title_and_author (f : add_form) (l : list value)
  (d : filesys) (p : list event) :
  submitted f = true ->
  let w := mkWorld (Some (VList l)) d p in
  let l' := (l ++ [new_book f])%list in
  (title f <> "" /\ author f <> "" ->
     add_book f w
     = (Ok tt,
        mkWorld (Some (VList l')) (saved (VList l') d)
          (p ++ [Header "Add a Book"; save_report d;
                 Success ("'" ++ title f ++ "' by " ++ author f
                          ++ " added successfully!")]))
     /\ List.length l' = S (List.length l)
     /\ firstn (List.length l) l' = l
     /\ (write_fault d = None ->
         file (saved (VList l') d) = Some (Json.dumps (VList l')))
     /\ nth_error l' (List.length l) = Some (new_book f)
     /\ is_book (new_book f) = true
     /\ (book_title (new_book f) = title f
         /\ book_author (new_book f) = author f
         /\ book_year (new_book f) = year f
         /\ book_genre (new_book f) = genre f
         /\ book_read (new_book f) = String.eqb (read_status f) "Yes")
     /\ (write_fault d = None -> wf (VList l) = true ->
         let left := disk (snd (add_book f w)) in
         (exists text,
            file left = Some text /\ Json.loads text = Ok (VList l'))
         /\ (read_fault d = None -> forall q,
             session (snd (startup (mkWorld None left q)))
             = Some (VList l'))))
  /\ (title f = "" \/ author f = "" ->
      add_book f w
      = (Ok tt,
         mkWorld (Some (VList l)) d
           (p ++ [Header "Add a Book";
                  Warning "Title and author are required!"])))
  /\ (session (snd (add_book f w)) = Some (VList l')
      <-> title f <> "" /\ author f <> "").
Proof.
  intros Hs w l'. split; [|split].
  - intros [Ht Ha].
    split; [now apply add_book_valid|].
    split; [subst l'; rewrite length_app; simpl; lia|].
    split.
    { subst l'. rewrite firstn_app, Nat.sub_diag, firstn_all. simpl.
      apply app_nil_r. }
    split; [intros Hw; unfold saved; now rewrite Hw|].
    split.
    { subst l'. rewrite nth_error_app2 by lia. now rewrite Nat.sub_diag. }
    split; [reflexivity|].
    split; [repeat split|].
    intros Hw Wl. subst w. rewrite add_book_valid by assumption.
    cbn [snd disk].
    assert (W' : wf (VList l') = true) by now apply wf_snoc.
    destruct (saved_persists (VList l') d W' Hw) as [H1 H2].
    split; [exact H1|]. intros Hr q.
    change (l ++ [new_book f])%list with l'. now rewrite (H2 Hr q).
  - intros H. now rewrite add_book_invalid.
  - split.
    + intros E. destruct (string_dec (title f) "") as [Ht|Ht];
        [|destruct (string_dec (author f) "") as [Ha|Ha]]; [| |now split].
      * rewrite add_book_invalid in E by (auto). simpl in E.
        injection E as E. apply (f_equal (@List.length _)) in E.
        subst l'. rewrite length_app in E. simpl in E. lia.
      * rewrite add_book_invalid in E by (auto). simpl in E.
        injection E as E. apply (f_equal (@List.length _)) in E.
        subst l'. rewrite length_app in E. simpl in E. lia.
    + intros [Ht Ha]. subst w. now rewrite add_book_valid.
Qed.

(** ** Book records *)

Lemma is_book_fields (b : value) :
  is_book b = true ->
  exists d, b = VDict d /\ wf b = true
    /\ dict_get d "title" = Some (VStr (book_title b))
    /\ dict_get d "author" = Some (VStr (book_author b))
    /\ dict_get d "year" = Some (VInt (book_year b))
    /\ dict_get d "genre" = Some (VStr (book_genre b))
    /\ dict_get d "read" = Some (VBool (book_read b)).
Proof.
  unfold is_book. intros H. apply andb_prop in H as [W H].
  destruct b as [ | | | | | d]; try discriminate H.
  exists d. unfold book_title, book_author, book_genre, book_year, book_read,
    str_field, getitem.
  destruct (dict_get d "title") as [[]|]; try discriminate H.
  destruct (dict_get d "author") as [[]|]; try discriminate H.
  destruct (dict_get d "year") as [[]|]; try discriminate H.
  destruct (dict_get d "genre") as [[]|]; try discriminate H.
  destruct (dict_get d "read") as [[]|]; try discriminate H.
  repeat split; assumption.
Qed.

Lemma book_getitem (b : value) :
  is_book b = true ->
  getitem b "title" = Ok (VStr (book_title b))
  /\ getitem b "author" = Ok (VStr (book_author b))
  /\ getitem b "year" = Ok (VInt (book_year b))
  /\ getitem b "genre" = Ok (VStr (book_genre b))
  /\ getitem b "read" = Ok (VBool (book_read b)).
Proof.
  intros H. destruct (is_book_fields b H) as (d & -> & _ & Ht & Ha & Hy & Hg & Hr).
  unfold getitem. rewrite Ht, Ha, Hy, Hg, Hr. repeat split.
Qed.

Lemma books_records (l : list value) :
  forallb is_book l = true ->
  exists rs, Pd.records l = Some rs /\ l = map VDict rs.
Proof.
  induction l as [|b l IH]; simpl.
  - now exists [].
  - intros H. apply andb_prop in H as [Hb Hl].
    destruct (IH Hl) as (rs & E & ->).
    destruct (is_book_fields b Hb) as (d & -> & _).
    exists (d :: rs). now rewrite E.
Qed.

(** ** Removing *)

Lemma option_label_book (l : list value) (d : filesys) (p : list event)
  (x : nat) (b : value) :
  nth_error l x = Some b -> is_book b = true ->
  option_label x (mkWorld (Some (VList l)) d p)
  = (Ok (label b), mkWorld (Some (VList l)) d p).
Proof.
  intros Hx Hb. destruct (book_getitem b Hb) as (Ht & Ha & _).
  unfold option_label, bind, get_library, lift, getindex. cbn [session].
  rewrite Hx, Ht, Ha. reflexivity.
Qed.

Lemma labels_books (l : list value) (d : filesys) (p : list event)
  (rest : list value) :
  forall start,
  skipn start l = rest -> forallb is_book rest = true ->
  for_each option_label (seq start (List.length rest))
    (mkWorld (Some (VList l)) d p)
  = (Ok (map label rest), mkWorld (Some (VList l)) d p).
Proof.
  induction rest as [|b rest IH]; intros start Hs Hb; simpl.
  - reflexivity.
  - apply andb_prop in Hb as [Hb Hr].
    assert (Hn : nth_error l start = Some b).
    { rewrite <- (firstn_skipn start l) at 1. rewrite Hs.
      assert (Hlen : List.length (firstn start l) = start).
      { apply firstn_length_le. apply Nat.lt_le_incl.
        apply Nat.nle_gt. intros Hle. apply skipn_all2 in Hle. congruence. }
      rewrite nth_error_app2 by lia. now rewrite Hlen, Nat.sub_diag. }
    unfold bind at 1. rewrite (option_label_book l d p start b Hn Hb).
    unfold bind at 1. rewrite (IH (S start)); [reflexivity | | exact Hr].
    change (S start) with (1 + start). rewrite <- skipn_skipn, Hs. reflexivity.
Qed.

Lemma reads_only_bind {A B} (m : M A) (k : A -> M B) :
  reads_only m -> (forall a, reads_only (k a)) -> reads_only (bind m k).
Proof.
  intros Hm Hk w. unfold bind. specialize (Hm w).
  destruct (m w) as [[a|e|] w1]; simpl in Hm; subst w1; [apply Hk | | ]; reflexivity.
Qed.

Lemma reads_only_lift {A} (r : result A) : reads_only (lift r).
Proof. intros w. reflexivity. Qed.

Lemma reads_only_ret {A} (a : A) : reads_only (ret a).
Proof. intros w. reflexivity. Qed.

Lemma reads_only_get_library : reads_only get_library.
Proof. intros w. unfold get_library. now destruct (session w). Qed.

Lemma reads_only_option_label (x : nat) : reads_only (option_label x).
Proof.
  unfold option_label.
  repeat (apply reads_only_bind;
          [first [apply reads_only_get_library | apply reads_only_lift] | intros ?]).
  apply reads_only_ret.
Qed.

Lemma reads_only_for_each {A B} (f : A -> M B) (l : list A) :
  (forall x, reads_only (f x)) -> reads_only (for_each f l).
Proof.
  intros Hf. induction l as [|x l IH]; simpl.
  - apply reads_only_ret.
  - apply reads_only_bind; [apply Hf | intros y].
    apply reads_only_bind; [exact IH | intros ys]. apply reads_only_ret.
Qed.

(** Stepping through a run. *)

Lemma run_emit {B} (e : event) (k : unit -> M B) (w : world) :
  bind (emit e) k w = k tt (mkWorld (session w) (disk w) (page w ++ [e])).
Proof. reflexivity. Qed.

Lemma run_get {B} (k : value -> M B) (v : value) (d : filesys) (p : list event) :
  bind get_library k (mkWorld (Some v) d p) = k v (mkWorld (Some v) d p).
Proof. reflexivity. Qed.

Lemma run_set {B} (v : value) (k : unit -> M B) (w : world) :
  bind (set_library v) k w = k tt (mkWorld (Some v) (disk w) (page w)).
Proof. reflexivity. Qed.

Lemma run_lift {A B} (r : result A) (k : A -> M B) (w : world) :
  bind (lift r) k w
  = match r with
    | Ok a => k a w
    | Raise e => (Raise e, w)
    | Unmodelled => (Unmodelled, w)
    end.
Proof. now destruct r. Qed.

Lemma run_ret {A B} (a : A) (k : A -> M B) (w : world) :
  bind (ret a) k w = k a w.
Proof. reflexivity. Qed.

Lemma run_reads {A B} (m : M A) (k : A -> M B) (w : world) :
  reads_only m ->
  bind m k w
  = match fst (m w) with
    | Ok a => k a w
    | Raise e => (Raise e, w)
    | Unmodelled => (Unmodelled, w)
    end.
Proof.
  intros R. unfold bind. specialize (R w).
  destruct (m w) as [[a|e|] w1]; simpl in *; now subst w1.
Qed.

Ltac step :=
  first [ rewrite run_emit | rewrite run_get | rewrite run_set
        | rewrite run_ret | rewrite run_lift ];
  cbv beta; cbn [session disk page].

Lemma remove_book_empty (lib : value) (d : filesys) (p : list event)
  (i : nat) (clicked : bool) :
  truthy lib = false ->
  remove_book i clicked (mkWorld (Some lib) d p)
  = (Ok tt,
     mkWorld (Some lib) d
       (p ++ [Header "Remove a Book"; Info "Your library is empty."])).
Proof.
  intros H. unfold remove_book. do 2 step. rewrite H. cbn [negb].
  unfold emit. cbn [session disk page]. now rewrite <- app_assoc.
Qed.

(** Whatever the store holds, an index that is not a position of the list
    leaves the store and the file as they were. *)
Lemma remove_book_out_of_range (lib : value) (d : filesys) (p : list event)
  (i : nat) (clicked : bool) :
  (forall l, lib = VList l -> List.length l <= i) ->
  session (snd (remove_book i clicked (mkWorld (Some lib) d p))) = Some lib
  /\ disk (snd (remove_book i clicked (mkWorld (Some lib) d p))) = d.
Proof.
  intros Hi. destruct (truthy lib) eqn:T;
    [| rewrite remove_book_empty by exact T; now split].
  unfold remove_book. do 2 step. rewrite T. cbn [negb]. step.
  destruct (Pd.make lib) as [df|e|] eqn:Em; [|now split|now split].
  destruct lib as [ | | | | l | ]; try discriminate Em.
  do 2 step. cbn [len].
  rewrite run_reads
    by (apply reads_only_for_each, reads_only_option_label).
  destruct (fst (for_each option_label (seq 0 (List.length l)) _))
    as [labels|e|]; [|now split|now split].
  step. destruct clicked; [|now split].
  do 2 step. unfold pop.
  assert (N : nth_error l i = None) by (apply nth_error_None; now apply Hi).
  rewrite N. now split.
Qed.

Lemma remove_book_books (l : list value) (d : filesys) (p : list event)
  (i : nat) (clicked : bool) :
  l <> [] -> forallb is_book l = true ->
  remove_book i clicked (mkWorld (Some (VList l)) d p)
  = let shown := (p ++ [Header "Remove a Book";
                        Selectbox "Select a book to remove:" (map label l)])%list in
    if clicked then
      match nth_error l i with
      | Some b =>
          let l' := (firstn i l ++ skipn (S i) l)%list in
          (Ok tt,
           mkWorld (Some (VList l')) (saved (VList l') d)
             (shown ++ [save_report d;
                        Success ("'" ++ book_title b ++ "' removed successfully!")]))
      | None => (Raise IndexError, mkWorld (Some (VList l)) d shown)
      end
    else (Ok tt, mkWorld (Some (VList l)) d shown).
Proof.
  intros Hne Hb.
  destruct (books_records l Hb) as (rs & Er & _).
  assert (T : truthy (VList l) = true) by (destruct l; [congruence | reflexivity]).
  unfold remove_book. do 2 step. rewrite T. cbn [negb]. step.
  unfold Pd.make. rewrite Er. do 2 step. cbn [len].
  unfold bind at 1. rewrite (labels_books l d _ l 0 eq_refl Hb).
  step. rewrite <- app_assoc. cbn [app].
  destruct clicked; [|reflexivity].
  do 2 step. unfold pop.
  destruct (nth_error l i) as [b|] eqn:N; [|reflexivity].
  step. cbn [snd fst]. unfold bind at 1. rewrite save_library_run.
  assert (Hbi : is_book b = true).
  { apply nth_error_In in N. rewrite forallb_forall in Hb. now apply Hb. }
  destruct (book_getitem b Hbi) as (Ht & _).
  step. rewrite Ht. step. cbn [format]. unfold emit. cbn [session disk page].
  cbv zeta. now rewrite <- !app_assoc.
Qed.

Lemma skipn_nth_error {A} (l : list A) (i : nat) (x : A) :
  nth_error l i = Some x -> skipn i l = x :: skipn (S i) l.
Proof.
  revert l. induction i as [|i IH]; intros [|y l]; simpl; try discriminate.
  - now intros [= ->].
  - apply IH.
Qed.

(** C2.  On a store of Book records, removing at a position [i] of the
    store succeeds: the new store is the old one without its [i]-th record,
    one shorter, every other record in its place and order; the record
    removed is the one the select box offered at [i] under its title and
    author; and the new store is saved (the file holds its JSON text when
    it can be opened for writing).  The store is persisted by that: the
    text left in the file loads back to the new store, and a new session
    started on the file has the new store. *)
Theorem remove_book_at_valid_index (l : list value) (d : filesys)
  (p : list event) (i : nat) :
  forallb is_book l = true -> i < List.length l ->
  exists b,
    let l' := (firstn i l ++ skipn (S i) l)%list in
    nth_error l i = Some b
    /\ l = (firstn i l ++ b :: skipn (S i) l)%list
    /\ remove_book i true (mkWorld (Some (VList l)) d p)
       = (Ok tt,
          mkWorld (Some (VList l')) (saved (VList l') d)
            (p ++ [Header "Remove a Book";
                   Selectbox "Select a book to remove:" (map label l);
                   save_report d;
                   Success ("'" ++ book_title b ++ "' removed successfully!")]))
    /\ S (List.length l') = List.length l
    /\ nth_error (map label l) i
       = Some (book_title b ++ " by " ++ book_author b)
    /\ (forall j, j < i -> nth_error l' j = nth_error l j)
    /\ (forall j, i <= j -> nth_error l' j = nth_error l (S j))
    /\ (write_fault d = None ->
        file (saved (VList l') d) = Some (Json.dumps (VList l')))
    /\ (write_fault d = None ->
        let left :=
          disk (snd (remove_book i true (mkWorld (Some (VList l)) d p))) in
        (exists text,
           file left = Some text /\ Json.loads text = Ok (VList l'))
        /\ (read_fault d = None -> forall q,
            session (snd (startup (mkWorld None left q)))
            = Some (VList l'))).
Proof.
  intros Hb Hi.
  destruct (nth_error l i) as [b|] eqn:N;
    [| apply nth_error_None in N; lia].
  exists b. cbv zeta.
  assert (Hf : List.length (firstn i l) = i) by (rewrite length_firstn; lia).
  assert (Run : remove_book i true (mkWorld (Some (VList l)) d p)
                = (Ok tt,
                   mkWorld (Some (VList (firstn i l ++ skipn (S i) l)))
                     (saved (VList (firstn i l ++ skipn (S i) l)) d)
                     (p ++ [Header "Remove a Book";
                            Selectbox "Select a book to remove:" (map label l);
                            save_report d;
                            Success ("'" ++ book_title b
                                     ++ "' removed successfully!")]))).
  { rewrite remove_book_books; [| intros ->; simpl in Hi; lia | exact Hb].
    cbv zeta. rewrite N, <- !app_assoc. reflexivity. }
  split; [reflexivity|].
  split.
  { rewrite <- (skipn_nth_error l i b N). symmetry. apply firstn_skipn. }
  split; [exact Run|].
  split; [rewrite length_app, Hf, length_skipn; lia|].
  split; [now rewrite nth_error_map, N|].
  split.
  { intros j Hj. rewrite nth_error_app1 by lia.
    rewrite nth_error_firstn. apply Nat.ltb_lt in Hj. now rewrite Hj. }
  split.
  { intros j Hj. rewrite nth_error_app2 by lia.
    rewrite nth_error_skipn, Hf. f_equal. lia. }
  split; [intros Hw; unfold saved; now rewrite Hw|].
  intros Hw. rewrite Run. cbn [snd disk].
  assert (W' : wf (VList (firstn i l ++ skipn (S i) l)) = true)
    by now apply wf_without, books_wf.
  destruct (saved_persists _ d W' Hw) as [H1 H2].
  split; [exact H1|]. intros Hr q. now rewrite (H2 Hr q).
Qed.

(** C3.  On an empty store the run tells that the library is empty; with
    an index that is not a position of the store the removal raises
    [IndexError] before anything is changed.  In both cases the store and
    the file are what they were. *)
Theorem remove_book_invalid_is_noop (lib : value) (d : filesys)
  (p : list event) (i : nat) (clicked : bool) :
  (forall l, lib = VList l -> List.length l <= i) ->
  let run := remove_book i clicked (mkWorld (Some lib) d p) in
  session (snd run) = Some lib
  /\ disk (snd run) = d
  /\ (lib = VList [] ->
      run = (Ok tt,
             mkWorld (Some lib) d
               (p ++ [Header "Remove a Book"; Info "Your library is empty."])))
  /\ (forall l, lib = VList l -> l <> [] -> forallb is_book l = true ->
      clicked = true ->
      run = (Raise IndexError,
             mkWorld (Some lib) d
               (p ++ [Header "Remove a Book";
                      Selectbox "Select a book to remove:" (map label l)]))).
Proof.
  intros Hi run. subst run.
  destruct (remove_book_out_of_range lib d p i clicked Hi) as [Hs Hd].
  repeat split; try assumption.
  - intros ->. now apply remove_book_empty.
  - intros l -> Hne Hb ->. rewrite remove_book_books by assumption.
    cbv zeta. specialize (Hi l eq_refl).
    apply nth_error_None in Hi. now rewrite Hi.
Qed.

(** ** Showing a table *)

Lemma display_records (rs : list (list (string * value))) (c0 : string)
  (w : world) :
  has_field c0 rs = true ->
  display_books (Some (VList (map VDict rs))) w
  = match table_rows rs with
    | Ok rws =>
        (Ok tt,
         mkWorld (session w) (disk w)
           (page w ++ [Dataframe (Pd.mkDataFrame table_columns rws)]))
    | Raise e => (Raise e, w)
    | Unmodelled => (Unmodelled, w)
    end.
Proof.
  intros H0.
  assert (Hne : rs <> []) by (intros ->; discriminate H0).
  assert (Hc : Pd.columns (Pd.of_records rs) <> []).
  { rewrite <- PdFacts.mem_of_records in H0. intros E. rewrite E in H0.
    discriminate H0. }
  unfold display_books. step.
  assert (T : truthy (VList (map VDict rs)) = true)
    by (destruct rs; [congruence | reflexivity]).
  rewrite T. cbn [negb]. step. unfold Pd.make. rewrite PdFacts.records_map.
  assert (E : Pd.empty (Pd.of_records rs) = false).
  { unfold Pd.empty. destruct (Pd.columns (Pd.of_records rs)); [congruence|].
    unfold Pd.of_records. cbn [Pd.rows]. destruct rs; [congruence | reflexivity]. }
  rewrite E. cbn [negb].
  change (fold_left _ expected_columns (Pd.of_records rs))
    with (ensure expected_columns (Pd.of_records rs)).
  rewrite PdFacts.ensure_columns. step.
  rewrite PdFacts.select_all
    by (cbn [Pd.columns forallb expected_columns];
        rewrite !PdFacts.mem_ensure by reflexivity; reflexivity).
  cbn [Pd.columns Pd.rows]. rewrite PdFacts.selected_rows.
  step. unfold Pd.rename. cbn [Pd.columns Pd.rows List.length Nat.eqb expected_columns].
  step. unfold Pd.map_column. cbn [Pd.columns Pd.rows].
  change (Pd.index_of "Read" ["Title"; "Author"; "Year"; "Genre"; "Read"])
    with (Some 4).
  cbv iota beta. rewrite PdFacts.map_result_map.
  cbn [map nth Pd.set_nth expected_columns].
  change (Pd.map_result _ rs) with (table_rows rs).
  destruct (table_rows rs); reflexivity.
Qed.

Lemma dict_get_mem {V} (d : list (string * V)) (c : string) (v : V) :
  dict_get d c = Some v -> Pd.mem c (map fst d) = true.
Proof.
  induction d as [|[k x] d IH]; simpl; [discriminate|].
  rewrite String.eqb_sym. destruct (String.eqb c k); [reflexivity|]. exact IH.
Qed.

Lemma map_result_ok {A B} (f : A -> result B) (g : A -> B) (l : list A) :
  (forall x, In x l -> f x = Ok (g x)) -> Pd.map_result f l = Ok (map g l).
Proof.
  induction l as [|x l IH]; intros H; simpl; [reflexivity|].
  rewrite (H x (or_introl eq_refl)), IH; [reflexivity|].
  intros y Hy. apply H. now right.
Qed.

Lemma has_field_in (c : string) (rs : list (list (string * value)))
  (d : list (string * value)) (v : value) :
  In d rs -> dict_get d c = Some v -> has_field c rs = true.
Proof.
  intros Hd Hg. unfold has_field. apply existsb_exists.
  exists d. split; [exact Hd | now apply dict_get_mem in Hg].
Qed.

(** The five columns of a list of books are held as they are: every
    record has the field, and no field is null. *)
Lemma books_keep (rs : list (list (string * value))) (c : string) :
  forallb is_book (map VDict rs) = true ->
  In c expected_columns -> Pd.keeps rs c = true.
Proof.
  intros Hb Hc. apply PdFacts.keeps_spec.
  assert (F : forall d, In d rs ->
            exists v, dict_get d c = Some v /\ v <> VNone).
  { intros d Hd.
    assert (B : is_book (VDict d) = true).
    { rewrite forallb_forall in Hb. apply Hb. now apply in_map. }
    destruct (is_book_fields _ B) as (d' & [= <-] & _ & Ht & Ha & Hy & Hg & Hr).
    destruct Hc as [<-|[<-|[<-|[<-|[<-|[]]]]]]; eexists; split;
      try eassumption; discriminate. }
  split.
  - intros d Hd E. destruct (F d Hd) as (v & Ev & Hv). congruence.
  - intros (d & Hd & E). destruct (F d Hd) as (v & Ev & _). congruence.
Qed.

Lemma books_table_rows (rs : list (list (string * value))) :
  forallb is_book (map VDict rs) = true ->
  table_rows rs = Ok (map book_row (map VDict rs)).
Proof.
  intros Hb. unfold table_rows. rewrite map_map.
  apply map_result_ok. intros d Hd.
  assert (B : is_book (VDict d) = true).
  { rewrite forallb_forall in Hb. apply Hb. now apply in_map. }
  destruct (is_book_fields _ B) as (d' & [= <-] & _ & Ht & Ha & Hy & Hg & Hr).
  unfold record_row, shown_cell, Pd.cell_of.
  rewrite (has_field_in _ _ _ _ Hd Ht), (has_field_in _ _ _ _ Hd Ha),
    (has_field_in _ _ _ _ Hd Hy), (has_field_in _ _ _ _ Hd Hg),
    (has_field_in _ _ _ _ Hd Hr).
  rewrite !(books_keep rs _ Hb) by (cbn; tauto).
  rewrite Ht, Ha, Hy, Hg, Hr. unfold book_row. cbn [Pd.yes_no rbind].
  now destruct (book_read (VDict d)).
Qed.

Lemma display_books_books (l : list value) (w : world) :
  l <> [] -> forallb is_book l = true ->
  display_books (Some (VList l)) w
  = (Ok tt,
     mkWorld (session w) (disk w)
       (page w ++ [Dataframe (books_table l)])).
Proof.
  intros Hne Hb. destruct (books_records l Hb) as (rs & _ & ->).
  destruct rs as [|d rs]; [simpl in Hne; congruence|].
  assert (B : is_book (VDict d) = true)
    by (cbn [map forallb] in Hb; now apply andb_prop in Hb).
  destruct (is_book_fields _ B) as (d' & [= <-] & _ & Ht & _).
  rewrite (display_records (d :: rs) "title")
    by (apply (has_field_in _ (d :: rs) d _ (in_eq d rs) Ht)).
  now rewrite books_table_rows.
Qed.

(** ** Searching *)

(** [in] on strings finds exactly the substrings. *)
Lemma str_in_spec (needle hay : string) :
  str_in needle hay = true <-> exists pre post, hay = pre ++ needle ++ post.
Proof.
  induction hay as [|c hay IH]; simpl.
  - destruct (starts_with needle "") eqn:E.
    + split; [intros _|reflexivity]. apply JsonFacts.starts_with_spec in E as [post E].
      now exists "", post.
    + split; [discriminate|]. intros (pre & post & H).
      destruct pre; [|discriminate H]. simpl in H.
      assert (S : starts_with needle "" = true)
        by (apply JsonFacts.starts_with_spec; now exists post).
      congruence.
  - destruct (starts_with needle (String c hay)) eqn:E.
    + split; [intros _|reflexivity]. apply JsonFacts.starts_with_spec in E as [post E].
      now exists "", post.
    + rewrite IH. split.
      * intros (pre & post & ->). now exists (String c pre), post.
      * intros (pre & post & H). destruct pre as [|c' pre].
        -- simpl in H.
           assert (S : starts_with needle (String c hay) = true)
             by (apply JsonFacts.starts_with_spec; now exists post).
           congruence.
        -- injection H as _ ->. now exists pre, post.
Qed.

Lemma matches_title (term : string) (b : value) (w : world) :
  is_book b = true ->
  matches "Title" term b w = (Ok (str_in term (lower_str (book_title b))), w).
Proof.
  intros Hb. destruct (book_getitem b Hb) as (Ht & _).
  unfold matches. cbn [String.eqb Ascii.eqb Bool.eqb].
  unfold bind, lift, ret. rewrite Ht. cbn [lower].
  now destruct (str_in term (lower_str (book_title b))).
Qed.

Lemma matches_author (term : string) (b : value) (w : world) :
  is_book b = true ->
  matches "Author" term b w = (Ok (str_in term (lower_str (book_author b))), w).
Proof.
  intros Hb. destruct (book_getitem b Hb) as (_ & Ha & _).
  unfold matches. cbn [String.eqb Ascii.eqb Bool.eqb].
  unfold bind, lift, ret. rewrite Ha. reflexivity.
Qed.

Lemma search_loop_filter (search_by term : string) (f : value -> bool)
  (l : list value) (w : world) :
  (forall b, In b l -> matches search_by term b w = (Ok (f b), w)) ->
  forall acc,
  search_loop search_by term l acc w = (Ok (acc ++ filter f l)%list, w).
Proof.
  induction l as [|b l IH]; intros H acc; simpl.
  - now rewrite app_nil_r.
  - unfold bind at 1. rewrite (H b (or_introl eq_refl)).
    rewrite IH by (intros b' Hb'; apply H; now right).
    destruct (f b); [now rewrite <- app_assoc | reflexivity].
Qed.

Lemma search_book_books (search_by term : string) (f : value -> bool)
  (l : list value) (d : filesys) (p : list event) :
  forallb is_book l = true -> term <> "" ->
  (forall b w, is_book b = true ->
     matches search_by (lower_str term) b w = (Ok (f b), w)) ->
  search_book search_by term (mkWorld (Some (VList l)) d p)
  = (Ok tt,
     mkWorld (Some (VList l)) d
       ((p ++ [Header "Search for Books"]) ++ search_results l (filter f l))).
Proof.
  intros Hb Ht Hm. unfold search_book. do 2 step.
  destruct l as [|b0 l0]; [reflexivity|]. set (l := b0 :: l0) in *.
  change (truthy (VList l)) with true. cbn [negb].
  apply truthy_str in Ht. rewrite Ht. do 2 step. cbn [iter].
  unfold bind at 1. rewrite (search_loop_filter search_by (lower_str term) f).
  2:{ intros b Hin. apply Hm. rewrite forallb_forall in Hb. now apply Hb. }
  rewrite app_nil_l. unfold search_results.
  assert (Hf : forallb is_book (filter f l) = true).
  { apply forallb_forall. intros b Hin. apply filter_In in Hin as [Hin _].
    rewrite forallb_forall in Hb. now apply Hb. }
  destruct (filter f l) as [|h hs] eqn:E.
  - subst l. unfold emit. reflexivity.
  - change (truthy (VList (h :: hs))) with true. cbv iota. step.
    rewrite display_books_books by (congruence || exact Hf).
    cbn [session disk page]. subst l. cbv iota. now rewrite <- !app_assoc.
Qed.

Lemma filter_subsequence {A} (f : A -> bool) (l : list A) :
  subsequence (filter f l) l.
Proof.
  induction l as [|x l IH]; simpl; [constructor|].
  destruct (f x); now constructor.
Qed.

Lemma ci_contains_spec (term s : string) :
  str_in (lower_str term) (lower_str s) = true <-> ci_contains term s.
Proof. apply str_in_spec. Qed.

Lemma search_book_empty_term (search_by : string) (lib : value)
  (d : filesys) (p : list event) :
  search_book search_by "" (mkWorld (Some lib) d p)
  = (Ok tt,
     mkWorld (Some lib) d
       (p ++ Header "Search for Books"
          :: (if truthy lib then [] else [Info "Your library is empty."]))).
Proof.
  unfold search_book. do 2 step.
  destruct (truthy lib); cbn [negb truthy String.eqb]; unfold emit, ret;
    cbn [session disk page]; now rewrite <- ?app_assoc.
Qed.

(** C4.  On a store of Book records and a non-empty term, the search by
    Title (by Author) shows exactly the books whose title (author)
    contains the term when case is ignored, in the order of the store; an
    empty term shows no result.  Searching the store of The Hobbit by
    J.R.R. Tolkien and Dune by Frank Herbert for tolkien or TOLKIEN by
    Author shows the first record alone. *)
Theorem search_book_case_insensitive_substring :
  (forall (l : list value) (d : filesys) (p : list event) (term : string),
     forallb is_book l = true -> term <> "" ->
     search_book "Title" term (mkWorld (Some (VList l)) d p)
     = (Ok tt,
        mkWorld (Some (VList l)) d
          ((p ++ [Header "Search for Books"])
           ++ search_results l (title_hits term l)))
     /\ search_book "Author" term (mkWorld (Some (VList l)) d p)
        = (Ok tt,
           mkWorld (Some (VList l)) d
             ((p ++ [Header "Search for Books"])
              ++ search_results l (author_hits term l)))
     /\ subsequence (title_hits term l) l
     /\ subsequence (author_hits term l) l
     /\ (forall b, In b (title_hits term l)
                   <-> In b l /\ ci_contains term (book_title b))
     /\ (forall b, In b (author_hits term l)
                   <-> In b l /\ ci_contains term (book_author b)))
  /\ (forall (search_by : string) (lib : value) (d : filesys) (p : list event),
        search_book search_by "" (mkWorld (Some lib) d p)
        = (Ok tt,
           mkWorld (Some lib) d
             (p ++ Header "Search for Books"
                :: (if truthy lib then [] else [Info "Your library is empty."]))))
  /\ (forall (y1 : Z) (g1 : string) (r1 : bool) (y2 : Z) (g2 : string)
             (r2 : bool) (d : filesys) (p : list event) (term : string),
        term = "tolkien" \/ term = "TOLKIEN" ->
        let hobbit := mk_book "The Hobbit" "J.R.R. Tolkien" y1 g1 r1 in
        let dune := mk_book "Dune" "Frank Herbert" y2 g2 r2 in
        author_hits term [hobbit; dune] = [hobbit]
        /\ search_book "Author" term (mkWorld (Some (VList [hobbit; dune])) d p)
           = (Ok tt,
              mkWorld (Some (VList [hobbit; dune])) d
                (p ++ [Header "Search for Books"; Subheader "Matching Books:";
                       Dataframe (books_table [hobbit])]))).
Proof.
  assert (G : forall l d p term,
     forallb is_book l = true -> term <> "" ->
     search_book "Title" term (mkWorld (Some (VList l)) d p)
     = (Ok tt,
        mkWorld (Some (VList l)) d
          ((p ++ [Header "Search for Books"])
           ++ search_results l (title_hits term l)))
     /\ search_book "Author" term (mkWorld (Some (VList l)) d p)
        = (Ok tt,
           mkWorld (Some (VList l)) d
             ((p ++ [Header "Search for Books"])
              ++ search_results l (author_hits term l)))).
  { intros l d p term Hb Ht. split.
    - apply search_book_books; [exact Hb | exact Ht |].
      intros b w Hbk. now apply matches_title.
    - apply search_book_books; [exact Hb | exact Ht |].
      intros b w Hbk. now apply matches_author. }
  split; [|split].
  - intros l d p term Hb Ht. destruct (G l d p term Hb Ht) as [G1 G2].
    repeat split; try assumption; try apply filter_subsequence.
    + now apply filter_In in H.
    + apply filter_In in H as [_ H]. now apply ci_contains_spec.
    + intros [Hin Hc]. apply filter_In. split; [exact Hin|].
      now apply ci_contains_spec.
    + now apply filter_In in H.
    + apply filter_In in H as [_ H]. now apply ci_contains_spec.
    + intros [Hin Hc]. apply filter_In. split; [exact Hin|].
      now apply ci_contains_spec.
  - intros. apply search_book_empty_term.
  - intros y1 g1 r1 y2 g2 r2 d p term Ht hobbit dune.
    assert (Hh : author_hits term [hobbit; dune] = [hobbit])
      by (destruct Ht as [-> | ->]; reflexivity).
    split; [exact Hh|].
    destruct (G [hobbit; dune] d p term) as [_ G2].
    + reflexivity.
    + destruct Ht as [-> | ->]; discriminate.
    + rewrite G2, Hh. now rewrite <- app_assoc.
Qed.

(** The search of C4 run on a concrete store. *)
Lemma search_book_tolkien_witness :
  search_book "Author" "TOLKIEN"
    (mkWorld
       (Some (VList [mk_book "The Hobbit" "J.R.R. Tolkien" 1937 "Fantasy" true;
                     mk_book "Dune" "Frank Herbert" 1965 "" false]))
       (mkFilesys None None None) [])
  = (Ok tt,
     mkWorld
       (Some (VList [mk_book "The Hobbit" "J.R.R. Tolkien" 1937 "Fantasy" true;
                     mk_book "Dune" "Frank Herbert" 1965 "" false]))
       (mkFilesys None None None)
       [Header "Search for Books"; Subheader "Matching Books:";
        Dataframe
          (Pd.mkDataFrame ["Title"; "Author"; "Year"; "Genre"; "Read"]
             [[Pd.Cell (VStr "The Hobbit"); Pd.Cell (VStr "J.R.R. Tolkien");
               Pd.Cell (VInt 1937); Pd.Cell (VStr "Fantasy");
               Pd.Cell (VStr "Yes")]])]).
Proof.
  exact (proj2 (proj2 (proj2 search_book_case_insensitive_substring)
                 1937%Z "Fantasy" true 1965%Z "" false
                 (mkFilesys None None None) [] "TOLKIEN"
                 (or_intror eq_refl))).
Defined.

(** ** Loading *)

Lemma startup_load (d : filesys) (p : list event) (text : string) :
  file d = Some text -> read_fault d = None ->
  startup (mkWorld None d p)
  = match Json.loads text with
    | Ok v =>
        (Ok tt,
         mkWorld (Some v) d (p ++ [Success "Library loaded from library.txt"]))
    | Raise e =>
        (Ok tt,
         mkWorld (Some (VList [])) d (p ++ [Error "Error loading library: " e]))
    | Unmodelled => (Unmodelled, mkWorld (Some (VList [])) d p)
    end.
Proof.
  intros Hf Hr. unfold startup. cbn [session]. step.
  unfold try_except, bind at 1, path_exists. cbn [disk]. rewrite Hf.
  unfold bind at 1, read_file. cbn [disk]. rewrite Hr, Hf. rewrite run_lift.
  destruct (Json.loads text); reflexivity.
Qed.

(** Any well-formed store that is saved is the store of the next session. *)
Lemma save_then_startup (v : value) (d : filesys) (p p' : list event) :
  wf v = true -> write_fault d = None -> read_fault d = None ->
  startup (mkWorld None (disk (snd (save_library (mkWorld (Some v) d p)))) p')
  = (Ok tt,
     mkWorld (Some v) (mkFilesys (Some (Json.dumps v)) None None)
       (p' ++ [Success "Library loaded from library.txt"])).
Proof.
  intros W Hw Hr. rewrite save_library_writes by exact Hw. cbn [snd disk].
  rewrite Hr. rewrite (startup_load _ _ (Json.dumps v)) by reflexivity.
  now rewrite JsonFacts.loads_dumps.
Qed.

(** C5.  A store of Book records, of any length, saved over whatever the
    file held and loaded by the next session, is the same list of records:
    the same values in the same order. *)
Theorem save_then_load_round_trip (l : list value) (d : filesys)
  (p p' : list event) :
  forallb is_book l = true -> write_fault d = None -> read_fault d = None ->
  let after_save := snd (save_library (mkWorld (Some (VList l)) d p)) in
  session after_save = Some (VList l)
  /\ file (disk after_save) = Some (Json.dumps (VList l))
  /\ Json.loads (Json.dumps (VList l)) = Ok (VList l)
  /\ startup (mkWorld None (disk after_save) p')
     = (Ok tt,
        mkWorld (Some (VList l)) (disk after_save)
          (p' ++ [Success "Library loaded from library.txt"])).
Proof.
  intros Hb Hw Hr after_save. subst after_save.
  pose proof (books_wf l Hb) as W.
  rewrite (save_then_startup (VList l) d p p' W Hw Hr).
  rewrite save_library_writes by exact Hw. cbn [snd session disk file].
  rewrite Hr. repeat split. now apply JsonFacts.loads_dumps.
Qed.

Lemma save_then_load_witness :
  let l := [mk_book "The Hobbit" "J.R.R. Tolkien" 1937 "Fantasy" true;
            mk_book "Dune" "Frank Herbert" 1965 "" false] in
  let d := mkFilesys (Some "not JSON at all") None None in
  startup (mkWorld None
             (disk (snd (save_library (mkWorld (Some (VList l)) d [])))) [])
  = (Ok tt,
     mkWorld (Some (VList l))
       (disk (snd (save_library (mkWorld (Some (VList l)) d []))))
       [Success "Library loaded from library.txt"]).
Proof.
  exact (proj2 (proj2 (proj2
    (save_then_load_round_trip
       [mk_book "The Hobbit" "J.R.R. Tolkien" 1937 "Fantasy" true;
        mk_book "Dune" "Frank Herbert" 1965 "" false]
       (mkFilesys (Some "not JSON at all") None None) [] []
       eq_refl eq_refl eq_refl)))).
Defined.

(** C10.  Whatever value the text of the file parses to becomes the store
    as it is; nothing checks its shape.  So the store can be a value that
    is not a list, a list whose elements are not dicts, a record without
    the five fields, or a record with an empty title and author and a year
    outside 1000-2100. *)
Theorem startup_installs_parsed_value :
  (forall (d : filesys) (p : list event) (text : string) (v : value),
     file d = Some text -> read_fault d = None -> Json.loads text = Ok v ->
     startup (mkWorld None d p)
     = (Ok tt,
        mkWorld (Some v) d (p ++ [Success "Library loaded from library.txt"])))
  /\ Json.loads "42" = Ok (VInt 42)
  /\ Json.loads "[1, null]" = Ok (VList [VInt 1; VNone])
  /\ Json.loads "[{}]" = Ok (VList [VDict []])
  /\ Json.loads ("[{" ++ quoted "title" ++ ": " ++ quoted "" ++ ", "
                 ++ quoted "author" ++ ": " ++ quoted "" ++ ", "
                 ++ quoted "year" ++ ": 99999, "
                 ++ quoted "genre" ++ ": " ++ quoted "" ++ ", "
                 ++ quoted "read" ++ ": false}]")
     = Ok (VList [mk_book "" "" 99999 "" false]).
Proof.
  split; [|repeat split; reflexivity].
  intros d p text v Hf Hr Hl.
  rewrite (startup_load d p text Hf Hr). now rewrite Hl.
Qed.

Lemma startup_installs_witness :
  startup (mkWorld None (mkFilesys (Some "42") None None) [])
  = (Ok tt,
     mkWorld (Some (VInt 42)) (mkFilesys (Some "42") None None)
       [Success "Library loaded from library.txt"]).
Proof.
  exact (proj1 startup_installs_parsed_value
           (mkFilesys (Some "42") None None) [] "42" (VInt 42)
           eq_refl eq_refl eq_refl).
Defined.

(** ** Statistics *)

Lemma dict_get_set_same {V} (d : list (string * V)) (k : string) (v : V) :
  dict_get (dict_set d k v) k = Some v.
Proof.
  induction d as [|[k' v'] d IH]; simpl.
  - now rewrite String.eqb_refl.
  - destruct (String.eqb k' k) eqn:E; simpl; rewrite E; [reflexivity | exact IH].
Qed.

Lemma dict_get_set_other {V} (d : list (string * V)) (k k' : string) (v : V) :
  k <> k' -> dict_get (dict_set d k v) k' = dict_get d k'.
Proof.
  intros N. induction d as [|[k0 v0] d IH]; simpl.
  - apply String.eqb_neq in N. now rewrite N.
  - destruct (String.eqb k0 k) eqn:E; simpl.
    + apply String.eqb_eq in E as ->. apply String.eqb_neq in N. now rewrite N.
    + now rewrite IH.
Qed.

Lemma dict_get_none {V} (d : list (string * V)) (k : string) :
  dict_get d k = None <-> existsb (String.eqb k) (map fst d) = false.
Proof.
  induction d as [|[k' v'] d IH]; simpl; [easy|].
  rewrite (String.eqb_sym k k'). destruct (String.eqb k' k); simpl; [easy | exact IH].
Qed.

Lemma keys_set {V} (d : list (string * V)) (k : string) (v : V) :
  map fst (dict_set d k v)
  = if existsb (String.eqb k) (map fst d) then map fst d
    else (map fst d ++ [k])%list.
Proof.
  induction d as [|[k' v'] d IH]; simpl; [reflexivity|].
  rewrite (String.eqb_sym k k'). destruct (String.eqb k' k); simpl; [reflexivity|].
  rewrite IH. now destruct (existsb (String.eqb k) (map fst d)).
Qed.

Lemma distinct_snoc (l : list string) (k : string) :
  distinct l = true -> existsb (String.eqb k) l = false ->
  distinct (l ++ [k]) = true.
Proof.
  induction l as [|x l IH]; simpl; [reflexivity|].
  intros H E. apply andb_prop in H as [Hx Hl].
  apply orb_false_elim in E as [Ex El].
  rewrite (IH Hl El), andb_true_r, existsb_app. simpl.
  rewrite negb_true_iff in Hx. rewrite Hx, String.eqb_sym, Ex. reflexivity.
Qed.

Lemma distinct_set {V} (d : list (string * V)) (k : string) (v : V) :
  distinct (map fst d) = true -> distinct (map fst (dict_set d k v)) = true.
Proof.
  intros H. rewrite keys_set.
  destruct (existsb (String.eqb k) (map fst d)) eqn:E; [exact H|].
  now apply distinct_snoc.
Qed.

Lemma dict_get_in {V} (d : list (string * V)) (k : string) (v : V) :
  distinct (map fst d) = true -> (In (k, v) d <-> dict_get d k = Some v).
Proof.
  induction d as [|[k' v'] d IH]; simpl; [easy|].
  intros H. apply andb_prop in H as [Hk Hd]. rewrite negb_true_iff in Hk.
  destruct (String.eqb_spec k' k) as [->|N].
  - split.
    + intros [[= ->] | Hin]; [reflexivity|].
      apply (in_map fst) in Hin. simpl in Hin.
      assert (existsb (String.eqb k) (map fst d) = true)
        by (apply existsb_exists; exists k; split; [exact Hin | apply String.eqb_refl]).
      congruence.
    + intros [= ->]. now left.
  - rewrite <- (IH Hd). split; [intros [[= E _] | Hin]; [congruence | exact Hin] | now right].
Qed.

Lemma tally_get (gs : list string) :
  forall (counts : list (string * Z)) (g : string),
  dict_get (tally gs counts) g
  = match count_str g gs, dict_get counts g with
    | O, before => before
    | S n, None => Some (Z.of_nat (S n))
    | S n, Some m => Some (m + Z.of_nat (S n))%Z
    end.
Proof.
  unfold count_str.
  induction gs as [|x gs IH]; intros counts g; cbn [tally filter].
  - simpl. now destruct (dict_get counts g).
  - rewrite IH. destruct (String.eqb_spec g x) as [->|N].
    + cbn [List.length].
      destruct (dict_get counts x) as [m|]; rewrite dict_get_set_same;
        destruct (List.length (filter (String.eqb x) gs)); f_equal; lia.
    + assert (E : forall v, dict_get (dict_set counts x v) g = dict_get counts g)
        by (intros v; apply dict_get_set_other; congruence).
      destruct (dict_get counts x); now rewrite E.
Qed.

Lemma tally_distinct (gs : list string) :
  forall counts : list (string * Z),
  distinct (map fst counts) = true ->
  distinct (map fst (tally gs counts)) = true.
Proof.
  induction gs as [|x gs IH]; intros counts H; simpl; [exact H|].
  apply IH. destruct (dict_get counts x); now apply distinct_set.
Qed.

Lemma count_str_pos (g : string) (gs : list string) :
  In g gs <-> 1 <= count_str g gs.
Proof.
  unfold count_str. induction gs as [|x gs IH]; simpl; [split; [easy | lia]|].
  destruct (String.eqb_spec g x) as [->|N]; simpl.
  - split; [lia | now left].
  - rewrite <- IH. split; [intros [E | H]; [congruence | exact H] | now right].
Qed.

Lemma count_read_books (l : list value) (w : world) :
  forallb is_book l = true ->
  count_read l w = (Ok (List.length (filter book_read l)), w).
Proof.
  induction l as [|b l IH]; intros H; simpl; [reflexivity|].
  apply andb_prop in H as [Hb Hl].
  destruct (book_getitem b Hb) as (_ & _ & _ & _ & Hr).
  rewrite run_lift, Hr. unfold bind at 1. rewrite (IH Hl).
  unfold ret. cbn [truthy]. now destruct (book_read b).
Qed.

Lemma count_genres_books (l : list value) (w : world) :
  forallb is_book l = true ->
  forall counts,
  count_genres l counts w = (Ok (tally (map book_genre l) counts), w).
Proof.
  induction l as [|b l IH]; intros H counts; simpl; [reflexivity|].
  apply andb_prop in H as [Hb Hl].
  destruct (book_getitem b Hb) as (_ & _ & _ & Hg & _).
  rewrite run_lift, Hg. rewrite run_lift. cbn [genre_key].
  now rewrite (IH Hl).
Qed.

(** What the statistics page shows for a non-empty store of books. *)
Lemma display_stats_books (l : list value) (d : filesys) (p : list event) :
  l <> [] -> forallb is_book l = true ->
  display_stats (mkWorld (Some (VList l)) d p)
  = (Ok tt,
     mkWorld (Some (VList l)) d
       (p ++ [Header "Library Statistics";
              Metric "Total Books" (VInt (Z.of_nat (List.length l)));
              Metric "Books Read"
                (VInt (Z.of_nat (List.length (filter book_read l))));
              Metric "Percentage Read"
                (VStr (format_1f
                         (percentage_read (List.length (filter book_read l))
                            (List.length l)) ++ "%"));
              Subheader "Genre Distribution";
              BarChart (map fst (tally (map book_genre l) []))
                (map snd (tally (map book_genre l) []))])).
Proof.
  intros Hne Hb. unfold display_stats. do 2 step.
  destruct l as [|b0 l0]; [congruence|]. set (l := b0 :: l0) in *.
  change (truthy (VList l)) with true. cbn [negb].
  do 2 step. cbn [len]. do 2 step. cbn [iter].
  unfold bind at 1. rewrite (count_read_books l _ Hb).
  do 3 step. change (0 <? List.length l)%nat with true. cbv iota.
  do 3 step. cbn [iter]. unfold bind at 1. rewrite (count_genres_books l _ Hb).
  unfold emit. cbn [session disk page]. now rewrite <- !app_assoc.
Qed.

Lemma percentage_two_thirds :
  exists x, percentage_read 2 3 = NFloat x
    /\ Prim2SF x = S754_finite false 4691249611844266 (-46)
    /\ format_1f (NFloat x) = "66.7".
Proof.
  eexists. split; [reflexivity|]. split; vm_compute; reflexivity.
Qed.

(** C7.  For three books read, read and not read, the statistics page
    shows 3 as the total, 2 as the number read, and 66.7% as the
    percentage: the binary64 value of (2 / 3) * 100, which is
    4691249611844266 / 2^46 = 66.666..., written with one decimal. *)
Theorem display_stats_two_of_three (b1 b2 b3 : value) (d : filesys)
  (p : list event) :
  is_book b1 = true -> is_book b2 = true -> is_book b3 = true ->
  book_read b1 = true -> book_read b2 = true -> book_read b3 = false ->
  (exists genres counts,
     display_stats (mkWorld (Some (VList [b1; b2; b3])) d p)
     = (Ok tt,
        mkWorld (Some (VList [b1; b2; b3])) d
          (p ++ [Header "Library Statistics";
                 Metric "Total Books" (VInt 3);
                 Metric "Books Read" (VInt 2);
                 Metric "Percentage Read" (VStr "66.7%");
                 Subheader "Genre Distribution";
                 BarChart genres counts])))
  /\ (exists x, percentage_read 2 3 = NFloat x
        /\ Prim2SF x = S754_finite false 4691249611844266 (-46)
        /\ format_1f (NFloat x) = "66.7").
Proof.
  intros B1 B2 B3 R1 R2 R3. split; [|exact percentage_two_thirds].
  eexists. eexists.
  rewrite display_stats_books
    by (try congruence; cbn [forallb]; now rewrite B1, B2, B3).
  cbn [filter]. rewrite R1, R2, R3. cbn [List.length].
  destruct percentage_two_thirds as (x & -> & _ & ->).
  reflexivity.
Qed.

Lemma display_stats_two_of_three_witness :
  exists genres counts,
    display_stats
      (mkWorld
         (Some (VList [mk_book "The Hobbit" "J.R.R. Tolkien" 1937 "Fantasy" true;
                       mk_book "Dune" "Frank Herbert" 1965 "" true;
                       mk_book "Emma" "Jane Austen" 1815 "Fantasy" false]))
         (mkFilesys None None None) [])
    = (Ok tt,
       mkWorld
         (Some (VList [mk_book "The Hobbit" "J.R.R. Tolkien" 1937 "Fantasy" true;
                       mk_book "Dune" "Frank Herbert" 1965 "" true;
                       mk_book "Emma" "Jane Austen" 1815 "Fantasy" false]))
         (mkFilesys None None None)
         ([] ++ [Header "Library Statistics";
                 Metric "Total Books" (VInt 3);
                 Metric "Books Read" (VInt 2);
                 Metric "Percentage Read" (VStr "66.7%");
                 Subheader "Genre Distribution";
                 BarChart genres counts])).
Proof.
  exact (proj1 (display_stats_two_of_three
           (mk_book "The Hobbit" "J.R.R. Tolkien" 1937 "Fantasy" true)
           (mk_book "Dune" "Frank Herbert" 1965 "" true)
           (mk_book "Emma" "Jane Austen" 1815 "Fantasy" false)
           (mkFilesys None None None) []
           eq_refl eq_refl eq_refl eq_refl eq_refl eq_refl)).
Defined.

(** C6, as the script has it.  On an empty store the statistics page
    tells that the library is empty and shows no total, number read or
    percentage.  Nothing is divided: the page returns before line 146,
    whose expression is itself guarded and gives 0, written 0.0, when the
    total is 0. *)
Theorem display_stats_empty_store (lib : value) (d : filesys) (p : list event) :
  truthy lib = false ->
  display_stats (mkWorld (Some lib) d p)
  = (Ok tt,
     mkWorld (Some lib) d
       (p ++ [Header "Library Statistics"; Info "Your library is empty."]))
  /\ (forall read_books, percentage_read read_books 0 = NInt 0)
  /\ format_1f (NInt 0) = "0.0".
Proof.
  intros T. repeat split.
  unfold display_stats. do 2 step. rewrite T. cbn [negb].
  unfold emit. cbn [session disk page]. now rewrite <- app_assoc.
Qed.

Lemma display_stats_empty_store_witness :
  display_stats (mkWorld (Some (VList [])) (mkFilesys None None None) [])
  = (Ok tt,
     mkWorld (Some (VList [])) (mkFilesys None None None)
       ([] ++ [Header "Library Statistics"; Info "Your library is empty."])).
Proof.
  exact (proj1 (display_stats_empty_store (VList []) (mkFilesys None None None)
                  [] eq_refl)).
Defined.

(** C6 as the claim has it fails: on the empty store the page holds the
    header and the notice, and no metric at all. *)
Lemma display_stats_empty_shows_no_metric :
  page (snd (display_stats
               (mkWorld (Some (VList [])) (mkFilesys None None None) [])))
  = [Header "Library Statistics"; Info "Your library is empty."]
  /\ existsb is_metric
       (page (snd (display_stats
                     (mkWorld (Some (VList [])) (mkFilesys None None None) []))))
     = false.
Proof. split; reflexivity. Qed.

Lemma combine_fst_snd {A B} (l : list (A * B)) :
  combine (map fst l) (map snd l) = l.
Proof. induction l as [|[a b] l IH]; simpl; [reflexivity | now rewrite IH]. Qed.

Lemma in_genres (g : string) (l : list value) :
  In g (map book_genre l) <-> exists b, In b l /\ book_genre b = g.
Proof.
  rewrite in_map_iff. split; intros (b & H1 & H2); exists b; tauto.
Qed.

(** C8.  On a non-empty store of books the chart of the statistics page
    has one entry for every genre that occurs in the store, each genre
    once, and the count of an entry is the number of records with that
    genre.  The empty genre is a genre like any other: records with an
    empty genre are counted under the key that is the empty string. *)
Theorem display_stats_genre_counts (l : list value) (d : filesys)
  (p : list event) :
  l <> [] -> forallb is_book l = true ->
  exists genres counts,
    display_stats (mkWorld (Some (VList l)) d p)
    = (Ok tt,
       mkWorld (Some (VList l)) d
         (p ++ [Header "Library Statistics";
                Metric "Total Books" (VInt (Z.of_nat (List.length l)));
                Metric "Books Read"
                  (VInt (Z.of_nat (List.length (filter book_read l))));
                Metric "Percentage Read"
                  (VStr (format_1f
                           (percentage_read (List.length (filter book_read l))
                              (List.length l)) ++ "%"));
                Subheader "Genre Distribution";
                BarChart genres counts]))
    /\ List.length genres = List.length counts
    /\ distinct genres = true
    /\ (forall g, In g genres <-> exists b, In b l /\ book_genre b = g)
    /\ (forall g n, In (g, n) (combine genres counts)
                    <-> In g genres /\ n = Z.of_nat (occurrences g l))
    /\ ((exists b, In b l /\ book_genre b = "") ->
        In ("", Z.of_nat (occurrences "" l)) (combine genres counts)
        /\ 1 <= occurrences "" l).
Proof.
  intros Hne Hb.
  set (gc := tally (map book_genre l) []).
  assert (D : distinct (map fst gc) = true) by now apply tally_distinct.
  assert (G : forall g, dict_get gc g
                        = match occurrences g l with
                          | O => None
                          | S n => Some (Z.of_nat (S n))
                          end).
  { intros g. unfold gc. rewrite tally_get. reflexivity. }
  assert (K : forall g, In g (map fst gc) <-> In g (map book_genre l)).
  { intros g. rewrite (count_str_pos g (map book_genre l)).
    change (count_str g (map book_genre l)) with (occurrences g l).
    specialize (G g). split.
    - intros Hin. destruct (occurrences g l); [|lia].
      apply dict_get_none in G.
      assert (existsb (String.eqb g) (map fst gc) = true)
        by (apply existsb_exists; exists g; split; [exact Hin | apply String.eqb_refl]).
      congruence.
    - intros Ho. destruct (occurrences g l) as [|n]; [lia|].
      apply dict_get_in in G; [|exact D]. apply (in_map fst) in G. exact G. }
  assert (P : forall g n, In (g, n) gc
                          <-> In g (map fst gc) /\ n = Z.of_nat (occurrences g l)).
  { intros g n. rewrite (dict_get_in gc g n D), G. split.
    - destruct (occurrences g l) as [|m] eqn:E; [discriminate|].
      intros [= <-]. split; [|reflexivity].
      apply K, count_str_pos.
      change (count_str g (map book_genre l)) with (occurrences g l). lia.
    - intros [Hin ->]. apply K, count_str_pos in Hin.
      change (count_str g (map book_genre l)) with (occurrences g l) in Hin.
      destruct (occurrences g l); [lia | reflexivity]. }
  exists (map fst gc), (map snd gc). rewrite combine_fst_snd.
  split; [now apply display_stats_books|].
  split; [now rewrite !length_map|].
  split; [exact D|].
  split; [intros g; rewrite K; apply in_genres|].
  split; [exact P|].
  intros He. apply in_genres, K in He. split.
  - apply P. now split.
  - apply K, count_str_pos in He. exact He.
Qed.

Lemma display_stats_genre_counts_witness :
  exists genres counts,
    display_stats
      (mkWorld
         (Some (VList [mk_book "The Hobbit" "J.R.R. Tolkien" 1937 "Fantasy" true;
                       mk_book "Dune" "Frank Herbert" 1965 "" true;
                       mk_book "Emma" "Jane Austen" 1815 "Fantasy" false]))
         (mkFilesys None None None) [])
    = (Ok tt,
       mkWorld
         (Some (VList [mk_book "The Hobbit" "J.R.R. Tolkien" 1937 "Fantasy" true;
                       mk_book "Dune" "Frank Herbert" 1965 "" true;
                       mk_book "Emma" "Jane Austen" 1815 "Fantasy" false]))
         (mkFilesys None None None)
         [Header "Library Statistics";
          Metric "Total Books" (VInt 3);
          Metric "Books Read" (VInt 2);
          Metric "Percentage Read" (VStr "66.7%");
          Subheader "Genre Distribution";
          BarChart genres counts])
    /\ In ("Fantasy", 2%Z) (combine genres counts)
    /\ In ("", 1%Z) (combine genres counts).
Proof.
  destruct (display_stats_genre_counts
              [mk_book "The Hobbit" "J.R.R. Tolkien" 1937 "Fantasy" true;
               mk_book "Dune" "Frank Herbert" 1965 "" true;
               mk_book "Emma" "Jane Austen" 1815 "Fantasy" false]
              (mkFilesys None None None) []
              ltac:(discriminate) eq_refl)
    as (genres & counts & E & _ & _ & K & P & _).
  exists genres, counts. split; [|split].
  - rewrite E. vm_compute. reflexivity.
  - apply P. split; [apply K|reflexivity].
    eexists. split; [left; reflexivity | reflexivity].
  - apply P. split; [apply K|reflexivity].
    eexists. split; [right; left; reflexivity | reflexivity].
Defined.

(** ** The table of any list of records *)




(** *** The order of the keys does not matter *)









Lemma has_field_some (c : string) (rs : list (list (string * value))) :
  has_field c rs = true -> rs <> [].
Proof. intros H ->. discriminate H. Qed.







(** ** The theorems at concrete stores *)

Lemma add_book_witness :
  add_book (mkAddForm "Dune" "Frank Herbert" 1965 "" "Yes" true)
    (mkWorld (Some (VList [mk_book "Emma" "Jane Austen" 1815 "Novel" false]))
       (mkFilesys None None None) [])
  = (Ok tt,
     mkWorld
       (Some (VList [mk_book "Emma" "Jane Austen" 1815 "Novel" false;
                     mk_book "Dune" "Frank Herbert" 1965 "" true]))
       (mkFilesys
          (Some (Json.dumps
                   (VList [mk_book "Emma" "Jane Austen" 1815 "Novel" false;
                           mk_book "Dune" "Frank Herbert" 1965 "" true])))
          None None)
       [Header "Add a Book"; Success "Library saved to library.txt";
        Success "'Dune' by Frank Herbert added successfully!"]).
Proof.
  refine (proj1 (proj1
    (add_book_iff_title_and_author
       (mkAddForm "Dune" "Frank Herbert" 1965 "" "Yes" true)
       [mk_book "Emma" "Jane Austen" 1815 "Novel" false]
       (mkFilesys None None None) [] eq_refl) _)).
  split; discriminate.
Defined.

Lemma remove_book_witness :
  exists b,
    nth_error [mk_book "Emma" "Jane Austen" 1815 "Novel" false;
               mk_book "Dune" "Frank Herbert" 1965 "" true] 1 = Some b
    /\ remove_book 1 true
         (mkWorld
            (Some (VList [mk_book "Emma" "Jane Austen" 1815 "Novel" false;
                          mk_book "Dune" "Frank Herbert" 1965 "" true]))
            (mkFilesys None None None) [])
       = (Ok tt,
          mkWorld (Some (VList [mk_book "Emma" "Jane Austen" 1815 "Novel" false]))
            (mkFilesys
               (Some (Json.dumps
                        (VList [mk_book "Emma" "Jane Austen" 1815 "Novel" false])))
               None None)
            [Header "Remove a Book";
             Selectbox "Select a book to remove:"
               ["Emma by Jane Austen"; "Dune by Frank Herbert"];
             Success "Library saved to library.txt";
             Success ("'" ++ book_title b ++ "' removed successfully!")]).
Proof.
  destruct (remove_book_at_valid_index
              [mk_book "Emma" "Jane Austen" 1815 "Novel" false;
               mk_book "Dune" "Frank Herbert" 1965 "" true]
              (mkFilesys None None None) [] 1 eq_refl
              (le_n 2))
    as (b & N & _ & E & _).
  exists b. split; [exact N | exact E].
Defined.

Lemma remove_book_invalid_witness :
  remove_book 5 true
    (mkWorld (Some (VList [mk_book "Emma" "Jane Austen" 1815 "Novel" false]))
       (mkFilesys (Some "[]") None None) [])
  = (Raise IndexError,
     mkWorld (Some (VList [mk_book "Emma" "Jane Austen" 1815 "Novel" false]))
       (mkFilesys (Some "[]") None None)
       ([] ++ [Header "Remove a Book";
               Selectbox "Select a book to remove:" ["Emma by Jane Austen"]])).
Proof.
  refine (proj2 (proj2 (proj2
    (remove_book_invalid_is_noop
       (VList [mk_book "Emma" "Jane Austen" 1815 "Novel" false])
       (mkFilesys (Some "[]") None None) [] 5 true _)))
    _ eq_refl _ eq_refl eq_refl).
  - intros l [= <-]. simpl. lia.
  - discriminate.
Defined.

End AppFacts.

(* ================================================================== *)
(** * Facts about whole runs *)
(* ================================================================== *)

Module RunFacts.
Import Py App Spec SpecMore AppFacts.

(** ** Pages that only show *)

Lemma shows_only_bind {A B} (m : M A) (k : A -> M B) :
  shows_only m -> (forall a, shows_only (k a)) -> shows_only (bind m k).
Proof.
  intros Hm Hk w. unfold bind. destruct (Hm w) as [Hs Hd].
  destruct (m w) as [[a|e|] w1]; simpl in *; [|now split|now split].
  destruct (Hk a w1) as [Hs' Hd']. split; congruence.
Qed.

Lemma shows_only_emit (e : event) : shows_only (emit e).
Proof. intros w. now split. Qed.

Lemma shows_only_lift {A} (r : result A) : shows_only (lift r).
Proof. intros w. now split. Qed.

Lemma shows_only_ret {A} (a : A) : shows_only (ret a).
Proof. intros w. now split. Qed.

Lemma shows_only_get_library : shows_only get_library.
Proof.
  intros w. unfold get_library. destruct (session w) eqn:E; simpl; now split.
Qed.

Ltac shows :=
  repeat first
    [ apply shows_only_emit | apply shows_only_lift | apply shows_only_ret
    | apply shows_only_get_library
    | apply shows_only_bind; [|intros ?]
    | match goal with
      | |- shows_only (if ?b then _ else _) => destruct b
      | |- shows_only (match ?o with Some _ => _ | None => _ end) => destruct o
      end ].

Lemma shows_only_for_each {A B} (f : A -> M B) (l : list A) :
  (forall x, shows_only (f x)) -> shows_only (for_each f l).
Proof.
  intros Hf. induction l as [|x l IH]; simpl; shows; [apply Hf | exact IH].
Qed.

Lemma shows_only_option_label (x : nat) : shows_only (option_label x).
Proof. unfold option_label. shows. Qed.

Lemma shows_only_display_books (o : option value) : shows_only (display_books o).
Proof. unfold display_books. shows. Qed.

Lemma shows_only_matches (by_ term : string) (b : value) :
  shows_only (matches by_ term b).
Proof. unfold matches. shows. Qed.

Lemma shows_only_search_loop (by_ term : string) (l acc : list value) :
  shows_only (search_loop by_ term l acc).
Proof.
  revert acc. induction l as [|b l IH]; intros acc; simpl; shows. apply IH.
Qed.

Lemma shows_only_count_read (l : list value) : shows_only (count_read l).
Proof. induction l as [|b l IH]; simpl; shows. exact IH. Qed.

Lemma shows_only_count_genres (l : list value) (acc : list (string * Z)) :
  shows_only (count_genres l acc).
Proof. revert acc. induction l as [|b l IH]; intros acc; simpl; shows. apply IH. Qed.

Lemma shows_only_search_book (by_ term : string) : shows_only (search_book by_ term).
Proof.
  unfold search_book.
  shows; first [apply shows_only_search_loop | apply shows_only_display_books].
Qed.

Lemma shows_only_display_stats : shows_only display_stats.
Proof.
  unfold display_stats. shows;
    first [apply shows_only_count_read | apply shows_only_count_genres].
Qed.

Lemma shows_only_remove_page (i : nat) : shows_only (remove_book i false).
Proof.
  unfold remove_book. cbv iota. shows.
  apply shows_only_for_each, shows_only_option_label.
Qed.

(** X1.  The list page, the search page, the statistics page and the
    remove page whose button is not pressed change neither the store nor
    the file, whatever the store holds and however the run ends (also when
    it raises on a store that is not a list of books). *)
Theorem pages_that_only_show (w : world) :
  (forall o,
     session (snd (display_books o w)) = session w
     /\ disk (snd (display_books o w)) = disk w)
  /\ (forall search_by term,
        session (snd (search_book search_by term w)) = session w
        /\ disk (snd (search_book search_by term w)) = disk w)
  /\ (session (snd (display_stats w)) = session w
      /\ disk (snd (display_stats w)) = disk w)
  /\ (forall i,
        session (snd (remove_book i false w)) = session w
        /\ disk (snd (remove_book i false w)) = disk w).
Proof.
  repeat split.
  all: first [ apply shows_only_display_books | apply shows_only_search_book
             | apply shows_only_display_stats | apply shows_only_remove_page ].
Qed.

(** ** Saving and loading when things go wrong *)

(** X2.  [save_library] never raises and never touches the store.  When
    the file cannot be opened for writing the file stays as it is;
    otherwise it holds the JSON text of the store (and is left empty if
    the session has no store, the exception being caught after the file
    was opened).  The text written holds the store: for a store whose
    dicts have no key twice it loads back to the store. *)
Theorem save_library_never_raises (w : world) :
  fst (save_library w) = Ok tt
  /\ session (snd (save_library w)) = session w
  /\ file (disk (snd (save_library w)))
     = match write_fault (disk w), session w with
       | Some _, _ => file (disk w)
       | None, Some v => Some (Json.dumps v)
       | None, None => Some EmptyString
       end
  /\ (write_fault (disk w) <> None -> disk (snd (save_library w)) = disk w)
  /\ (forall v,
        write_fault (disk w) = None -> session w = Some v -> wf v = true ->
        exists text,
          file (disk (snd (save_library w))) = Some text
          /\ Json.loads text = Ok v).
Proof.
  split; [|split; [|split; [|split]]].
  1-4: destruct w as [[v|] [f rf [msg|]] p]; cbn; congruence.
  intros v Hw Hs W. destruct w as [s d p]. cbn [session disk] in *. subst s.
  rewrite save_library_writes by exact Hw. cbn [snd disk file].
  exists (Json.dumps v). split; [reflexivity | now apply JsonFacts.loads_dumps].
Qed.

Lemma save_library_never_raises_witness :
  disk (snd (save_library
               (mkWorld (Some (VList []))
                  (mkFilesys (Some "[]") None (Some "Permission denied")) [])))
  = mkFilesys (Some "[]") None (Some "Permission denied").
Proof.
  refine (proj1 (proj2 (proj2 (proj2
    (save_library_never_raises
       (mkWorld (Some (VList []))
          (mkFilesys (Some "[]") None (Some "Permission denied")) []))))) _).
  discriminate.
Defined.

(** X3.  The load at the start of a session never stops the run.  Without
    a file the store is empty and nothing is reported; when the file cannot
    be read, or its text is not JSON, the error is reported and the store
    is empty.  The file is left as it is. *)
Theorem startup_falls_back_to_empty (d : filesys) (p : list event) :
  (file d = None ->
     startup (mkWorld None d p) = (Ok tt, mkWorld (Some (VList [])) d p))
  /\ (forall text msg,
        file d = Some text -> read_fault d = Some msg ->
        startup (mkWorld None d p)
        = (Ok tt,
           mkWorld (Some (VList [])) d
             (p ++ [Error "Error loading library: " (OSError msg)])))
  /\ (forall text e,
        file d = Some text -> read_fault d = None ->
        Json.loads text = Raise e ->
        startup (mkWorld None d p)
        = (Ok tt,
           mkWorld (Some (VList [])) d
             (p ++ [Error "Error loading library: " e]))).
Proof.
  split; [|split].
  - intros Hf. destruct d as [f rf wfault]. simpl in Hf. subst f. reflexivity.
  - intros text msg Hf Hr. destruct d as [f rf wfault]. simpl in Hf, Hr.
    subst f rf. reflexivity.
  - intros text e Hf Hr He. rewrite (startup_load d p text Hf Hr). now rewrite He.
Qed.

Lemma startup_falls_back_witness :
  startup (mkWorld None (mkFilesys (Some "[1,]") None None) [])
  = (Ok tt,
     mkWorld (Some (VList [])) (mkFilesys (Some "[1,]") None None)
       ([] ++ [Error "Error loading library: " JSONDecodeError])).
Proof.
  exact (proj2 (proj2 (startup_falls_back_to_empty
                         (mkFilesys (Some "[1,]") None None) []))
           "[1,]" JSONDecodeError eq_refl eq_refl eq_refl).
Defined.

(** ** What is loaded can be saved and loaded again *)

Lemma literal_value (word : string) (x : result value) (s : string)
  (v : value) (r : string) :
  Json.literal word x s = Ok (v, r) -> x = Ok v.
Proof.
  unfold Json.literal. destruct (starts_with word s); [|discriminate].
  destruct x; simpl; [|discriminate|discriminate]. now intros [= -> _].
Qed.

Lemma match_number_int (s : string) (v : value) (r : string) :
  Json.match_number s = Ok (v, r) -> exists z, v = VInt z.
Proof.
  unfold Json.match_number, Json.finish_number.
  destruct s as [|c s']; [discriminate|].
  destruct (Ascii.eqb c "-").
  - destruct s' as [|c1 s2]; [discriminate|].
    destruct (Ascii.eqb c1 "0").
    + destruct (Json.float_tail s2); [discriminate|]. intros [= <- _]. eauto.
    + destruct (Json.is_digit c1); [|discriminate].
      destruct (Json.scan_digits (String c1 s2)) as [u r0].
      destruct (Json.float_tail r0); [discriminate|]. intros [= <- _]. eauto.
  - destruct (Ascii.eqb c "0").
    + destruct (Json.float_tail s'); [discriminate|]. intros [= <- _]. eauto.
    + destruct (Json.is_digit c); [|discriminate].
      destruct (Json.scan_digits (String c s')) as [u r0].
      destruct (Json.float_tail r0); [discriminate|]. intros [= <- _]. eauto.
Qed.

Lemma wf_values_set (d : list (string * value)) (k : string) (v : value) :
  forallb (fun kv : string * value => wf (snd kv)) d = true -> wf v = true ->
  forallb (fun kv : string * value => wf (snd kv)) (dict_set d k v) = true.
Proof.
  intros Hd Hv. induction d as [|[k' v'] d IH]; simpl in *.
  - now rewrite Hv.
  - apply andb_prop in Hd as [H1 H2].
    destruct (String.eqb k' k); simpl; [now rewrite Hv, H2 | now rewrite H1, IH].
Qed.

Lemma dict_of_pairs_wf (kvs : list (string * value)) :
  forallb (fun kv : string * value => wf (snd kv)) kvs = true ->
  wf (VDict (Json.dict_of_pairs kvs)) = true.
Proof.
  intros H. unfold Json.dict_of_pairs.
  assert (G : forall acc,
            distinct (map fst acc) = true ->
            forallb (fun kv : string * value => wf (snd kv)) acc = true ->
            wf (VDict (fold_left (fun d kv => dict_set d (fst kv) (snd kv)) kvs acc))
            = true).
  { induction kvs as [|[k v] kvs IH]; intros acc Hd Ha; simpl.
    - now rewrite Hd, Ha.
    - simpl in H. apply andb_prop in H as [Hv Hk].
      apply (IH Hk); [now apply distinct_set | now apply wf_values_set]. }
  now apply G.
Qed.

(** Every value the scanner returns has each key once in every dict. *)
Lemma scan_wf (n : nat) :
  (forall s v r, Json.scan_once n s = Ok (v, r) -> wf v = true)
  /\ (forall s vs r, Json.elements n s = Ok (vs, r) -> forallb wf vs = true)
  /\ (forall s kvs r, Json.members n s = Ok (kvs, r) ->
        forallb (fun kv : string * value => wf (snd kv)) kvs = true).
Proof.
  induction n as [|n (IHs & IHe & IHm)]; [repeat split; discriminate|].
  split; [|split].
  - intros [|c s'] v r; [discriminate|]. cbn [Json.scan_once].
    destruct (Ascii.eqb c Json.dquote).
    { intros H. apply JsonFacts.rbind_ok in H as (q & _ & [= <- _]). reflexivity. }
    destruct (Ascii.eqb c "{").
    { destruct (Json.peek "}" (Json.skip_ws s')).
      - intros [= <- _]. reflexivity.
      - intros H. apply JsonFacts.rbind_ok in H as ([kvs r'] & E & [= <- _]).
        apply dict_of_pairs_wf. exact (IHm _ _ _ E). }
    destruct (Ascii.eqb c "[").
    { destruct (Json.peek "]" (Json.skip_ws s')).
      - intros [= <- _]. reflexivity.
      - intros H. apply JsonFacts.rbind_ok in H as ([vs r'] & E & [= <- _]).
        exact (IHe _ _ _ E). }
    destruct (Ascii.eqb c "n");
      [intros H; apply literal_value in H; now injection H as <-|].
    destruct (Ascii.eqb c "t");
      [intros H; apply literal_value in H; now injection H as <-|].
    destruct (Ascii.eqb c "f");
      [intros H; apply literal_value in H; now injection H as <-|].
    destruct (Ascii.eqb c "N");
      [intros H; apply literal_value in H; discriminate|].
    destruct (Ascii.eqb c "I");
      [intros H; apply literal_value in H; discriminate|].
    destruct (starts_with "-Infinity" (String c s')); [discriminate|].
    intros H. apply match_number_int in H as [z ->]. reflexivity.
  - intros s vs r. rewrite JsonFacts.elements_step. intros H.
    apply JsonFacts.rbind_ok in H as ([v r0] & E & H). apply IHs in E.
    cbn [fst snd] in H.
    destruct (Json.peek "]" (Json.skip_ws r0)).
    + injection H as <- _. simpl. now rewrite E.
    + destruct (Json.peek "," (Json.skip_ws r0)); [|discriminate].
      apply JsonFacts.rbind_ok in H as ([vs' r2] & E' & [= <- _]).
      simpl. rewrite E. exact (IHe _ _ _ E').
  - intros s kvs r. cbn [Json.members].
    destruct (Json.peek Json.dquote s); [|discriminate]. intros H.
    apply JsonFacts.rbind_ok in H as ([k r1] & _ & H). cbn [fst snd] in H.
    destruct (Json.peek ":" (Json.skip_ws r1)); [|discriminate].
    apply JsonFacts.rbind_ok in H as ([v r0] & E & H). apply IHs in E.
    cbn [fst snd] in H.
    destruct (Json.peek "}" (Json.skip_ws r0)).
    + injection H as <- _. simpl. now rewrite E.
    + destruct (Json.peek "," (Json.skip_ws r0)); [|discriminate].
      apply JsonFacts.rbind_ok in H as ([kvs' r2] & E' & [= <- _]).
      simpl. rewrite E. exact (IHm _ _ _ E').
Qed.

Lemma loads_wf (text : string) (v : value) :
  Json.loads text = Ok v -> wf v = true.
Proof.
  unfold Json.loads. intros H.
  apply JsonFacts.rbind_ok in H as ([v' r] & E & H). cbn [fst snd] in H.
  destruct (Json.skip_ws r); [|discriminate]. injection H as <-.
  exact (proj1 (scan_wf _) _ _ _ E).
Qed.

(** X4.  Whatever store a session loaded from the file, saving it and
    starting a new session gives the same store again, be it a list of
    books or not: the file then holds the text [json.dump] writes for it,
    and that text loads back to it. *)
Theorem load_save_load (d : filesys) (text : string) (v : value)
  (p q : list event) :
  file d = Some text -> read_fault d = None -> write_fault d = None ->
  Json.loads text = Ok v ->
  let loaded := snd (startup (mkWorld None d p)) in
  let saved_ := snd (save_library loaded) in
  session loaded = Some v
  /\ file (disk saved_) = Some (Json.dumps v)
  /\ Json.loads (Json.dumps v) = Ok v
  /\ session (snd (startup (mkWorld None (disk saved_) q))) = Some v.
Proof.
  intros Hf Hr Hw Hl loaded saved_. subst saved_ loaded.
  pose proof (loads_wf text v Hl) as W.
  rewrite (startup_load d p text Hf Hr), Hl. cbn [snd session].
  rewrite save_library_writes by exact Hw. cbn [snd disk file].
  rewrite Hr.
  rewrite (startup_load _ q (Json.dumps v)) by reflexivity.
  rewrite (JsonFacts.loads_dumps v W). repeat split.
Qed.

Lemma load_save_load_witness :
  session
    (snd (startup
            (mkWorld None
               (disk (snd (save_library
                             (snd (startup
                                     (mkWorld None
                                        (mkFilesys (Some " [ {  } ,-0 , [null] ]")
                                           None None) [])))))) [])))
  = Some (VList [VDict []; VInt 0; VList [VNone]]).
Proof.
  exact (proj2 (proj2 (proj2
    (load_save_load (mkFilesys (Some " [ {  } ,-0 , [null] ]") None None)
       " [ {  } ,-0 , [null] ]" (VList [VDict []; VInt 0; VList [VNone]])
       [] [] eq_refl eq_refl eq_refl eq_refl)))).
Defined.

(** ** One run on a store of books *)

Lemma new_book_is_book (f : add_form) : is_book (new_book f) = true.
Proof. reflexivity. Qed.

Lemma valid_form_spec (f : add_form) :
  valid_form f = true
  <-> submitted f = true /\ title f <> "" /\ author f <> "".
Proof.
  unfold valid_form. rewrite !andb_true_iff, !negb_true_iff.
  split.
  - intros [[Hs Ht] Ha]. repeat split; try exact Hs.
    + intros E. rewrite E in Ht. discriminate.
    + intros E. rewrite E in Ha. discriminate.
  - intros (Hs & Ht & Ha). repeat split; try exact Hs.
    + now apply String.eqb_neq.
    + now apply String.eqb_neq.
Qed.

Lemma add_book_run (f : add_form) (l : list value) (d : filesys)
  (p : list event) :
  add_book f (mkWorld (Some (VList l)) d p)
  = if valid_form f then
      (Ok tt,
       mkWorld (Some (VList (l ++ [new_book f])))
         (saved (VList (l ++ [new_book f])) d)
         (p ++ [Header "Add a Book"; save_report d;
                Success ("'" ++ title f ++ "' by " ++ author f
                         ++ " added successfully!")]))
    else
      (Ok tt,
       mkWorld (Some (VList l)) d
         (p ++ Header "Add a Book"
            :: (if submitted f then [Warning "Title and author are required!"]
                else []))).
Proof.
  destruct (valid_form f) eqn:V.
  - apply valid_form_spec in V as (Hs & Ht & Ha). now apply add_book_valid.
  - destruct (submitted f) eqn:Hs.
    + rewrite add_book_invalid; [reflexivity | exact Hs |].
      unfold valid_form in V. rewrite Hs in V. cbn [andb] in V.
      apply andb_false_iff in V as [V | V]; apply negb_false_iff in V;
        apply String.eqb_eq in V; auto.
    + unfold add_book. rewrite run_emit. rewrite Hs. reflexivity.
Qed.

Lemma books_snoc (l : list value) (b : value) :
  forallb is_book l = true -> is_book b = true ->
  forallb is_book (l ++ [b]) = true.
Proof. intros Hl Hb. rewrite forallb_app, Hl. simpl. now rewrite Hb. Qed.

Lemma books_without (l : list value) (k : nat) :
  forallb is_book l = true ->
  forallb is_book (firstn k l ++ skipn (S k) l) = true.
Proof.
  intros H. apply forallb_forall. intros b Hb.
  rewrite forallb_forall in H. apply H.
  apply in_app_or in Hb as [Hb | Hb].
  - rewrite <- (firstn_skipn k l). apply in_or_app. now left.
  - rewrite <- (firstn_skipn (S k) l). apply in_or_app. now right.
Qed.

Lemma keeps_store_shows {A} (m : M A) : shows_only m -> keeps_store m.
Proof. intros H w. apply H. Qed.

Lemma keeps_store_bind {A B} (m : M A) (k : A -> M B) :
  keeps_store m -> (forall a, keeps_store (k a)) -> keeps_store (bind m k).
Proof.
  intros Hm Hk w. unfold bind. specialize (Hm w).
  destruct (m w) as [[a|e|] w1]; simpl in *; [|assumption|assumption].
  now rewrite (Hk a w1).
Qed.

Lemma keeps_store_save : keeps_store save_library.
Proof. intros [[v|] [f rf [msg|]] p]; reflexivity. Qed.

Lemma view_all_keeps_store (save : bool) :
  keeps_store (emit (Header "Your Library") ;;
               display_books None ;;
               if save then save_library else ret tt).
Proof.
  apply keeps_store_bind; [apply keeps_store_shows, shows_only_emit | intros _].
  apply keeps_store_bind;
    [apply keeps_store_shows, shows_only_display_books | intros _].
  destruct save; [apply keeps_store_save | apply keeps_store_shows, shows_only_ret].
Qed.

(** In a session that has its store the script is [main] on a fresh page. *)
Lemma script_in_session (i : inputs) (v : value) (d : filesys) (p : list event) :
  script i (mkWorld (Some v) d p) = main i (mkWorld (Some v) d []).
Proof. reflexivity. Qed.

(** X5.  Whatever the widgets return, a run on a store of Book records
    leaves a store of Book records: the store it had, or that store with
    the one new book at the end, or that store without one of its
    records. *)
Theorem run_keeps_a_store_of_books (i : inputs) (l : list value)
  (d : filesys) (p : list event) :
  forallb is_book l = true ->
  exists l',
    session (snd (script i (mkWorld (Some (VList l)) d p))) = Some (VList l')
    /\ forallb is_book l' = true
    /\ (l' = l
        \/ l' = (l ++ [new_book (form i)])%list
        \/ exists k, k < List.length l
                     /\ l' = (firstn k l ++ skipn (S k) l)%list).
Proof.
  intros Hb. rewrite script_in_session. unfold main.
  assert (Same : forall m : M unit, keeps_store m ->
            exists l',
              session (snd (m (mkWorld (Some (VList l)) d []))) = Some (VList l')
              /\ forallb is_book l' = true
              /\ (l' = l
                  \/ l' = (l ++ [new_book (form i)])%list
                  \/ exists k, k < List.length l
                               /\ l' = (firstn k l ++ skipn (S k) l)%list)).
  { intros m Hm. exists l. rewrite (Hm _). auto. }
  destruct (String.eqb (nav i) "View All Books");
    [apply Same, view_all_keeps_store|].
  destruct (String.eqb (nav i) "Add a Book").
  { rewrite add_book_run. destruct (valid_form (form i)).
    - exists (l ++ [new_book (form i)])%list. cbn [snd session].
      split; [reflexivity|]. split; [|auto].
      apply books_snoc; [exact Hb | apply new_book_is_book].
    - exists l. cbn [snd session]. auto. }
  destruct (String.eqb (nav i) "Remove a Book").
  { destruct l as [|b0 l0] eqn:El.
    - rewrite remove_book_empty by reflexivity. exists []. cbn [snd session]. auto.
    - rewrite <- El in *. rewrite remove_book_books by (subst l; congruence || assumption).
      cbv zeta. destruct (remove_clicked i); [|exists l; cbn [snd session]; auto].
      destruct (nth_error l (book_to_remove i)) eqn:N;
        [|exists l; cbn [snd session]; auto].
      exists (firstn (book_to_remove i) l ++ skipn (S (book_to_remove i)) l)%list.
      cbn [snd session]. split; [reflexivity|].
      split; [now apply books_without|]. right. right.
      exists (book_to_remove i). split; [|reflexivity].
      apply nth_error_Some. congruence. }
  destruct (String.eqb (nav i) "Search for Books");
    [apply Same, keeps_store_shows, shows_only_search_book|].
  destruct (String.eqb (nav i) "Statistics");
    [apply Same, keeps_store_shows, shows_only_display_stats|].
  apply Same, keeps_store_shows, shows_only_ret.
Qed.

Lemma run_keeps_a_store_of_books_witness :
  exists l',
    session
      (snd (script
              (mkInputs "Remove a Book" false
                 (mkAddForm "" "" 2023 "" "No" false) 0 true "Title" "")
              (mkWorld
                 (Some (VList [mk_book "Emma" "Jane Austen" 1815 "Novel" false;
                               mk_book "Dune" "Frank Herbert" 1965 "" true]))
                 (mkFilesys None None None) [])))
    = Some (VList l')
    /\ forallb is_book l' = true.
Proof.
  destruct (run_keeps_a_store_of_books
              (mkInputs "Remove a Book" false
                 (mkAddForm "" "" 2023 "" "No" false) 0 true "Title" "")
              [mk_book "Emma" "Jane Austen" 1815 "Novel" false;
               mk_book "Dune" "Frank Herbert" 1965 "" true]
              (mkFilesys None None None) [] eq_refl)
    as (l' & E & B & _).
  exists l'. split; [exact E | exact B].
Defined.

(** ** Adding and removing together *)

Lemma without_last {A} (l : list A) (b : A) :
  (firstn (List.length l) (l ++ [b]) ++ skipn (S (List.length l)) (l ++ [b]))%list
  = l.
Proof.
  induction l as [|x l IH]; [reflexivity|].
  change ((x :: firstn (List.length l) (l ++ [b]))
          ++ skipn (S (List.length l)) (l ++ [b]) = x :: l)%list.
  rewrite <- app_comm_cons. f_equal. exact IH.
Qed.

Lemma nth_error_last {A} (l : list A) (b : A) :
  nth_error (l ++ [b]) (List.length l) = Some b.
Proof. rewrite nth_error_app2 by lia. now rewrite Nat.sub_diag. Qed.

(** X6.  Removing the book that was just added gives back the store as it
    was before the addition, and saves it: on a store of books, after a
    valid form is added, the remove page at the last position with its
    button pressed leaves the old store, tells the title of the book of
    the form, and the file (when it can be written) holds the text of the
    old store, a text that loads back to the old store. *)
Theorem add_then_remove_last (f : add_form) (l : list value) (d : filesys)
  (p : list event) :
  forallb is_book l = true -> valid_form f = true ->
  let added := snd (add_book f (mkWorld (Some (VList l)) d p)) in
  let run := remove_book (List.length l) true added in
  fst run = Ok tt
  /\ session (snd run) = Some (VList l)
  /\ (write_fault d = None ->
      file (disk (snd run)) = Some (Json.dumps (VList l)))
  /\ In (Success ("'" ++ title f ++ "' removed successfully!"))
        (page (snd run))
  /\ (write_fault d = None ->
      exists text,
        file (disk (snd run)) = Some text /\ Json.loads text = Ok (VList l)).
Proof.
  intros Hb Hv added run. subst run added.
  rewrite add_book_run, Hv. cbn [snd].
  rewrite remove_book_books;
    [| now destruct l
     | apply books_snoc; [exact Hb | apply new_book_is_book]].
  cbv zeta. rewrite nth_error_last, without_last. cbn [fst snd session disk page].
  split; [reflexivity|]. split; [reflexivity|]. split; [|split].
  - intros Hw. unfold saved. rewrite Hw. cbn. reflexivity.
  - apply in_or_app. right. right. left. reflexivity.
  - intros Hw. exists (Json.dumps (VList l)). split.
    + unfold saved. rewrite Hw. cbn. reflexivity.
    + now apply JsonFacts.loads_dumps, books_wf.
Qed.

Lemma add_then_remove_last_witness :
  session
    (snd (remove_book 1 true
            (snd (add_book (mkAddForm "Dune" "Frank Herbert" 1965 "" "Yes" true)
                    (mkWorld
                       (Some (VList [mk_book "Emma" "Jane Austen" 1815 "Novel"
                                       false]))
                       (mkFilesys None None None) [])))))
  = Some (VList [mk_book "Emma" "Jane Austen" 1815 "Novel" false]).
Proof.
  exact (proj1 (proj2
    (add_then_remove_last (mkAddForm "Dune" "Frank Herbert" 1965 "" "Yes" true)
       [mk_book "Emma" "Jane Austen" 1815 "Novel" false]
       (mkFilesys None None None) [] eq_refl eq_refl))).
Defined.

Lemma add_all_store (fs : list add_form) :
  forallb valid_form fs = true ->
  forall l d p,
  fst (add_all fs (mkWorld (Some (VList l)) d p)) = Ok tt
  /\ session (snd (add_all fs (mkWorld (Some (VList l)) d p)))
     = Some (VList (l ++ map new_book fs))
  /\ disk (snd (add_all fs (mkWorld (Some (VList l)) d p)))
     = match fs, write_fault d with
       | _ :: _, None =>
           mkFilesys (Some (Json.dumps (VList (l ++ map new_book fs))))
             (read_fault d) None
       | _, _ => d
       end.
Proof.
  induction fs as [|f fs IH]; intros Hv l d p.
  - simpl. rewrite app_nil_r. repeat split.
  - simpl in Hv. apply andb_prop in Hv as [Hf Hfs].
    cbn [add_all]. unfold bind. rewrite add_book_run, Hf. cbv beta iota.
    destruct (IH Hfs (l ++ [new_book f])%list
                (saved (VList (l ++ [new_book f])) d)
                (p ++ [Header "Add a Book"; save_report d;
                       Success ("'" ++ title f ++ "' by " ++ author f
                                ++ " added successfully!")])%list)
      as (E1 & E2 & E3).
    rewrite E1, E2, E3. cbn [map]. rewrite <- !app_assoc. cbn [app].
    repeat split. unfold saved.
    destruct (write_fault d) as [msg|] eqn:W.
    + rewrite W. now destruct fs.
    + cbn [write_fault read_fault]. now destruct fs.
Qed.

(** X7.  Valid forms added one after the other are all appended, in the
    order they were added, behind the records the store had: the store
    grows by one record for each form, and after the last addition the
    file (when it can be written) holds the text of the whole store, a
    text that loads back to the whole store when the dicts of the old
    records have no key twice. *)
Theorem add_all_appends_in_order (fs : list add_form) (l : list value)
  (d : filesys) (p : list event) :
  forallb valid_form fs = true ->
  let run := add_all fs (mkWorld (Some (VList l)) d p) in
  fst run = Ok tt
  /\ session (snd run) = Some (VList (l ++ map new_book fs))
  /\ List.length (l ++ map new_book fs) = List.length l + List.length fs
  /\ firstn (List.length l) (l ++ map new_book fs) = l
  /\ (write_fault d = None -> fs <> [] ->
      file (disk (snd run)) = Some (Json.dumps (VList (l ++ map new_book fs))))
  /\ (write_fault d = None -> fs <> [] -> wf (VList l) = true ->
      exists text,
        file (disk (snd run)) = Some text
        /\ Json.loads text = Ok (VList (l ++ map new_book fs))).
Proof.
  intros Hv run. subst run.
  destruct (add_all_store fs Hv l d p) as (E1 & E2 & E3).
  assert (F : write_fault d = None -> fs <> [] ->
              file (disk (snd (add_all fs (mkWorld (Some (VList l)) d p))))
              = Some (Json.dumps (VList (l ++ map new_book fs)))).
  { intros Hw Hne. rewrite E3, Hw. destruct fs; [congruence | reflexivity]. }
  split; [exact E1|]. split; [exact E2|]. split; [|split; [|split]].
  - now rewrite length_app, length_map.
  - rewrite firstn_app, Nat.sub_diag, firstn_all. simpl. apply app_nil_r.
  - exact F.
  - intros Hw Hne W. exists (Json.dumps (VList (l ++ map new_book fs))).
    split; [now apply F|]. apply JsonFacts.loads_dumps.
    cbn [wf] in *. rewrite forallb_app, W. cbn [andb].
    apply forallb_forall. intros b Hb. apply in_map_iff in Hb as (f & <- & _).
    reflexivity.
Qed.

Lemma add_all_appends_witness :
  session
    (snd (add_all [mkAddForm "Dune" "Frank Herbert" 1965 "" "Yes" true;
                   mkAddForm "Emma" "Jane Austen" 1815 "Novel" "No" true]
            (mkWorld (Some (VList [])) (mkFilesys None None None) [])))
  = Some (VList ([] ++ map new_book
                   [mkAddForm "Dune" "Frank Herbert" 1965 "" "Yes" true;
                    mkAddForm "Emma" "Jane Austen" 1815 "Novel" "No" true])).
Proof.
  exact (proj1 (proj2
    (add_all_appends_in_order
       [mkAddForm "Dune" "Frank Herbert" 1965 "" "Yes" true;
        mkAddForm "Emma" "Jane Austen" 1815 "Novel" "No" true]
       [] (mkFilesys None None None) [] eq_refl))).
Defined.

(** ** Whole runs of the script *)

Lemma main_view_all (i : inputs) (w : world) :
  nav i = "View All Books" ->
  main i w
  = (emit (Header "Your Library") ;;
     display_books None ;;
     if save_clicked i then save_library else ret tt) w.
Proof. intros H. unfold main. now rewrite H. Qed.

Lemma main_add (i : inputs) (w : world) :
  nav i = "Add a Book" -> main i w = add_book (form i) w.
Proof. intros H. unfold main. now rewrite H. Qed.

Lemma script_fresh (j : inputs) (d : filesys) (q : list event)
  (text : string) :
  file d = Some text -> read_fault d = None ->
  script j (mkWorld None d q)
  = match Json.loads text with
    | Ok v => main j (mkWorld (Some v) d [Success "Library loaded from library.txt"])
    | Raise e =>
        main j (mkWorld (Some (VList [])) d [Error "Error loading library: " e])
    | Unmodelled => (Unmodelled, mkWorld (Some (VList [])) d [])
    end.
Proof.
  intros Hf Hr. unfold script, bind. cbn [session disk].
  rewrite (startup_load d [] text Hf Hr).
  destruct (Json.loads text); reflexivity.
Qed.

(** X8.  The list page of a store of books shows one table with a row for
    each book, in the order of the store, or the notice that there are no
    books; the store stays as it is, and the file is written only when the
    save button is pressed. *)
Theorem view_all_page (i : inputs) (l : list value) (d : filesys)
  (p : list event) :
  nav i = "View All Books" -> forallb is_book l = true ->
  main i (mkWorld (Some (VList l)) d p)
  = (Ok tt,
     mkWorld (Some (VList l))
       (if save_clicked i then saved (VList l) d else d)
       (p ++ Header "Your Library"
          :: match l with
             | [] => Info "No books to display."
             | _ :: _ => Dataframe (books_table l)
             end
          :: (if save_clicked i then [save_report d] else []))).
Proof.
  intros Hn Hb. rewrite (main_view_all i _ Hn). rewrite run_emit.
  cbn [session disk page]. unfold bind at 1.
  change (display_books None (mkWorld (Some (VList l)) d (p ++ [Header "Your Library"])))
    with (display_books (Some (VList l))
            (mkWorld (Some (VList l)) d (p ++ [Header "Your Library"]))).
  destruct l as [|b0 l0] eqn:El.
  - cbn. destruct (save_clicked i).
    + rewrite save_library_run. now rewrite <- !app_assoc.
    + unfold ret. now rewrite <- !app_assoc.
  - rewrite <- El in *. rewrite display_books_books by (subst l; congruence || assumption).
    cbn [session disk page]. destruct (save_clicked i).
    + rewrite save_library_run. subst l. now rewrite <- !app_assoc.
    + unfold ret. subst l. now rewrite <- !app_assoc.
Qed.

Lemma view_all_page_witness :
  main (mkInputs "View All Books" true (mkAddForm "" "" 2023 "" "No" false)
          0 false "Title" "")
    (mkWorld (Some (VList [mk_book "Dune" "Frank Herbert" 1965 "" true]))
       (mkFilesys None None None) [])
  = (Ok tt,
     mkWorld (Some (VList [mk_book "Dune" "Frank Herbert" 1965 "" true]))
       (mkFilesys
          (Some (Json.dumps (VList [mk_book "Dune" "Frank Herbert" 1965 "" true])))
          None None)
       [Header "Your Library";
        Dataframe (books_table [mk_book "Dune" "Frank Herbert" 1965 "" true]);
        Success "Library saved to library.txt"]).
Proof.
  exact (view_all_page
           (mkInputs "View All Books" true (mkAddForm "" "" 2023 "" "No" false)
              0 false "Title" "")
           [mk_book "Dune" "Frank Herbert" 1965 "" true]
           (mkFilesys None None None) [] eq_refl eq_refl).
Defined.

(** X9.  A book that was added is there after a restart: when the add
    page of a session with a store of books has added a valid form, a new
    session started on the file that run left loads the old records
    followed by the new one, and its list page shows them all. *)
Theorem added_book_survives_restart (i j : inputs) (l : list value)
  (d : filesys) (p q : list event) :
  forallb is_book l = true ->
  nav i = "Add a Book" -> valid_form (form i) = true ->
  write_fault d = None -> read_fault d = None ->
  nav j = "View All Books" -> save_clicked j = false ->
  let l' := (l ++ [new_book (form i)])%list in
  let left := disk (snd (script i (mkWorld (Some (VList l)) d p))) in
  script j (mkWorld None left q)
  = (Ok tt,
     mkWorld (Some (VList l')) left
       [Success "Library loaded from library.txt"; Header "Your Library";
        Dataframe (books_table l')]).
Proof.
  intros Hb Hi Hv Hw Hr Hj Hs l' left. subst left.
  rewrite script_in_session, (main_add i _ Hi), add_book_run, Hv.
  cbn [snd disk]. unfold saved. rewrite Hw, Hr.
  rewrite (script_fresh j _ q (Json.dumps (VList l'))) by reflexivity.
  assert (B : forallb is_book l' = true)
    by (apply books_snoc; [exact Hb | apply new_book_is_book]).
  rewrite (JsonFacts.loads_dumps _ (books_wf l' B)).
  rewrite (main_view_all j _ Hj), Hs, run_emit. cbn [session disk page].
  unfold bind at 1.
  change (display_books None ?w) with (display_books (Some (VList l')) w).
  rewrite display_books_books by (subst l'; now destruct l || exact B).
  reflexivity.
Qed.

Lemma added_book_survives_restart_witness :
  let i := mkInputs "Add a Book" false
             (mkAddForm "Dune" "Frank Herbert" 1965 "" "Yes" true)
             0 false "Title" "" in
  let j := mkInputs "View All Books" false
             (mkAddForm "" "" 2023 "" "No" false) 0 false "Title" "" in
  let l := [mk_book "Emma" "Jane Austen" 1815 "Novel" false] in
  let d := mkFilesys (Some "[]") None None in
  script j
    (mkWorld None (disk (snd (script i (mkWorld (Some (VList l)) d [])))) [])
  = (Ok tt,
     mkWorld (Some (VList (l ++ [new_book (form i)])))
       (disk (snd (script i (mkWorld (Some (VList l)) d []))))
       [Success "Library loaded from library.txt"; Header "Your Library";
        Dataframe (books_table (l ++ [new_book (form i)]))]).
Proof.
  exact (added_book_survives_restart
           (mkInputs "Add a Book" false
              (mkAddForm "Dune" "Frank Herbert" 1965 "" "Yes" true)
              0 false "Title" "")
           (mkInputs "View All Books" false
              (mkAddForm "" "" 2023 "" "No" false) 0 false "Title" "")
           [mk_book "Emma" "Jane Austen" 1815 "Novel" false]
           (mkFilesys (Some "[]") None None) [] []
           eq_refl eq_refl eq_refl eq_refl eq_refl eq_refl eq_refl).
Defined.

(** X10.  A file that does not parse is lost at the next addition: the
    session starts with an empty store and the error shown, and when that
    same run adds a valid form the file is overwritten with a store that
    holds the new book alone (the text written loads back to that
    store). *)
Theorem unparsable_file_is_overwritten (i : inputs) (d : filesys)
  (q : list event) (text : string) (e : exn) :
  file d = Some text -> read_fault d = None -> write_fault d = None ->
  Json.loads text = Raise e ->
  nav i = "Add a Book" -> valid_form (form i) = true ->
  script i (mkWorld None d q)
  = (Ok tt,
     mkWorld (Some (VList [new_book (form i)]))
       (mkFilesys (Some (Json.dumps (VList [new_book (form i)]))) None None)
       [Error "Error loading library: " e; Header "Add a Book";
        Success "Library saved to library.txt";
        Success ("'" ++ title (form i) ++ "' by " ++ author (form i)
                 ++ " added successfully!")])
  /\ Json.loads (Json.dumps (VList [new_book (form i)]))
     = Ok (VList [new_book (form i)]).
Proof.
  intros Hf Hr Hw He Hi Hv. split.
  - rewrite (script_fresh i d q text Hf Hr), He.
    rewrite (main_add i _ Hi), add_book_run, Hv.
    unfold saved, save_report. rewrite Hw, Hr. reflexivity.
  - now apply JsonFacts.loads_dumps.
Qed.

Lemma unparsable_file_is_overwritten_witness :
  let i := mkInputs "Add a Book" false
             (mkAddForm "Dune" "Frank Herbert" 1965 "" "Yes" true)
             0 false "Title" "" in
  script i (mkWorld None (mkFilesys (Some "[1,]") None None) [])
  = (Ok tt,
     mkWorld (Some (VList [new_book (form i)]))
       (mkFilesys (Some (Json.dumps (VList [new_book (form i)]))) None None)
       [Error "Error loading library: " JSONDecodeError; Header "Add a Book";
        Success "Library saved to library.txt";
        Success ("'" ++ title (form i) ++ "' by " ++ author (form i)
                 ++ " added successfully!")]).
Proof.
  exact (proj1
    (unparsable_file_is_overwritten
       (mkInputs "Add a Book" false
          (mkAddForm "Dune" "Frank Herbert" 1965 "" "Yes" true)
          0 false "Title" "")
       (mkFilesys (Some "[1,]") None None) [] "[1,]" JSONDecodeError
       eq_refl eq_refl eq_refl eq_refl eq_refl eq_refl)).
Defined.

(** ** Searching for what was added *)

Lemma starts_with_refl (s : string) : starts_with s s = true.
Proof.
  induction s as [|c s IH]; simpl; [reflexivity|].
  now rewrite Ascii.eqb_refl, IH.
Qed.

Lemma str_in_refl (s : string) : str_in s s = true.
Proof. destruct s as [|c s]; simpl; [reflexivity|]. now rewrite Ascii.eqb_refl, starts_with_refl. Qed.

(** X11.  A book that was added is found by its own title and by its own
    author: after a valid form is added to a store of books, the search
    for the title of the form by Title, and for its author by Author,
    shows a table of matches, and the new record is among the matches. *)
Theorem added_book_is_found (f : add_form) (l : list value) (d : filesys)
  (p : list event) :
  forallb is_book l = true -> valid_form f = true ->
  let l' := (l ++ [new_book f])%list in
  let added := snd (add_book f (mkWorld (Some (VList l)) d p)) in
  In (new_book f) (title_hits (title f) l')
  /\ In (new_book f) (author_hits (author f) l')
  /\ search_book "Title" (title f) added
     = (Ok tt,
        mkWorld (session added) (disk added)
          (page added
           ++ [Header "Search for Books"; Subheader "Matching Books:";
               Dataframe (books_table (title_hits (title f) l'))]))
  /\ search_book "Author" (author f) added
     = (Ok tt,
        mkWorld (session added) (disk added)
          (page added
           ++ [Header "Search for Books"; Subheader "Matching Books:";
               Dataframe (books_table (author_hits (author f) l'))])).
Proof.
  intros Hb Hv l' added.
  pose proof Hv as Hv'. apply valid_form_spec in Hv' as (_ & Ht & Ha).
  assert (B : forallb is_book l' = true)
    by (apply books_snoc; [exact Hb | apply new_book_is_book]).
  assert (It : In (new_book f) (title_hits (title f) l')).
  { apply filter_In. split; [apply in_or_app; right; now left|].
    apply str_in_refl. }
  assert (Ia : In (new_book f) (author_hits (author f) l')).
  { apply filter_In. split; [apply in_or_app; right; now left|].
    apply str_in_refl. }
  assert (Ea : added = mkWorld (Some (VList l')) (saved (VList l') d)
                         (p ++ [Header "Add a Book"; save_report d;
                                Success ("'" ++ title f ++ "' by " ++ author f
                                         ++ " added successfully!")]))
    by (subst added; now rewrite add_book_run, Hv).
  split; [exact It|]. split; [exact Ia|]. rewrite Ea. cbn [session disk page].
  split.
  - rewrite (search_book_books "Title" (title f)
               (fun b => str_in (lower_str (title f)) (lower_str (book_title b))))
      by (try assumption; intros b w Hbk; now apply matches_title).
    fold (title_hits (title f) l'). unfold search_results.
    destruct (title_hits (title f) l') as [|h hs]; [contradiction|].
    subst l'. destruct l; now rewrite <- !app_assoc.
  - rewrite (search_book_books "Author" (author f)
               (fun b => str_in (lower_str (author f)) (lower_str (book_author b))))
      by (try assumption; intros b w Hbk; now apply matches_author).
    fold (author_hits (author f) l'). unfold search_results.
    destruct (author_hits (author f) l') as [|h hs]; [contradiction|].
    subst l'. destruct l; now rewrite <- !app_assoc.
Qed.

Lemma added_book_is_found_witness :
  In (new_book (mkAddForm "Dune" "Frank Herbert" 1965 "" "Yes" true))
    (title_hits "Dune"
       ([mk_book "Emma" "Jane Austen" 1815 "Novel" false]
        ++ [new_book (mkAddForm "Dune" "Frank Herbert" 1965 "" "Yes" true)])).
Proof.
  exact (proj1
    (added_book_is_found (mkAddForm "Dune" "Frank Herbert" 1965 "" "Yes" true)
       [mk_book "Emma" "Jane Austen" 1815 "Novel" false]
       (mkFilesys None None None) [] eq_refl eq_refl)).
Defined.

(** ** Records that lack a field *)

Lemma has_key_getitem (k : string) (b : value) :
  has_key k b = true -> exists x, getitem b k = Ok x.
Proof.
  destruct b as [ | | | | | d]; try discriminate. simpl.
  destruct (dict_get d k) as [x|]; [eauto | discriminate].
Qed.

Lemma count_read_missing (l1 : list value) (d : list (string * value))
  (l2 : list value) (w : world) :
  forallb (has_key "read") l1 = true -> dict_get d "read" = None ->
  count_read (l1 ++ VDict d :: l2) w = (Raise (KeyError (VStr "read")), w).
Proof.
  intros H1 Hd.
  induction l1 as [|b l1 IH]; rewrite ?app_nil_l, <- ?app_comm_cons;
    cbn [count_read].
  - rewrite run_lift. cbn [getitem]. now rewrite Hd.
  - simpl in H1. apply andb_prop in H1 as [Hb H1].
    destruct (has_key_getitem _ _ Hb) as [x Hx].
    rewrite run_lift, Hx. unfold bind at 1. now rewrite (IH H1).
Qed.

(** X12.  The statistics page reads the field [read] of every record
    before it shows anything: on a store with a record that has no such
    field the run raises [KeyError] for [read], the page holds the header
    alone (no total, no count, no percentage, no chart), and store and file
    are as they were. *)
Theorem display_stats_missing_read (l1 : list value)
  (d : list (string * value)) (l2 : list value) (fs : filesys)
  (p : list event) :
  forallb (has_key "read") l1 = true -> dict_get d "read" = None ->
  display_stats (mkWorld (Some (VList (l1 ++ VDict d :: l2))) fs p)
  = (Raise (KeyError (VStr "read")),
     mkWorld (Some (VList (l1 ++ VDict d :: l2))) fs
       (p ++ [Header "Library Statistics"])).
Proof.
  intros H1 Hd. unfold display_stats. do 2 step.
  assert (T : truthy (VList (l1 ++ VDict d :: l2)) = true) by now destruct l1.
  rewrite T. cbn [negb]. do 2 step. cbn [len]. do 2 step. cbn [iter].
  unfold bind at 1. now rewrite count_read_missing.
Qed.

Lemma display_stats_missing_read_witness :
  display_stats
    (mkWorld
       (Some (VList ([mk_book "Dune" "Frank Herbert" 1965 "" true]
                     ++ VDict [("title", VStr "Emma")] :: [])))
       (mkFilesys None None None) [])
  = (Raise (KeyError (VStr "read")),
     mkWorld
       (Some (VList ([mk_book "Dune" "Frank Herbert" 1965 "" true]
                     ++ VDict [("title", VStr "Emma")] :: [])))
       (mkFilesys None None None)
       ([] ++ [Header "Library Statistics"])).
Proof.
  exact (display_stats_missing_read
           [mk_book "Dune" "Frank Herbert" 1965 "" true]
           [("title", VStr "Emma")] [] (mkFilesys None None None) []
           eq_refl eq_refl).
Defined.

Lemma skipn_head {A} (l : list A) (start : nat) (b : A) (rest : list A) :
  skipn start l = b :: rest ->
  nth_error l start = Some b /\ skipn (S start) l = rest.
Proof.
  revert l. induction start as [|n IH]; intros [|x l] H; try discriminate H.
  - injection H as -> ->. now split.
  - exact (IH l H).
Qed.

Lemma labels_missing (l : list value) (fs : filesys) (p : list event)
  (r1 : list value) (d : list (string * value)) (r2 : list value) :
  forallb is_book r1 = true -> dict_get d "title" = None ->
  forall start,
  skipn start l = (r1 ++ VDict d :: r2)%list ->
  for_each option_label (seq start (List.length (r1 ++ VDict d :: r2)))
    (mkWorld (Some (VList l)) fs p)
  = (Raise (KeyError (VStr "title")), mkWorld (Some (VList l)) fs p).
Proof.
  intros Hb Hd. induction r1 as [|b r1 IH]; intros start Hs;
    rewrite ?app_nil_l, <- ?app_comm_cons in *;
    cbn [List.length seq for_each];
    apply skipn_head in Hs as [Hn Hs].
  - unfold bind at 1, option_label. do 2 step. cbn [getindex]. rewrite Hn.
    step. cbn [getitem]. now rewrite Hd.
  - apply andb_prop in Hb as [Hb0 Hb].
    unfold bind at 1. rewrite (option_label_book l fs p start b Hn Hb0).
    unfold bind at 1. now rewrite (IH Hb (S start) Hs).
Qed.

Lemma dicts_records (l : list value) :
  forallb is_dict l = true -> exists rs, Pd.records l = Some rs.
Proof.
  induction l as [|b l IH]; simpl; [eauto|].
  intros H. apply andb_prop in H as [Hb Hl]. destruct (IH Hl) as [rs E].
  destruct b; try discriminate. rewrite E. simpl. eauto.
Qed.

(** X13.  One record without a title makes the remove page fail for the
    whole store: the labels of the select box are computed for every
    record when the page is drawn, so the run raises [KeyError] for
    [title] whether the button is pressed or not, no select box is shown,
    nothing is removed and nothing is written. *)
Theorem remove_page_missing_title (l1 : list value)
  (d : list (string * value)) (l2 : list value) (fs : filesys)
  (p : list event) (i : nat) (clicked : bool) :
  forallb is_book l1 = true -> dict_get d "title" = None ->
  forallb is_dict l2 = true ->
  remove_book i clicked (mkWorld (Some (VList (l1 ++ VDict d :: l2))) fs p)
  = (Raise (KeyError (VStr "title")),
     mkWorld (Some (VList (l1 ++ VDict d :: l2))) fs
       (p ++ [Header "Remove a Book"])).
Proof.
  intros H1 Hd H2.
  assert (D : forallb is_dict (l1 ++ VDict d :: l2) = true).
  { rewrite forallb_app. simpl. rewrite H2, andb_true_r.
    apply forallb_forall. intros b Hb. rewrite forallb_forall in H1.
    destruct (is_book_fields b (H1 b Hb)) as (db & -> & _). reflexivity. }
  destruct (dicts_records _ D) as [rs Er].
  assert (T : truthy (VList (l1 ++ VDict d :: l2)) = true) by now destruct l1.
  unfold remove_book. do 2 step. rewrite T. cbn [negb]. step.
  unfold Pd.make. rewrite Er. do 2 step. cbn [len].
  unfold bind at 1.
  now rewrite (labels_missing _ fs _ l1 d l2 H1 Hd 0 eq_refl).
Qed.

Lemma remove_page_missing_title_witness :
  remove_book 0 true
    (mkWorld
       (Some (VList ([mk_book "Dune" "Frank Herbert" 1965 "" true]
                     ++ VDict [("author", VStr "Jane Austen")] :: [])))
       (mkFilesys (Some "[]") None None) [])
  = (Raise (KeyError (VStr "title")),
     mkWorld
       (Some (VList ([mk_book "Dune" "Frank Herbert" 1965 "" true]
                     ++ VDict [("author", VStr "Jane Austen")] :: [])))
       (mkFilesys (Some "[]") None None)
       ([] ++ [Header "Remove a Book"])).
Proof.
  exact (remove_page_missing_title
           [mk_book "Dune" "Frank Herbert" 1965 "" true]
           [("author", VStr "Jane Austen")] [] (mkFilesys (Some "[]") None None)
           [] 0 true eq_refl eq_refl eq_refl).
Defined.

Lemma search_loop_missing (by_ key term : string) (l1 : list value)
  (d : list (string * value)) (l2 : list value) (w : world) :
  (forall b, is_book b = true -> exists m, matches by_ term b w = (Ok m, w)) ->
  matches by_ term (VDict d) w = (Raise (KeyError (VStr key)), w) ->
  forallb is_book l1 = true ->
  forall acc,
  search_loop by_ term (l1 ++ VDict d :: l2) acc w
  = (Raise (KeyError (VStr key)), w).
Proof.
  intros Hm Hbad H1. induction l1 as [|b l1 IH]; intros acc;
    rewrite ?app_nil_l, <- ?app_comm_cons;
    cbn [search_loop]; unfold bind at 1.
  - now rewrite Hbad.
  - simpl in H1. apply andb_prop in H1 as [Hb H1].
    destruct (Hm b Hb) as [m ->]. apply (IH H1).
Qed.

(** X14.  A search reads the searched field of every record, in order:
    with a non-empty term, the search by Title on a store of records in
    which one, behind books, has no title raises [KeyError] for [title]
    and shows no result, and likewise the search by Author for [author].
    Store and file are as they were. *)
Theorem search_missing_field (l1 : list value) (d : list (string * value))
  (l2 : list value) (fs : filesys) (p : list event) (term : string) :
  forallb is_book l1 = true -> term <> "" ->
  let w := mkWorld (Some (VList (l1 ++ VDict d :: l2))) fs p in
  (dict_get d "title" = None ->
     search_book "Title" term w
     = (Raise (KeyError (VStr "title")),
        mkWorld (session w) fs (p ++ [Header "Search for Books"])))
  /\ (dict_get d "author" = None ->
      search_book "Author" term w
      = (Raise (KeyError (VStr "author")),
         mkWorld (session w) fs (p ++ [Header "Search for Books"]))).
Proof.
  intros H1 Ht w. subst w. cbn [session].
  assert (T : truthy (VList (l1 ++ VDict d :: l2)) = true) by now destruct l1.
  apply truthy_str in Ht.
  split; intros Hd; unfold search_book; do 2 step; rewrite T; cbn [negb];
    rewrite Ht; do 2 step; cbn [iter]; unfold bind at 1.
  - rewrite (search_loop_missing "Title" "title"); try assumption; try reflexivity.
    + intros b Hb. eexists. now apply matches_title.
    + unfold matches. cbn [String.eqb Ascii.eqb Bool.eqb].
      unfold bind, lift. cbn [getitem]. now rewrite Hd.
  - rewrite (search_loop_missing "Author" "author"); try assumption; try reflexivity.
    + intros b Hb. eexists. now apply matches_author.
    + unfold matches. cbn [String.eqb Ascii.eqb Bool.eqb].
      unfold bind, lift, ret. cbn [getitem]. now rewrite Hd.
Qed.

Lemma search_missing_field_witness :
  search_book "Author" "a"
    (mkWorld
       (Some (VList ([mk_book "Dune" "Frank Herbert" 1965 "" true]
                     ++ VDict [("title", VStr "Emma")] :: [])))
       (mkFilesys None None None) [])
  = (Raise (KeyError (VStr "author")),
     mkWorld
       (Some (VList ([mk_book "Dune" "Frank Herbert" 1965 "" true]
                     ++ VDict [("title", VStr "Emma")] :: [])))
       (mkFilesys None None None)
       ([] ++ [Header "Search for Books"])).
Proof.
  refine (proj2 (search_missing_field
           [mk_book "Dune" "Frank Herbert" 1965 "" true]
           [("title", VStr "Emma")] [] (mkFilesys None None None) [] "a"
           eq_refl _) eq_refl).
  discriminate.
Defined.

(** ** The counts of the chart *)

Lemma total_set (d : list (string * Z)) (k : string) (v : Z) :
  total (map snd (dict_set d k v))
  = (total (map snd d)
     - match dict_get d k with Some n => n | None => 0 end + v)%Z.
Proof.
  unfold total. induction d as [|[k' v'] d IH]; simpl; [lia|].
  destruct (String.eqb k' k); simpl; [lia|]. rewrite IH. lia.
Qed.

Lemma tally_total (gs : list string) :
  forall counts : list (string * Z),
  total (map snd (tally gs counts))
  = (total (map snd counts) + Z.of_nat (List.length gs))%Z.
Proof.
  induction gs as [|g gs IH]; intros counts; cbn [tally List.length].
  - lia.
  - rewrite IH. destruct (dict_get counts g) as [n|] eqn:E;
      rewrite total_set, E; lia.
Qed.

Lemma positive_get (d : list (string * Z)) (k : string) (n : Z) :
  Forall (fun c => 1 <= c)%Z (map snd d) -> dict_get d k = Some n ->
  (1 <= n)%Z.
Proof.
  induction d as [|[k' v'] d IH]; simpl; [discriminate|].
  intros H E. inversion H as [|? ? Hv Hd]; subst.
  destruct (String.eqb k' k); [now injection E as <- | now apply IH].
Qed.

Lemma positive_set (d : list (string * Z)) (k : string) (v : Z) :
  Forall (fun c => 1 <= c)%Z (map snd d) -> (1 <= v)%Z ->
  Forall (fun c => 1 <= c)%Z (map snd (dict_set d k v)).
Proof.
  intros H Hv. induction d as [|[k' v'] d IH]; simpl.
  - now constructor.
  - inversion H as [|? ? Hv' Hd]; subst.
    destruct (String.eqb k' k); simpl; constructor; auto.
Qed.

Lemma tally_positive (gs : list string) :
  forall counts : list (string * Z),
  Forall (fun c => 1 <= c)%Z (map snd counts) ->
  Forall (fun c => 1 <= c)%Z (map snd (tally gs counts)).
Proof.
  induction gs as [|g gs IH]; intros counts H; cbn [tally]; [exact H|].
  apply IH. destruct (dict_get counts g) as [n|] eqn:E.
  - apply positive_set; [exact H|]. pose proof (positive_get _ _ _ H E). lia.
  - apply positive_set; [exact H | lia].
Qed.

(** X15.  On a non-empty store of books the chart of the statistics page
    accounts for every record exactly once: it has as many counts as
    genres, every count is at least one, and the counts add up to the
    number shown as Total Books. *)
Theorem display_stats_counts_add_up (l : list value) (fs : filesys)
  (p : list event) :
  l <> [] -> forallb is_book l = true ->
  exists shown genres counts,
    display_stats (mkWorld (Some (VList l)) fs p)
    = (Ok tt,
       mkWorld (Some (VList l)) fs
         (p ++ Header "Library Statistics"
               :: Metric "Total Books" (VInt (Z.of_nat (List.length l)))
               :: shown ++ [BarChart genres counts]))
    /\ List.length genres = List.length counts
    /\ Forall (fun c => 1 <= c)%Z counts
    /\ total counts = Z.of_nat (List.length l).
Proof.
  intros Hne Hb. rewrite (display_stats_books l fs p Hne Hb).
  eexists [_; _; _], _, _. split; [reflexivity|]. split; [|split].
  - now rewrite !length_map.
  - apply tally_positive. constructor.
  - rewrite tally_total, length_map. unfold total. simpl. lia.
Qed.

Lemma display_stats_counts_add_up_witness :
  exists shown genres counts,
    display_stats
      (mkWorld
         (Some (VList [mk_book "Dune" "Frank Herbert" 1965 "SF" true;
                       mk_book "Emma" "Jane Austen" 1815 "" false;
                       mk_book "Solaris" "Stanislaw Lem" 1961 "SF" true]))
         (mkFilesys None None None) [])
    = (Ok tt,
       mkWorld
         (Some (VList [mk_book "Dune" "Frank Herbert" 1965 "SF" true;
                       mk_book "Emma" "Jane Austen" 1815 "" false;
                       mk_book "Solaris" "Stanislaw Lem" 1961 "SF" true]))
         (mkFilesys None None None)
         ([] ++ Header "Library Statistics"
             :: Metric "Total Books" (VInt (Z.of_nat 3))
             :: shown ++ [BarChart genres counts]))
    /\ List.length genres = List.length counts
    /\ Forall (fun c => 1 <= c)%Z counts
    /\ total counts = Z.of_nat 3.
Proof.
  apply (display_stats_counts_add_up
           [mk_book "Dune" "Frank Herbert" 1965 "SF" true;
            mk_book "Emma" "Jane Austen" 1815 "" false;
            mk_book "Solaris" "Stanislaw Lem" 1961 "SF" true]
           (mkFilesys None None None) []).
  - discriminate.
  - reflexivity.
Defined.

(** ** Records without a genre *)

Lemma count_read_some (l : list value) (w : world) :
  forallb (has_key "read") l = true ->
  count_read l w = (Ok (List.length (filter counts_as_read l)), w).
Proof.
  induction l as [|b l IH]; intros H; cbn [count_read filter].
  - reflexivity.
  - simpl in H. apply andb_prop in H as [Hb Hl].
    destruct (has_key_getitem _ _ Hb) as [x Hx].
    rewrite run_lift, Hx. unfold bind at 1. rewrite (IH Hl).
    unfold ret, counts_as_read. rewrite Hx. now destruct (truthy x).
Qed.

Lemma count_genres_missing (l1 : list value) (d : list (string * value))
  (l2 : list value) (w : world) :
  forallb is_book l1 = true -> dict_get d "genre" = None ->
  forall acc,
  count_genres (l1 ++ VDict d :: l2) acc w
  = (Raise (KeyError (VStr "genre")), w).
Proof.
  intros H1 Hd. induction l1 as [|b l1 IH]; intros acc;
    rewrite ?app_nil_l, <- ?app_comm_cons; cbn [count_genres].
  - rewrite run_lift. cbn [getitem]. now rewrite Hd.
  - simpl in H1. apply andb_prop in H1 as [Hb H1].
    destruct (book_getitem b Hb) as (_ & _ & _ & Hg & _).
    rewrite run_lift, Hg. rewrite run_lift. cbn [genre_key]. apply (IH H1).
Qed.

Lemma books_have_read (l : list value) :
  forallb is_book l = true -> forallb (has_key "read") l = true.
Proof.
  intros H. apply forallb_forall. intros b Hb. rewrite forallb_forall in H.
  destruct (is_book_fields b (H b Hb)) as (db & -> & _ & _ & _ & _ & _ & Hr).
  simpl. now rewrite Hr.
Qed.

(** X16.  The statistics page shows its three numbers before it reads a
    genre: on a store in which every record has the field [read] and one,
    behind books, has no genre, the page holds the total (the number of
    records), the read count (the number of records whose [read] value is
    true in a condition), the percentage of the two, and the heading of
    the chart; then the run raises [KeyError] for [genre] and no chart is
    shown. *)
Theorem display_stats_missing_genre (l1 : list value)
  (d : list (string * value)) (l2 : list value) (fs : filesys)
  (p : list event) :
  forallb is_book l1 = true -> dict_get d "genre" = None ->
  forallb (has_key "read") (VDict d :: l2) = true ->
  let l := (l1 ++ VDict d :: l2)%list in
  let n := List.length (filter counts_as_read l) in
  display_stats (mkWorld (Some (VList l)) fs p)
  = (Raise (KeyError (VStr "genre")),
     mkWorld (Some (VList l)) fs
       (p ++ [Header "Library Statistics";
              Metric "Total Books" (VInt (Z.of_nat (List.length l)));
              Metric "Books Read" (VInt (Z.of_nat n));
              Metric "Percentage Read"
                (VStr (format_1f (percentage_read n (List.length l))
                       ++ "%"));
              Subheader "Genre Distribution"])).
Proof.
  intros H1 Hd H2 l n.
  assert (R : forallb (has_key "read") l = true).
  { unfold l. rewrite forallb_app, (books_have_read l1 H1). exact H2. }
  assert (T : truthy (VList l) = true) by (unfold l; now destruct l1).
  assert (P : (0 <? List.length l)%nat = true).
  { apply Nat.ltb_lt. unfold l. rewrite length_app. simpl. lia. }
  pose proof (count_read_some l
                (mkWorld (Some (VList l)) fs (p ++ [Header "Library Statistics"]))
                R) as E.
  fold n in E.
  unfold display_stats. do 2 step. rewrite T. cbn [negb].
  do 2 step. cbn [len]. do 2 step. cbn [iter].
  unfold bind at 1. rewrite E.
  do 3 step. rewrite P. do 3 step. cbn [iter]. unfold bind at 1.
  unfold l at 1. rewrite (count_genres_missing l1 d l2 _ H1 Hd).
  now rewrite <- !app_assoc.
Qed.

Lemma display_stats_missing_genre_witness :
  display_stats
    (mkWorld
       (Some (VList ([mk_book "Dune" "Frank Herbert" 1965 "" true]
                     ++ [VDict [("read", VBool false)];
                         VDict [("read", VInt 7); ("genre", VStr "SF")]])))
       (mkFilesys None None None) [])
  = (Raise (KeyError (VStr "genre")),
     mkWorld
       (Some (VList ([mk_book "Dune" "Frank Herbert" 1965 "" true]
                     ++ [VDict [("read", VBool false)];
                         VDict [("read", VInt 7); ("genre", VStr "SF")]])))
       (mkFilesys None None None)
       ([] ++ [Header "Library Statistics";
               Metric "Total Books" (VInt 3);
               Metric "Books Read" (VInt 2);
               Metric "Percentage Read" (VStr "66.7%");
               Subheader "Genre Distribution"])).
Proof.
  exact (display_stats_missing_genre
           [mk_book "Dune" "Frank Herbert" 1965 "" true]
           [("read", VBool false)]
           [VDict [("read", VInt 7); ("genre", VStr "SF")]]
           (mkFilesys None None None) []
           eq_refl eq_refl eq_refl).
Defined.

(** ** The file and the store stay in step *)

Lemma in_step_same (w w' : world) :
  session w' = session w -> disk w' = disk w -> in_step w -> in_step w'.
Proof.
  intros Hs Hd (text & v & Hf & Hv & Hl). exists text, v.
  rewrite Hs, Hd. now repeat split.
Qed.

Lemma in_step_saved (v : value) (d : filesys) (p : list event) :
  wf v = true -> write_fault d = None ->
  in_step (mkWorld (Some v) (saved v d) p)
  /\ write_fault (saved v d) = None.
Proof.
  intros Hw Hd. unfold saved. rewrite Hd. split; [|reflexivity].
  exists (Json.dumps v), v. repeat split. now apply JsonFacts.loads_dumps.
Qed.

Lemma in_step_then_save {A} (m : M A) (w : world) :
  shows_only m -> in_step w -> write_fault (disk w) = None ->
  in_step (snd ((m ;; save_library) w))
  /\ write_fault (disk (snd ((m ;; save_library) w))) = None.
Proof.
  intros Hm Hin Hw. unfold bind. destruct (Hm w) as [Hs Hd].
  destruct (m w) as [[a|e|] w1]; cbn [snd] in *;
    try (split; [now apply (in_step_same _ _ Hs Hd) | now rewrite Hd]).
  assert (Hin1 : in_step w1) by now apply (in_step_same _ _ Hs Hd).
  destruct Hin1 as (text & v & Hf & Hv & Hl).
  destruct w1 as [s1 d1 p1]. cbn [session disk] in *. subst s1 d1.
  rewrite Hv, save_library_run. cbn [snd disk].
  apply in_step_saved; [apply (loads_wf text v Hl) | exact Hw].
Qed.

(** X17.  The file keeps in step with the store: in a session whose store
    is a list of books that the text of the file loads to, and whose file
    can be written, every run (whatever the page and the widgets, also a
    run that raises) ends with a file whose text loads to the store the
    run leaves. *)
Theorem run_keeps_file_in_step (i : inputs) (l : list value) (d : filesys)
  (p : list event) :
  forallb is_book l = true -> write_fault d = None ->
  in_step (mkWorld (Some (VList l)) d p) ->
  let w' := snd (script i (mkWorld (Some (VList l)) d p)) in
  in_step w' /\ write_fault (disk w') = None.
Proof.
  intros Hb Hw Hin. rewrite script_in_session. cbv zeta.
  assert (Hin' : forall q, in_step (mkWorld (Some (VList l)) d q)).
  { intros q. revert Hin. now apply in_step_same. }
  assert (Same : forall (m : M unit) q, shows_only m ->
            in_step (snd (m (mkWorld (Some (VList l)) d q)))
            /\ write_fault (disk (snd (m (mkWorld (Some (VList l)) d q)))) = None).
  { intros m q Hm. destruct (Hm (mkWorld (Some (VList l)) d q)) as [Hs Hd].
    split; [now apply (in_step_same _ _ Hs Hd) | now rewrite Hd]. }
  assert (Saved : forall l' q,
            forallb is_book l' = true ->
            in_step (mkWorld (Some (VList l')) (saved (VList l') d) q)
            /\ write_fault (saved (VList l') d) = None).
  { intros l' q Hl'. apply in_step_saved; [now apply books_wf | exact Hw]. }
  unfold main.
  destruct (String.eqb (nav i) "View All Books").
  { rewrite run_emit. cbn [session disk page]. destruct (save_clicked i).
    - apply in_step_then_save;
        [apply shows_only_display_books | apply Hin' | exact Hw].
    - apply Same. apply shows_only_bind;
        [apply shows_only_display_books | intros _; apply shows_only_ret]. }
  destruct (String.eqb (nav i) "Add a Book").
  { rewrite add_book_run. destruct (valid_form (form i)); cbn [snd disk].
    - apply Saved, books_snoc; [exact Hb | apply new_book_is_book].
    - split; [apply Hin' | exact Hw]. }
  destruct (String.eqb (nav i) "Remove a Book").
  { destruct l as [|b0 l0] eqn:El.
    - rewrite remove_book_empty by reflexivity. cbn [snd disk].
      split; [apply Hin' | exact Hw].
    - rewrite <- El in *.
      rewrite remove_book_books by (subst l; congruence || assumption).
      cbv zeta. destruct (remove_clicked i);
        [|cbn [snd disk]; split; [apply Hin' | exact Hw]].
      destruct (nth_error l (book_to_remove i));
        [|cbn [snd disk]; split; [apply Hin' | exact Hw]].
      cbn [snd disk]. now apply Saved, books_without. }
  destruct (String.eqb (nav i) "Search for Books");
    [apply Same, shows_only_search_book|].
  destruct (String.eqb (nav i) "Statistics");
    [apply Same, shows_only_display_stats|].
  apply Same, shows_only_ret.
Qed.

Lemma run_keeps_file_in_step_witness :
  in_step
    (snd (script
            (mkInputs "Remove a Book" false
               (mkAddForm "" "" 2023 "" "No" false) 0 true "Title" "")
            (mkWorld
               (Some (VList [mk_book "Emma" "Jane Austen" 1815 "Novel" false]))
               (mkFilesys
                  (Some (Json.dumps
                           (VList [mk_book "Emma" "Jane Austen" 1815 "Novel"
                                     false])))
                  None None) []))).
Proof.
  refine (proj1
    (run_keeps_file_in_step
       (mkInputs "Remove a Book" false
          (mkAddForm "" "" 2023 "" "No" false) 0 true "Title" "")
       [mk_book "Emma" "Jane Austen" 1815 "Novel" false]
       (mkFilesys
          (Some (Json.dumps
                   (VList [mk_book "Emma" "Jane Austen" 1815 "Novel" false])))
          None None) [] eq_refl eq_refl _)).
  exists (Json.dumps (VList [mk_book "Emma" "Jane Austen" 1815 "Novel" false])),
    (VList [mk_book "Emma" "Jane Austen" 1815 "Novel" false]).
  repeat split.
Defined.

(** ** What a run in a session depends on *)

Lemma file_blind_bind {A B} (m : M A) (k : A -> M B) :
  file_blind m -> (forall a, file_blind (k a)) -> file_blind (bind m k).
Proof.
  intros Hm Hk w1 w2 S. unfold bind. destruct (Hm w1 w2 S) as [Hr Hs].
  destruct (m w1) as [r1 v1], (m w2) as [r2 v2]. cbn [fst snd] in *. subst r2.
  destruct r1 as [a|e|]; [now apply Hk | now split | now split].
Qed.

Lemma file_blind_emit (e : event) : file_blind (emit e).
Proof.
  intros w1 w2 (Hs & Hp & Hw). unfold emit, same_view. cbn.
  repeat split; congruence.
Qed.

Lemma file_blind_lift {A} (r : result A) : file_blind (lift r).
Proof. intros w1 w2 S. now split. Qed.

Lemma file_blind_ret {A} (a : A) : file_blind (ret a).
Proof. intros w1 w2 S. now split. Qed.

Lemma file_blind_get_library : file_blind get_library.
Proof.
  intros w1 w2 S. pose proof S as (Hs & _). unfold get_library. rewrite Hs.
  destruct (session w2); now split.
Qed.

Lemma file_blind_set_library (v : value) : file_blind (set_library v).
Proof.
  intros w1 w2 (Hs & Hp & Hw). unfold set_library, same_view. cbn.
  repeat split; congruence.
Qed.

Lemma file_blind_try_except {A} (body : M A) (handler : exn -> M A) :
  file_blind body -> (forall e, file_blind (handler e)) ->
  file_blind (try_except body handler).
Proof.
  intros Hb Hh w1 w2 S. unfold try_except. destruct (Hb w1 w2 S) as [Hr Hs].
  destruct (body w1) as [r1 v1], (body w2) as [r2 v2]. cbn [fst snd] in *.
  subst r2. destruct r1 as [a|e|]; [now split | now apply Hh | now split].
Qed.

Lemma file_blind_open_write : file_blind open_write.
Proof.
  intros w1 w2 S. pose proof S as (Hs & Hp & Hw). unfold open_write.
  rewrite Hw. destruct (write_fault (disk w2)); [now split|].
  unfold same_view. cbn. repeat split; assumption.
Qed.

Lemma file_blind_write_file (text : string) : file_blind (write_file text).
Proof.
  intros w1 w2 (Hs & Hp & Hw). unfold write_file, same_view. cbn.
  repeat split; assumption.
Qed.

Ltac blind :=
  repeat first
    [ apply file_blind_emit | apply file_blind_lift | apply file_blind_ret
    | apply file_blind_get_library | apply file_blind_set_library
    | apply file_blind_open_write | apply file_blind_write_file
    | apply file_blind_try_except; [|intros ?]
    | apply file_blind_bind; [|intros ?]
    | match goal with
      | |- file_blind (if ?b then _ else _) => destruct b
      | |- file_blind (match ?o with Some _ => _ | None => _ end) => destruct o
      end ].

Lemma file_blind_save_library : file_blind save_library.
Proof. unfold save_library. blind. Qed.

Lemma file_blind_for_each {A B} (f : A -> M B) (l : list A) :
  (forall x, file_blind (f x)) -> file_blind (for_each f l).
Proof.
  intros Hf. induction l as [|x l IH]; simpl; blind; [apply Hf | exact IH].
Qed.

Lemma file_blind_display_books (o : option value) :
  file_blind (display_books o).
Proof. unfold display_books. blind. Qed.

Lemma file_blind_search_loop (by_ term : string) (l acc : list value) :
  file_blind (search_loop by_ term l acc).
Proof.
  revert acc. induction l as [|b l IH]; intros acc; simpl; [blind|].
  apply file_blind_bind; [unfold matches; blind | intros m; apply IH].
Qed.

Lemma file_blind_count_read (l : list value) : file_blind (count_read l).
Proof. induction l as [|b l IH]; simpl; blind. exact IH. Qed.

Lemma file_blind_count_genres (l : list value) (acc : list (string * Z)) :
  file_blind (count_genres l acc).
Proof.
  revert acc. induction l as [|b l IH]; intros acc; simpl; blind. apply IH.
Qed.

Lemma file_blind_main (i : inputs) : file_blind (main i).
Proof.
  unfold main, add_book, remove_book, search_book, display_stats.
  blind;
    first [ apply file_blind_display_books | apply file_blind_save_library
          | apply file_blind_search_loop | apply file_blind_count_read
          | apply file_blind_count_genres
          | apply file_blind_for_each; intros ?; unfold option_label; blind ].
Qed.

(** X18.  Once the session has its store a run never reads the file: two
    runs with the same widget values on the same store end the same way,
    leave the same store and show the same page, whatever the file holds
    and whether or not it can be read, provided that an attempt to write
    it is answered alike. *)
Theorem session_never_reads_the_file (i : inputs) (v : value)
  (d1 d2 : filesys) (p1 p2 : list event) :
  write_fault d1 = write_fault d2 ->
  let r1 := script i (mkWorld (Some v) d1 p1) in
  let r2 := script i (mkWorld (Some v) d2 p2) in
  fst r1 = fst r2
  /\ session (snd r1) = session (snd r2)
  /\ page (snd r1) = page (snd r2).
Proof.
  intros Hw. rewrite !script_in_session. cbv zeta.
  destruct (file_blind_main i (mkWorld (Some v) d1 []) (mkWorld (Some v) d2 []))
    as (Hr & Hs & Hp & _); [now repeat split|].
  now repeat split.
Qed.

Lemma session_never_reads_the_file_witness :
  page (snd (script
               (mkInputs "Statistics" false
                  (mkAddForm "" "" 2023 "" "No" false) 0 false "Title" "")
               (mkWorld
                  (Some (VList [mk_book "Dune" "Frank Herbert" 1965 "" true]))
                  (mkFilesys None None None) [])))
  = page (snd (script
                 (mkInputs "Statistics" false
                    (mkAddForm "" "" 2023 "" "No" false) 0 false "Title" "")
                 (mkWorld
                    (Some (VList [mk_book "Dune" "Frank Herbert" 1965 "" true]))
                    (mkFilesys (Some "[") (Some "Permission denied") None) []))).
Proof.
  exact (proj2 (proj2
    (session_never_reads_the_file
       (mkInputs "Statistics" false
          (mkAddForm "" "" 2023 "" "No" false) 0 false "Title" "")
       (VList [mk_book "Dune" "Frank Herbert" 1965 "" true])
       (mkFilesys None None None)
       (mkFilesys (Some "[") (Some "Permission denied") None) [] []
       eq_refl))).
Defined.

End RunFacts.
